(** * BusquedaSemantica_v2: the synchronisation core and the retrieval layer

    A shallow embedding of the parts of the Python sources that keep the
    primary document store (MongoDB) and the vector store (Qdrant)
    consistent, followed by the properties the specification states about
    them and by further properties of the same code: the backups of both
    stores and their restores, the text that is embedded, the dates and
    the filter of a search, and the run of a whole batch.

    Conventions of the embedding:
    - a Python [str] is the [string] of the bytes of its UTF-8 encoding; a
      character is a leading byte with the continuation bytes after it,
      and [len] and iteration go by characters; the score of the text
      search, which lower-cases and prints fields of any type, takes
      [str.lower] and [str] as parameters, because they follow the
      character tables of the interpreter;
    - a Python [float] used as a score is a rational ([Q]); the scores are
      only added, compared and clamped;
    - a Python [dict] is the list of its entries in insertion order, read
      at the first binding of a key; the Qdrant collection is a [gmap] from
      numeric ids to points;
    - a raised exception is the [Error] branch of [res]. *)

From Stdlib Require Import ZArith QArith List Ascii String Bool Lia Lqa.
From Stdlib Require Import Sorting.Permutation Sorting.Sorted.
From stdpp Require Import base option list gmap strings.

Import ListNotations.
Set Warnings "-register-all".
Local Open Scope string_scope.
Local Open Scope Z_scope.

(** ** Results of fallible code *)

Inductive res (A : Type) : Type :=
| Ok (a : A)
| Error (msg : string).
Arguments Ok {A} a.
Arguments Error {A} msg.

Definition is_ok {A} (r : res A) : bool :=
  match r with Ok _ => true | Error _ => false end.

(** ** [hashlib.md5] (RFC 1321), as called by [qdrant_manager.py] *)

Module Hashlib.

Definition mask32 : Z := 0xffffffff.

Definition add32 (a b : Z) : Z := Z.land (a + b) mask32.

Definition not32 (a : Z) : Z := Z.lxor a mask32.

Definition rotl32 (x c : Z) : Z :=
  Z.land (Z.lor (Z.shiftl x c) (Z.shiftr x (32 - c))) mask32.

Definition s_table : list Z :=
  [7; 12; 17; 22; 7; 12; 17; 22; 7; 12; 17; 22; 7; 12; 17; 22;
   5; 9; 14; 20; 5; 9; 14; 20; 5; 9; 14; 20; 5; 9; 14; 20;
   4; 11; 16; 23; 4; 11; 16; 23; 4; 11; 16; 23; 4; 11; 16; 23;
   6; 10; 15; 21; 6; 10; 15; 21; 6; 10; 15; 21; 6; 10; 15; 21].

Definition k_table : list Z :=
  [0xd76aa478; 0xe8c7b756; 0x242070db; 0xc1bdceee;
   0xf57c0faf; 0x4787c62a; 0xa8304613; 0xfd469501;
   0x698098d8; 0x8b44f7af; 0xffff5bb1; 0x895cd7be;
   0x6b901122; 0xfd987193; 0xa679438e; 0x49b40821;
   0xf61e2562; 0xc040b340; 0x265e5a51; 0xe9b6c7aa;
   0xd62f105d; 0x02441453; 0xd8a1e681; 0xe7d3fbc8;
   0x21e1cde6; 0xc33707d6; 0xf4d50d87; 0x455a14ed;
   0xa9e3e905; 0xfcefa3f8; 0x676f02d9; 0x8d2a4c8a;
   0xfffa3942; 0x8771f681; 0x6d9d6122; 0xfde5380c;
   0xa4beea44; 0x4bdecfa9; 0xf6bb4b60; 0xbebfbc70;
   0x289b7ec6; 0xeaa127fa; 0xd4ef3085; 0x04881d05;
   0xd9d4d039; 0xe6db99e5; 0x1fa27cf8; 0xc4ac5665;
   0xf4292244; 0x432aff97; 0xab9423a7; 0xfc93a039;
   0x655b59c3; 0x8f0ccc92; 0xffeff47d; 0x85845dd1;
   0x6fa87e4f; 0xfe2ce6e0; 0xa3014314; 0x4e0811a1;
   0xf7537e82; 0xbd3af235; 0x2ad7d2bb; 0xeb86d391].

(** Four bytes, least significant first, as one 32-bit word. *)
Definition word_le (bs : list Z) : Z :=
  fold_right (fun b acc => b + 256 * acc) 0 bs.

(** The [n] low bytes of [w], least significant first. *)
Fixpoint bytes_le (n : nat) (w : Z) : list Z :=
  match n with
  | O => []
  | S n' => Z.land w 255 :: bytes_le n' (Z.shiftr w 8)
  end.

Fixpoint words_of (n : nat) (bs : list Z) : list Z :=
  match n with
  | O => []
  | S n' => word_le (firstn 4 bs) :: words_of n' (skipn 4 bs)
  end.

(** The message followed by 0x80, zeros up to 56 modulo 64, and its
    length in bits on eight bytes. *)
Definition pad (msg : list Z) : list Z :=
  let len := Z.of_nat (length msg) in
  let zeros := Z.to_nat ((55 - len) mod 64) in
  msg ++ [128] ++ repeat 0 zeros ++ bytes_le 8 (8 * len).

Record state := St { sa : Z; sb : Z; sc : Z; sd : Z }.

Definition init : state :=
  St 0x67452301 0xefcdab89 0x98badcfe 0x10325476.

Definition round (m : list Z) (i : Z) (st : state) : state :=
  let '(St a b c d) := st in
  let '(f, g) :=
    if i <? 16 then (Z.lor (Z.land b c) (Z.land (not32 b) d), i)
    else if i <? 32 then
      (Z.lor (Z.land d b) (Z.land (not32 d) c), (5 * i + 1) mod 16)
    else if i <? 48 then (Z.lxor (Z.lxor b c) d, (3 * i + 5) mod 16)
    else (Z.lxor c (Z.lor b (not32 d)), (7 * i) mod 16) in
  let k := nth (Z.to_nat i) k_table 0 in
  let s := nth (Z.to_nat i) s_table 0 in
  let f' := add32 (add32 (add32 f a) k) (nth (Z.to_nat g) m 0) in
  St d (add32 b (rotl32 f' s)) b c.

Definition block (st : state) (bs : list Z) : state :=
  let m := words_of 16 bs in
  let st' :=
    fold_left (fun acc i => round m (Z.of_nat i) acc) (seq 0 64) st in
  St (add32 (sa st) (sa st')) (add32 (sb st) (sb st'))
     (add32 (sc st) (sc st')) (add32 (sd st) (sd st')).

Fixpoint blocks (n : nat) (st : state) (bs : list Z) : state :=
  match n with
  | O => st
  | S n' => blocks n' (block st (firstn 64 bs)) (skipn 64 bs)
  end.

Definition encode (s : string) : list Z :=
  map (fun c => Z.of_N (N_of_ascii c)) (list_ascii_of_string s).

(** The sixteen bytes of the digest. *)
Definition md5 (msg : list Z) : list Z :=
  let p := pad msg in
  let st := blocks (length p / 64)%nat init p in
  bytes_le 4 (sa st) ++ bytes_le 4 (sb st)
    ++ bytes_le 4 (sc st) ++ bytes_le 4 (sd st).

Definition hex_digit (n : Z) : ascii :=
  nth (Z.to_nat n)
    (list_ascii_of_string "0123456789abcdef") "0"%char.

Definition hex_byte (b : Z) : list ascii :=
  [hex_digit (Z.shiftr b 4); hex_digit (Z.land b 15)].

Definition hexdigest (bs : list Z) : string :=
  string_of_list_ascii (concat (map hex_byte bs)).

(** [hashlib.md5(s.encode()).hexdigest()] *)
Definition md5_hexdigest (s : string) : string :=
  hexdigest (md5 (encode s)).

End Hashlib.

(** ** Python built-ins used on digests *)

Definition digit16 (c : ascii) : option Z :=
  let n := Z.of_N (N_of_ascii c) in
  if (48 <=? n) && (n <=? 57) then Some (n - 48)
  else if (97 <=? n) && (n <=? 102) then Some (n - 87)
  else if (65 <=? n) && (n <=? 70) then Some (n - 55)
  else None.

Fixpoint int16_aux (acc : Z) (cs : list ascii) : res Z :=
  match cs with
  | [] => Ok acc
  | c :: cs' =>
      match digit16 c with
      | Some d => int16_aux (16 * acc + d) cs'
      | None => Error "ValueError: invalid literal for int() with base 16"
      end
  end.

(** [int(s, 16)] on a string of hexadecimal digits. *)
Definition int16 (s : string) : res Z :=
  match list_ascii_of_string s with
  | [] => Error "ValueError: invalid literal for int() with base 16"
  | cs => int16_aux 0 cs
  end.

(** [s[:n]] for [n >= 0]. *)
Definition str_prefix (n : nat) (s : string) : string :=
  string_of_list_ascii (firstn n (list_ascii_of_string s)).

(** ** Python values

    The dynamically typed values that reach the modelled code: the fields
    of a MongoDB document, a Qdrant payload and a JSON document read by
    [json.load]. A [float] carries its value and the text [repr] gives it;
    a nested [dict] keeps its entries in order, first binding first. *)

Record pyfloat := PyFloat { fvalor : Q; frepr : string }.

Inductive pyval : Type :=
| PNone
| PBool (b : bool)
| PInt (n : Z)
| PFloat (f : pyfloat)
| PStr (s : string)
| PObjectId (hex : string)
| PList (l : list pyval)
| PDict (d : list (string * pyval)).

Definition is_Some_bool {A} (o : option A) : bool :=
  match o with Some _ => true | None => false end.

Definition from_option {A} (f : A -> pyval) (o : option A) : pyval :=
  match o with Some a => f a | None => PNone end.

Definition PStrs (l : list string) : pyval := PList (map PStr l).

Definition PFloats (l : list pyfloat) : pyval := PList (map PFloat l).

Fixpoint assoc_get {A} (k : string) (d : list (string * A)) : option A :=
  match d with
  | [] => None
  | (k', v) :: d' => if String.eqb k k' then Some v else assoc_get k d'
  end.

(** [bool(v)] *)
Definition py_truthy (v : pyval) : bool :=
  match v with
  | PNone => false
  | PBool b => b
  | PInt n => negb (n =? 0)
  | PFloat f => negb (Qeq_bool (fvalor f) 0)
  | PStr s => negb (String.eqb s "")
  | PObjectId _ => true
  | PList l => match l with [] => false | _ => true end
  | PDict d => match d with [] => false | _ => true end
  end.

(** [needle in hay] on two strings. *)
Fixpoint is_prefix (p s : list ascii) : bool :=
  match p, s with
  | [], _ => true
  | _ :: _, [] => false
  | a :: p', b :: s' => Ascii.eqb a b && is_prefix p' s'
  end.

Fixpoint is_infix (p s : list ascii) : bool :=
  is_prefix p s ||
  match s with
  | [] => false
  | _ :: s' => is_infix p s'
  end.

Definition str_in (needle hay : string) : bool :=
  is_infix (list_ascii_of_string needle) (list_ascii_of_string hay).

(** [s.lower()] of a text of ASCII characters, the only ones whose case
    is decided here: the letters A to Z become a to z. *)
Definition lower_ascii (c : ascii) : ascii :=
  let n := N_of_ascii c in
  if ((65 <=? n) && (n <=? 90))%N then ascii_of_N (n + 32) else c.

Definition lower_de_ascii (s : string) : string :=
  string_of_list_ascii (map lower_ascii (list_ascii_of_string s)).

(** The characters of a text: each leading byte of the encoding with the
    continuation bytes (10xxxxxx) that follow it. *)
Definition es_continuacion (c : ascii) : bool :=
  let n := N_of_ascii c in ((128 <=? n) && (n <? 192))%N.

(** The bytes that follow go on with the character begun before them. *)
Definition continua (resto : list ascii) : bool :=
  match resto with
  | c :: _ => es_continuacion c
  | [] => false
  end.

Fixpoint agrupar (cs : list ascii) : list (list ascii) :=
  match cs with
  | [] => []
  | c :: cs' =>
      match agrupar cs' with
      | g :: gs => if continua g then (c :: g) :: gs else [c] :: g :: gs
      | [] => [[c]]
      end
  end.

Definition caracteres (s : string) : list string :=
  map string_of_list_ascii (agrupar (list_ascii_of_string s)).

(** [repr(s)] of a string: the quote is the apostrophe unless the string
    holds an apostrophe and no double quote; the backslash, the quote and
    the control characters are escaped. The characters beyond ASCII are
    taken to be printable ones (letters, marks, signs), which [repr]
    leaves as they are. *)
Definition repr_char (q : ascii) (c : ascii) : list ascii :=
  let n := Z.of_N (N_of_ascii c) in
  if Ascii.eqb c "\"%char then ["\"; "\"]%char
  else if Ascii.eqb c q then ["\"%char; q]
  else if n =? 10 then ["\"; "n"]%char
  else if n =? 13 then ["\"; "r"]%char
  else if n =? 9 then ["\"; "t"]%char
  else if (n <? 32) || (n =? 127) then
    ["\"; "x"]%char ++ Hashlib.hex_byte n
  else [c].

Definition apostrophe : ascii := ascii_of_N 39.
Definition double_quote : ascii := ascii_of_N 34.

Definition repr_str (s : string) : string :=
  let cs := list_ascii_of_string s in
  let q :=
    if existsb (Ascii.eqb apostrophe) cs
       && negb (existsb (Ascii.eqb double_quote) cs)
    then double_quote else apostrophe in
  string_of_list_ascii ([q] ++ concat (map (repr_char q) cs) ++ [q]).

Fixpoint join (sep : string) (l : list string) : string :=
  match l with
  | [] => ""
  | [s] => s
  | s :: l' => s ++ sep ++ join sep l'
  end.

(** The decimal digits of a non-negative number, as [str(n)] gives them. *)
Fixpoint digits_aux (fuel : nat) (n : Z) (acc : list ascii) : list ascii :=
  match fuel with
  | O => acc
  | S fuel' =>
      let d := ascii_of_N (Z.to_N (48 + n mod 10)) in
      if n <? 10 then d :: acc else digits_aux fuel' (n / 10) (d :: acc)
  end.

Definition str_int (n : Z) : string :=
  let a := Z.abs n in
  let ds := digits_aux (S (Z.to_nat (Z.log2 a))) a [] in
  string_of_list_ascii (if n <? 0 then "-"%char :: ds else ds).

(** [repr(v)], and [str(v)], which differs on strings only. *)
Fixpoint py_repr (v : pyval) : string :=
  match v with
  | PNone => "None"
  | PBool true => "True"
  | PBool false => "False"
  | PInt n => str_int n
  | PFloat f => frepr f
  | PStr s => repr_str s
  | PObjectId h => "ObjectId(" ++ repr_str h ++ ")"
  | PList l => "[" ++ join ", " (map py_repr l) ++ "]"
  | PDict d =>
      "{" ++ join ", "
        (map (fun kv => repr_str (fst kv) ++ ": " ++ py_repr (snd kv)) d)
      ++ "}"
  end%string.

Definition py_str (v : pyval) : string :=
  match v with
  | PStr s => s
  | PObjectId h => h
  | _ => py_repr v
  end.

(** ** [models.py] *)

Module Modelos.

(** [ImagenDocumento]. [model_fields_set] is the set of fields pydantic
    recorded as given at construction or assigned since. *)
Record ImagenDocumento := {
  id : option string;
  id_hash : option string;
  hash_sha512 : string;
  nombre : string;
  ruta : string;
  ruta_alternativa : option string;
  ancho : Z;
  alto : Z;
  peso : pyfloat;
  fecha_creacion_dia : string;
  fecha_creacion_mes : string;
  fecha_creacion_anio : string;
  fecha_creacion_hora : string;
  fecha_creacion_minuto : string;
  fecha_procesamiento_dia : string;
  fecha_procesamiento_mes : string;
  fecha_procesamiento_anio : string;
  fecha_procesamiento_hora : string;
  fecha_procesamiento_minuto : string;
  coordenadas : pyval;
  barrio : string;
  calle : string;
  ciudad : string;
  cp : string;
  pais : string;
  objeto_procesado : bool;
  objetos : list string;
  personas : list string;
  embedding : option (list pyfloat);
  descripcion_semantica : option string;
  qdrant : bool;
  model_fields_set : list string
}.

(** [validar_coordenadas], the validator of the field [coordenadas]. *)
Definition validar_coordenadas (v : pyval) : pyval :=
  match v with
  | PNone => v
  | PList (lat :: lon :: _) => PDict [("lat", lat); ("lon", lon)]
  | PDict _ => v
  | _ => PNone
  end.

Definition get_fecha_creacion (d : ImagenDocumento) : string :=
  (fecha_creacion_dia d ++ "/" ++ fecha_creacion_mes d ++ "/"
     ++ fecha_creacion_anio d ++ " " ++ fecha_creacion_hora d ++ ":"
     ++ fecha_creacion_minuto d)%string.

Definition get_fecha_procesamiento (d : ImagenDocumento) : string :=
  (fecha_procesamiento_dia d ++ "/" ++ fecha_procesamiento_mes d ++ "/"
     ++ fecha_procesamiento_anio d ++ " " ++ fecha_procesamiento_hora d
     ++ ":" ++ fecha_procesamiento_minuto d)%string.

(** The assignments [documento.descripcion_semantica = ...] and
    [documento.embedding = ...] of [procesar_documento]. *)
Definition con_embedding (d : ImagenDocumento) (texto : string)
    (emb : list pyfloat) : ImagenDocumento :=
  {| id := id d; id_hash := id_hash d; hash_sha512 := hash_sha512 d;
     nombre := nombre d; ruta := ruta d;
     ruta_alternativa := ruta_alternativa d;
     ancho := ancho d; alto := alto d; peso := peso d;
     fecha_creacion_dia := fecha_creacion_dia d;
     fecha_creacion_mes := fecha_creacion_mes d;
     fecha_creacion_anio := fecha_creacion_anio d;
     fecha_creacion_hora := fecha_creacion_hora d;
     fecha_creacion_minuto := fecha_creacion_minuto d;
     fecha_procesamiento_dia := fecha_procesamiento_dia d;
     fecha_procesamiento_mes := fecha_procesamiento_mes d;
     fecha_procesamiento_anio := fecha_procesamiento_anio d;
     fecha_procesamiento_hora := fecha_procesamiento_hora d;
     fecha_procesamiento_minuto := fecha_procesamiento_minuto d;
     coordenadas := coordenadas d;
     barrio := barrio d; calle := calle d; ciudad := ciudad d;
     cp := cp d; pais := pais d;
     objeto_procesado := objeto_procesado d;
     objetos := objetos d; personas := personas d;
     embedding := Some emb;
     descripcion_semantica := Some texto;
     qdrant := qdrant d;
     model_fields_set :=
       model_fields_set d ++ ["descripcion_semantica"; "embedding"] |}.

(** [model_dump(by_alias=True)]: every field, [id] under its alias. *)
Definition model_dump (d : ImagenDocumento) : list (string * pyval) :=
  [ ("id", from_option PStr (id d));
    ("id_hash", from_option PStr (id_hash d));
    ("hash_sha512", PStr (hash_sha512 d));
    ("nombre", PStr (nombre d));
    ("ruta", PStr (ruta d));
    ("ruta_alternativa", from_option PStr (ruta_alternativa d));
    ("ancho", PInt (ancho d));
    ("alto", PInt (alto d));
    ("peso", PFloat (peso d));
    ("fecha_creacion_dia", PStr (fecha_creacion_dia d));
    ("fecha_creacion_mes", PStr (fecha_creacion_mes d));
    ("fecha_creacion_anio", PStr (fecha_creacion_anio d));
    ("fecha_creacion_hora", PStr (fecha_creacion_hora d));
    ("fecha_creacion_minuto", PStr (fecha_creacion_minuto d));
    ("fecha_procesamiento_dia", PStr (fecha_procesamiento_dia d));
    ("fecha_procesamiento_mes", PStr (fecha_procesamiento_mes d));
    ("fecha_procesamiento_anio", PStr (fecha_procesamiento_anio d));
    ("fecha_procesamiento_hora", PStr (fecha_procesamiento_hora d));
    ("fecha_procesamiento_minuto", PStr (fecha_procesamiento_minuto d));
    ("coordenadas", coordenadas d);
    ("barrio", PStr (barrio d));
    ("calle", PStr (calle d));
    ("ciudad", PStr (ciudad d));
    ("cp", PStr (cp d));
    ("pais", PStr (pais d));
    ("objeto_procesado", PBool (objeto_procesado d));
    ("objetos", PStrs (objetos d));
    ("personas", PStrs (personas d));
    ("embedding", from_option PFloats (embedding d));
    ("descripcion_semantica", from_option PStr (descripcion_semantica d));
    ("qdrant", PBool (qdrant d)) ].

Definition alias (campo : string) : string :=
  if String.eqb campo "id" then "_id" else campo.

Definition is_none (v : pyval) : bool :=
  match v with PNone => true | _ => false end.

(** [to_dict]: the fields that were set and are not [None]. *)
Definition to_dict (d : ImagenDocumento) : list (string * pyval) :=
  map (fun kv => (alias (fst kv), snd kv))
    (List.filter
       (fun kv =>
          existsb (String.eqb (fst kv)) (model_fields_set d)
          && negb (is_none (snd kv)))
       (model_dump d)).

(** [ResultadoBusqueda] *)
Record ResultadoBusqueda := {
  documento : ImagenDocumento;
  similitud : Q;
  tipo_busqueda : string
}.

End Modelos.

Import Modelos.

(** ** The two stores and the collaborators

    A MongoDB document is the ordered list of its fields, the collection
    the list of its documents in insertion order. A Qdrant point has a
    vector and a payload and lives under a numeric id. Calls to the
    collaborators and the log lines that matter below are recorded in a
    trace. *)

Definition doc := list (string * pyval).

Record Punto := { vector : list pyfloat; payload : list (string * pyval) }.

Inductive Evento : Type :=
| EvEmbed (texto : string)
| EvMongoUpdate (filtro : option string) (campos : list string)
| EvMongoFind (ruta : string)
| EvMongoInsert
| EvQdrantRetrieve (id : Z)
| EvQdrantUpsert (id : Z)
| EvQdrantDelete (id : Z)
| LogError (donde msg : string)
| LogAvisoQdrant (msg : string)
| LogAvisoRutaExiste (ruta : string)
| LogProcesado (nombre : string)
| LogMarcado (nombre : string)
| LogAvisoMarca (msg : string)
| LogErrorProcesando (nombre msg : string)
| LogCancelacion.

Record Mundo := {
  mongo : list doc;
  vectores : gmap Z Punto;
  traza : list Evento
}.

(** What the collaborators answer: the text built by
    [_crear_texto_desde_campos], the embedding model, the fresh ObjectId
    of an insertion, and which driver calls raise. *)
Record Entorno := {
  crear_texto : ImagenDocumento -> string;
  embed_query : string -> res (list pyfloat);
  object_id : list doc -> string;
  mongo_find_falla : string -> bool;
  mongo_insert_falla : doc -> bool;
  mongo_update_falla : option string -> list string -> bool;
  qdrant_retrieve_falla : Z -> bool;
  qdrant_upsert_falla : Z -> bool;
  qdrant_delete_falla : Z -> bool
}.

(** Code that changes the world and may raise. *)
Definition M (A : Type) : Type := Mundo -> res A * Mundo.

Definition ret {A} (a : A) : M A := fun w => (Ok a, w).

Definition raise {A} (msg : string) : M A := fun w => (Error msg, w).

Definition bind {A B} (m : M A) (f : A -> M B) : M B :=
  fun w =>
    match m w with
    | (Ok a, w') => f a w'
    | (Error e, w') => (Error e, w')
    end.

Definition lift {A} (r : res A) : M A := fun w => (r, w).

(** [try: m  except Exception as e: h e] *)
Definition try_except {A} (m : M A) (h : string -> M A) : M A :=
  fun w =>
    match m w with
    | (Ok a, w') => (Ok a, w')
    | (Error e, w') => h e w'
    end.

Definition registrar (e : Evento) : M unit :=
  fun w =>
    (Ok tt, {| mongo := mongo w; vectores := vectores w;
               traza := traza w ++ [e] |}).

Definition leer_mundo : M Mundo := fun w => (Ok w, w).

Definition poner_mongo (c : list doc) : M unit :=
  fun w => (Ok tt, {| mongo := c; vectores := vectores w; traza := traza w |}).

Definition poner_qdrant (q : gmap Z Punto) : M unit :=
  fun w => (Ok tt, {| mongo := mongo w; vectores := q; traza := traza w |}).

Declare Scope m_scope.
Delimit Scope m_scope with M.
Notation "x <- m ;; k" := (bind m (fun x => k))
  (at level 100, m at next level, right associativity) : m_scope.
Notation "m ;;; k" := (bind m (fun _ => k))
  (at level 100, right associativity) : m_scope.
Local Open Scope m_scope.

(** [try: m  except Exception as e: logger.error(...); raise] *)
Definition con_registro {A} (donde : string) (m : M A) : M A :=
  try_except m (fun e => registrar (LogError donde e) ;;; raise e).

(** ** [qdrant_manager.py] *)

Module QdrantManager.

Definition sin_atributo_encode : string :=
  "AttributeError: 'NoneType' object has no attribute 'encode'".

(** [x.encode()] on an optional string. *)
Definition encode_opt (x : option string) : res string :=
  match x with
  | Some s => Ok s
  | None => Error sin_atributo_encode
  end.

(** The numeric id, as each method derives it from the key. *)
Definition id_numerico_insertar (id_hash : string) : res Z :=
  let hash_md5 := Hashlib.md5_hexdigest id_hash in
  int16 (str_prefix 8 hash_md5).

Definition id_numerico_obtener (doc_id : string) : res Z :=
  let hash_md5 := Hashlib.md5_hexdigest doc_id in
  int16 (str_prefix 8 hash_md5).

Definition id_numerico_actualizar (doc_id : string) : res Z :=
  let hash_md5 := Hashlib.md5_hexdigest doc_id in
  int16 (str_prefix 8 hash_md5).

Definition id_numerico_eliminar (doc_id : string) : res Z :=
  int16 (Hashlib.md5_hexdigest doc_id).

(** The payload [insertar_vector] builds. *)
Definition payload_insertar (documento : ImagenDocumento)
    (embedding : list pyfloat) (descripcion : string)
    : list (string * pyval) :=
  [ ("id", from_option PStr (id documento));
    ("id_hash", from_option PStr (id_hash documento));
    ("hash_sha512", PStr (hash_sha512 documento));
    ("nombre", PStr (nombre documento));
    ("ruta", PStr (ruta documento));
    ("ruta_alternativa", from_option PStr (ruta_alternativa documento));
    ("ancho", PInt (ancho documento));
    ("alto", PInt (alto documento));
    ("peso", PFloat (peso documento));
    ("fecha_creacion", PStr (get_fecha_creacion documento));
    ("fecha_creacion_dia", PStr (fecha_creacion_dia documento));
    ("fecha_creacion_mes", PStr (fecha_creacion_mes documento));
    ("fecha_creacion_anio", PStr (fecha_creacion_anio documento));
    ("fecha_creacion_hora", PStr (fecha_creacion_hora documento));
    ("fecha_creacion_minuto", PStr (fecha_creacion_minuto documento));
    ("fecha_procesamiento", PStr (get_fecha_procesamiento documento));
    ("fecha_procesamiento_dia", PStr (fecha_procesamiento_dia documento));
    ("fecha_procesamiento_mes", PStr (fecha_procesamiento_mes documento));
    ("fecha_procesamiento_anio",
      PStr (fecha_procesamiento_anio documento));
    ("fecha_procesamiento_hora",
      PStr (fecha_procesamiento_hora documento));
    ("fecha_procesamiento_minuto",
      PStr (fecha_procesamiento_minuto documento));
    ("coordenadas", coordenadas documento);
    ("barrio", PStr (barrio documento));
    ("calle", PStr (calle documento));
    ("ciudad", PStr (ciudad documento));
    ("cp", PStr (cp documento));
    ("pais", PStr (pais documento));
    ("objeto_procesado", PBool (objeto_procesado documento));
    ("objetos", PStrs (objetos documento));
    ("personas", PStrs (personas documento));
    ("descripcion_semantica", PStr descripcion);
    ("embedding", PFloats embedding) ].

(** The payload [actualizar_vector] builds. *)
Definition payload_actualizar (descripcion : string)
    : list (string * pyval) :=
  [ ("descripcion_semantica", PStr descripcion) ].

(** The keys [buscar_semanticamente] reads by subscript when it turns a
    payload back into a document; a missing one raises [KeyError]. *)
Definition claves_por_subindice : list string :=
  ["id_hash"; "hash_sha512"; "nombre"; "ruta"; "ancho"; "alto"; "peso"].

Definition primer_KeyError (p : list (string * pyval)) : option string :=
  List.find (fun k => negb (is_Some_bool (assoc_get k p)))
    claves_por_subindice.

Section Cliente.
Variable env : Entorno.

(** [client.upsert]: the point replaces whatever the id held. The calls
    below take any integer as an id; the ids Qdrant stores are the ones
    [client_upsert] was given. *)
Definition client_upsert (id : Z) (p : Punto) : M unit :=
  registrar (EvQdrantUpsert id) ;;;
  if qdrant_upsert_falla env id
  then raise "UnexpectedResponse: upsert"
  else (w <- leer_mundo ;; poner_qdrant (<[id := p]> (vectores w))).

Definition client_retrieve (id : Z) : M (option Punto) :=
  registrar (EvQdrantRetrieve id) ;;;
  if qdrant_retrieve_falla env id
  then raise "UnexpectedResponse: retrieve"
  else (w <- leer_mundo ;; ret (vectores w !! id)).

Definition client_delete (id : Z) : M unit :=
  registrar (EvQdrantDelete id) ;;;
  if qdrant_delete_falla env id
  then raise "UnexpectedResponse: delete"
  else (w <- leer_mundo ;; poner_qdrant (delete id (vectores w))).

Definition insertar_vector (documento : ImagenDocumento)
    (embedding : list pyfloat) (descripcion : string) : M string :=
  con_registro "insertar_vector"
    (id_hash <- lift (encode_opt (id_hash documento)) ;;
     id_numerico <- lift (id_numerico_insertar id_hash) ;;
     let payload := payload_insertar documento embedding descripcion in
     client_upsert id_numerico
       {| vector := embedding; payload := payload |} ;;;
     ret (str_int id_numerico)).

Definition obtener_por_id (doc_id : option string)
    : M (option (Z * list (string * pyval))) :=
  con_registro "obtener_por_id"
    (doc_id <- lift (encode_opt doc_id) ;;
     id_numerico <- lift (id_numerico_obtener doc_id) ;;
     points <- client_retrieve id_numerico ;;
     match points with
     | Some point => ret (Some (id_numerico, payload point))
     | None => ret None
     end).

Definition actualizar_vector (doc_id : option string)
    (embedding : list pyfloat) (descripcion : string) : M unit :=
  con_registro "actualizar_vector"
    (doc_id <- lift (encode_opt doc_id) ;;
     id_numerico <- lift (id_numerico_actualizar doc_id) ;;
     client_upsert id_numerico
       {| vector := embedding;
          payload := payload_actualizar descripcion |}).

Definition eliminar_vector (doc_id : option string) : M unit :=
  con_registro "eliminar_vector"
    (doc_id <- lift (encode_opt doc_id) ;;
     id_numerico <- lift (id_numerico_eliminar doc_id) ;;
     client_delete id_numerico).

End Cliente.

End QdrantManager.

(** ** Python operations on loaded JSON *)

Definition Qlt_bool (a b : Q) : bool := negb (Qle_bool b a).


Definition no_iterable : string := "TypeError: argument is not iterable".
Definition no_subindice : string := "TypeError: object is not subscriptable".
Definition no_len : string := "TypeError: object has no len()".

Definition es_str (k : string) (v : pyval) : bool :=
  match v with PStr s => String.eqb s k | _ => false end.

(** [k in v] *)
Definition py_contains (k : string) (v : pyval) : res bool :=
  match v with
  | PDict d => Ok (is_Some_bool (assoc_get k d))
  | PList l => Ok (existsb (es_str k) l)
  | PStr s => Ok (str_in k s)
  | _ => Error no_iterable
  end.

(** [v[k]] for a string [k] *)
Definition py_getitem (v : pyval) (k : string) : res pyval :=
  match v with
  | PDict d =>
      match assoc_get k d with
      | Some x => Ok x
      | None => Error ("KeyError: " ++ repr_str k)
      end
  | PList _ => Error "TypeError: list indices must be integers or slices"
  | PStr _ => Error "TypeError: string indices must be integers"
  | _ => Error no_subindice
  end.

(** [len(v)] (of a string: the number of its characters) *)
Definition py_len (v : pyval) : res Z :=
  match v with
  | PList l => Ok (Z.of_nat (length l))
  | PDict d => Ok (Z.of_nat (length d))
  | PStr s => Ok (Z.of_nat (length (caracteres s)))
  | _ => Error no_len
  end.

(** [n == v] for an integer [n]: [True] is 1 and a float counts by value. *)
Definition py_eq_int (n : Z) (v : pyval) : bool :=
  match v with
  | PInt m => n =? m
  | PBool b => n =? (if b then 1 else 0)
  | PFloat f => Qeq_bool (inject_Z n) (fvalor f)
  | _ => false
  end.

(** The elements [for x in v] visits. *)
Definition py_iter (v : pyval) : res (list pyval) :=
  match v with
  | PList l => Ok l
  | PDict d => Ok (map (fun kv => PStr (fst kv)) d)
  | PStr s => Ok (map PStr (caracteres s))
  | _ => Error no_iterable
  end.

Definition rbind {A B} (r : res A) (f : A -> res B) : res B :=
  match r with Ok a => f a | Error e => Error e end.

(** ** Backup artefacts

    What [validar_backup] observes of the file at [ruta_backup]: what
    [json.load] makes of it, the SHA-256 digest of its bytes and its size. *)

Inductive Lectura : Type :=
| JsonOk (backup_data : pyval)
| JSONDecodeError (msg : string)
| OtraExcepcion (msg : string).

Record Archivo := {
  json_load : Lectura;
  sha256_hexdigest : string;
  getsize : Z
}.

Inductive Motivo : Type :=
| ArchivoNoEncontrado
| ErrorFormatoJson (msg : string)
| EstructuraInvalida
| CampoFaltante (campo : string)
| Inconsistencia (declarado : pyval) (contenidos : Z)
| DocumentoNoDiccionario (i : nat)
| DocumentoSinId (i : nat)
| Excepcion (msg : string).

Record InfoValidacion := {
  tamano_archivo : Z;
  hash_sha256 : string;
  metadata : pyval;
  total : Z;
  fecha_backup : pyval
}.

Inductive Validacion : Type :=
| Valida (info : InfoValidacion)
| Invalida (error : Motivo).

Definition valido (v : Validacion) : bool :=
  match v with Valida _ => true | Invalida _ => false end.

(** A step of a validation: go on with a value, stop with a verdict, or
    raise. *)
Definition paso (A : Type) : Type := res (A + Motivo).

Definition sigue {A} (a : A) : paso A := Ok (inl a).
Definition rechaza {A} (m : Motivo) : paso A := Ok (inr m).

Definition pbind {A B} (p : paso A) (f : A -> paso B) : paso B :=
  match p with
  | Ok (inl a) => f a
  | Ok (inr m) => Ok (inr m)
  | Error e => Error e
  end.

Definition de_res {A} (r : res A) : paso A :=
  match r with Ok a => sigue a | Error e => Error e end.

(** [for campo in campos: if campo not in metadata: return ...] *)
Fixpoint campos_presentes (campos : list string) (metadata : pyval)
    : paso unit :=
  match campos with
  | [] => sigue tt
  | campo :: resto =>
      pbind (de_res (py_contains campo metadata)) (fun esta =>
        if esta then campos_presentes resto metadata
        else rechaza (CampoFaltante campo))
  end.

(** [metadata.get(k, "Desconocida")] on a dictionary *)
Definition get_o_desconocida (metadata : pyval) (k : string) : pyval :=
  match metadata with
  | PDict d =>
      match assoc_get k d with Some v => v | None => PStr "Desconocida" end
  | _ => PStr "Desconocida"
  end.

(** The checks the two [validar_backup] share: the two sections are there,
    the manifest has its fields, the declared count is the actual one. *)
Definition estructura (seccion cuenta : string) (campos : list string)
    (backup_data : pyval) : paso (pyval * pyval) :=
  pbind (de_res (py_contains "metadata" backup_data)) (fun hay_metadata =>
  pbind (if hay_metadata then de_res (py_contains seccion backup_data)
         else sigue false) (fun hay_todo =>
  if negb hay_todo then rechaza EstructuraInvalida else
  pbind (de_res (py_getitem backup_data "metadata")) (fun metadata =>
  pbind (de_res (py_getitem backup_data seccion)) (fun datos =>
  pbind (campos_presentes campos metadata) (fun _ =>
  pbind (de_res (py_len datos)) (fun n =>
  pbind (de_res (py_getitem metadata cuenta)) (fun declarado =>
  if negb (py_eq_int n declarado)
  then rechaza (Inconsistencia declarado n)
  else sigue (metadata, datos)))))))).

Definition veredicto (a : Archivo) (p : paso (pyval * pyval)) : Validacion :=
  match p with
  | Ok (inl (metadata, datos)) =>
      match py_len datos with
      | Ok n =>
          Valida {| tamano_archivo := getsize a;
                    hash_sha256 := sha256_hexdigest a;
                    metadata := metadata;
                    total := n;
                    fecha_backup := get_o_desconocida metadata "backup_date" |}
      | Error e => Invalida (Excepcion e)
      end
  | Ok (inr m) => Invalida m
  | Error e => Invalida (Excepcion e)
  end.

(** The frame of both validators: the file must exist and parse. *)
Definition validar_con (comprobar : pyval -> paso (pyval * pyval))
    (archivo : option Archivo) : Validacion :=
  match archivo with
  | None => Invalida ArchivoNoEncontrado
  | Some a =>
      match json_load a with
      | JSONDecodeError msg => Invalida (ErrorFormatoJson msg)
      | OtraExcepcion msg => Invalida (Excepcion msg)
      | JsonOk backup_data => veredicto a (comprobar backup_data)
      end
  end.

(** [QdrantManager.validar_backup] *)
Definition validar_backup_qdrant : option Archivo -> Validacion :=
  validar_con
    (estructura "vectors" "total_vectors"
       ["collection_name"; "backup_date"; "total_vectors"; "vector_size"]).

(** [for i, doc in enumerate(documents_data)]: each is a dictionary with
    an [_id]. *)
Fixpoint documentos_validos (i : nat) (docs : list pyval) : paso unit :=
  match docs with
  | [] => sigue tt
  | PDict d :: resto =>
      if is_Some_bool (assoc_get "_id" d)
      then documentos_validos (S i) resto
      else rechaza (DocumentoSinId i)
  | _ :: _ => rechaza (DocumentoNoDiccionario i)
  end.

(** [DatabaseManager.validar_backup] *)
Definition validar_backup_mongo : option Archivo -> Validacion :=
  validar_con (fun backup_data =>
    pbind
      (estructura "documents" "total_documents"
         ["collection_name"; "database_name"; "backup_date";
          "total_documents"] backup_data)
      (fun '(metadata, documents_data) =>
         pbind (de_res (py_iter documents_data)) (fun docs =>
         pbind (documentos_validos 0 docs) (fun _ =>
         sigue (metadata, documents_data))))).

(** ** [database.py] *)

Module DatabaseManager.


(** The two text operations of the interpreter that the score calls,
    [str(v)] and [s.lower()], follow its character tables: [lower] maps
    the case of every letter of every script, and [str] of a list or of a
    dictionary goes through [repr], which escapes the characters the
    tables hold unprintable. They are taken as they are given; the score
    is defined for whatever they answer. *)
Section Similitud.
Variable str : pyval -> string.
Variable lower : string -> string.




End Similitud.

(** A filter [{campo: valor}] on a string: the field is that string, or
    an array that holds it. *)
Definition coincide (v : option pyval) (valor : string) : bool :=
  match v with
  | Some (PStr s) => String.eqb s valor
  | Some (PList l) => existsb (es_str valor) l
  | _ => false
  end.

(** A filter [{"_id": filtro}]; [None] matches a missing or null [_id]. *)
Definition coincide_id (filtro : option string) (d : doc) : bool :=
  match filtro, assoc_get "_id" d with
  | Some s, v => coincide v s
  | None, None => true
  | None, Some PNone => true
  | None, Some _ => false
  end.

(** [$set] of one field: in place when the field exists, else appended. *)
Fixpoint set_campo (k : string) (v : pyval) (d : doc) : doc :=
  match d with
  | [] => [(k, v)]
  | (k', v') :: d' =>
      if String.eqb k k' then (k, v) :: d'
      else (k', v') :: set_campo k v d'
  end.

Definition set_campos (campos : list (string * pyval)) (d : doc) : doc :=
  fold_left (fun d kv => set_campo (fst kv) (snd kv) d) campos d.

(** [update_one] changes the first document the filter matches. *)
Fixpoint update_first (filtro : option string)
    (campos : list (string * pyval)) (c : list doc) : list doc :=
  match c with
  | [] => []
  | d :: c' =>
      if coincide_id filtro d then set_campos campos d :: c'
      else d :: update_first filtro campos c'
  end.

(** Two [_id] values collide in the unique index. *)
Definition mismo_id (a b : pyval) : bool :=
  match a, b with
  | PStr x, PStr y => String.eqb x y
  | PObjectId x, PObjectId y => String.eqb x y
  | PInt x, PInt y => x =? y
  | PNone, PNone => true
  | _, _ => false
  end.

Definition id_de (d : doc) : pyval :=
  match assoc_get "_id" d with Some v => v | None => PNone end.

Section Coleccion.
Variable env : Entorno.

(** [collection.find_one({"ruta": ruta})] *)
Definition find_one_ruta (ruta : string) : M (option doc) :=
  registrar (EvMongoFind ruta) ;;;
  if mongo_find_falla env ruta
  then raise "ServerSelectionTimeoutError: find_one"
  else (w <- leer_mundo ;;
        ret (List.find (fun d => coincide (assoc_get "ruta" d) ruta)
               (mongo w))).

(** [collection.insert_one(data)]; gives [inserted_id]. *)
Definition insert_one (data : doc) : M pyval :=
  registrar EvMongoInsert ;;;
  if mongo_insert_falla env data
  then raise "ServerSelectionTimeoutError: insert_one"
  else
    (w <- leer_mundo ;;
     match assoc_get "_id" data with
     | Some v =>
         if existsb (fun d => mismo_id v (id_de d)) (mongo w)
         then raise "DuplicateKeyError"
         else (poner_mongo (mongo w ++ [data]) ;;; ret v)
     | None =>
         let oid := PObjectId (object_id env (mongo w)) in
         poner_mongo (mongo w ++ [("_id", oid) :: data]) ;;; ret oid
     end).

(** [collection.update_one({"_id": filtro}, {"$set": campos})] *)
Definition update_one (filtro : option string)
    (campos : list (string * pyval)) : M unit :=
  registrar (EvMongoUpdate filtro (map fst campos)) ;;;
  if mongo_update_falla env filtro (map fst campos)
  then raise "ServerSelectionTimeoutError: update_one"
  else (w <- leer_mundo ;;
        poner_mongo (update_first filtro campos (mongo w))).

Definition verificar_ruta_existente (ruta_imagen : string) : M bool :=
  try_except
    (documento_existente <- find_one_ruta ruta_imagen ;;
     ret (is_Some_bool documento_existente))
    (fun e =>
       registrar (LogError "verificar_ruta_existente" e) ;;; ret false).

Definition insertar_documento (documento : ImagenDocumento) : M string :=
  con_registro "insertar_documento"
    (existe <- verificar_ruta_existente (ruta documento) ;;
     if existe then
       registrar (LogAvisoRutaExiste (ruta documento)) ;;;
       documento_existente <- find_one_ruta (ruta documento) ;;
       match documento_existente with
       | Some (campo :: campos) =>
           ret (py_str (id_de (campo :: campos)))
       | _ =>
           raise "No se pudo encontrar el documento existente con ruta"
       end
     else
       let data := to_dict documento in
       inserted_id <- insert_one data ;;
       ret (py_str inserted_id)).

Definition actualizar_embedding (doc_id : option string)
    (embedding : list pyfloat) (descripcion : string) : M unit :=
  con_registro "actualizar_embedding"
    (update_one doc_id
       [ ("embedding", PFloats embedding);
         ("descripcion_semantica", PStr descripcion) ]).

End Coleccion.

End DatabaseManager.

(** ** [busqueda_semantica.py] *)

Module BuscadorSemantico.

Definition clave_eqb (a b : option string) : bool :=
  match a, b with
  | Some x, Some y => String.eqb x y
  | None, None => true
  | _, _ => false
  end.

(** One turn of the loop that fills [resultados_combinados]: a new key is
    appended, a known key keeps its place and takes the new result only
    if its score is strictly higher. *)
Fixpoint combinar_uno (doc_id : option string) (resultado : ResultadoBusqueda)
    (combinados : list (option string * ResultadoBusqueda))
    : list (option string * ResultadoBusqueda) :=
  match combinados with
  | [] => [(doc_id, resultado)]
  | (k, r) :: resto =>
      if clave_eqb doc_id k then
        if Qlt_bool (similitud r) (similitud resultado)
        then (k, resultado) :: resto
        else (k, r) :: resto
      else (k, r) :: combinar_uno doc_id resultado resto
  end.

Definition combinar (resultados : list ResultadoBusqueda)
    : list (option string * ResultadoBusqueda) :=
  fold_left
    (fun combinados resultado =>
       combinar_uno (id_hash (documento resultado)) resultado combinados)
    resultados [].

(** [sort(key=similitud, reverse=True)]: descending and stable. *)
Fixpoint insertar_ordenado (x : ResultadoBusqueda)
    (l : list ResultadoBusqueda) : list ResultadoBusqueda :=
  match l with
  | [] => [x]
  | y :: l' =>
      if Qlt_bool (similitud x) (similitud y)
      then y :: insertar_ordenado x l'
      else x :: y :: l'
  end.

Definition ordenar (l : list ResultadoBusqueda) : list ResultadoBusqueda :=
  fold_right insertar_ordenado [] l.

(** [l[:n]]: a negative [n] counts from the end. *)
Definition hasta {A} (n : Z) (l : list A) : list A :=
  if 0 <=? n then firstn (Z.to_nat n) l
  else firstn (Z.to_nat (Z.of_nat (length l) + n)) l.

(** The merged results before the cut. *)
Definition resultados_unicos (resultados_texto resultados_semanticos :
    list ResultadoBusqueda) : list ResultadoBusqueda :=
  map snd (combinar (resultados_texto ++ resultados_semanticos)).

(** [buscar_hibrida], given what the two searches returned or raised. *)
Definition buscar_hibrida
    (buscar_por_texto buscar_semanticamente : res (list ResultadoBusqueda))
    (limite : Z) : res (list ResultadoBusqueda) :=
  rbind buscar_por_texto (fun resultados_texto =>
  rbind buscar_semanticamente (fun resultados_semanticos =>
  let resultados_finales :=
    resultados_unicos resultados_texto resultados_semanticos in
  let resultados_finales := ordenar resultados_finales in
  Ok (hasta limite resultados_finales))).

Section Procesamiento.
Variable env : Entorno.

(** [cancel_callback and cancel_callback()] *)
Definition cancelado_por (cancel_callback : option (Mundo -> bool))
    : M bool :=
  fun w =>
    (Ok (match cancel_callback with Some f => f w | None => false end),
     w).

Definition comprobar_cancelacion
    (cancel_callback : option (Mundo -> bool)) : M unit :=
  (c <- cancelado_por cancel_callback ;;
   if c then raise "Procesamiento cancelado por el usuario" else ret tt).

Definition generar_embedding (texto : string) : M (list pyfloat) :=
  con_registro "generar_embedding"
    (registrar (EvEmbed texto) ;;; lift (embed_query env texto)).

(** The [try] around the Qdrant calls of [procesar_documento]: update
    the point when the key already has one, insert it otherwise, and
    only log a warning when any of it raises. *)
Definition guardar_en_qdrant (documento : ImagenDocumento)
    (embedding : list pyfloat) (texto_para_embedding : string)
    : M unit :=
  try_except
    (doc_qdrant <- QdrantManager.obtener_por_id env
                     (id_hash documento) ;;
     match doc_qdrant with
     | Some _ =>
         QdrantManager.actualizar_vector env (id_hash documento)
           embedding texto_para_embedding
     | None =>
         QdrantManager.insertar_vector env documento embedding
           texto_para_embedding ;;; ret tt
     end)
    (fun qdrant_error => registrar (LogAvisoQdrant qdrant_error)).

Definition procesar_documento (documento : ImagenDocumento)
    (cancel_callback : option (Mundo -> bool)) : M ImagenDocumento :=
  con_registro "procesar_documento"
    (let texto_para_embedding := crear_texto env documento in
     comprobar_cancelacion cancel_callback ;;;
     embedding <- generar_embedding texto_para_embedding ;;
     comprobar_cancelacion cancel_callback ;;;
     DatabaseManager.actualizar_embedding env (id_hash documento)
       embedding texto_para_embedding ;;;
     comprobar_cancelacion cancel_callback ;;;
     guardar_en_qdrant documento embedding texto_para_embedding ;;;
     ret (con_embedding documento texto_para_embedding embedding)).

End Procesamiento.

End BuscadorSemantico.

(** ** [batch_processor.py] *)

Module BatchProcessor.

Inductive Mensaje : Type :=
| NoHayDocumentos
| ProcesamientoCancelado (exitosos errores : Z)
| ProcesamientoCompletado (exitosos errores : Z).

(** The dictionary the run returns; the key [cancelado] may be absent. *)
Record Resultado := {
  total_procesados : Z;
  total_exitosos : Z;
  total_errores : Z;
  cancelado : option bool;
  mensaje : Mensaje
}.

Record Contadores := {
  documentos_procesados : Z;
  documentos_exitosos : Z;
  documentos_errores : Z
}.

Definition resultado_cancelado (c : Contadores) : Resultado :=
  {| total_procesados := documentos_procesados c;
     total_exitosos := documentos_exitosos c;
     total_errores := documentos_errores c;
     cancelado := Some true;
     mensaje := ProcesamientoCancelado (documentos_exitosos c)
                  (documentos_errores c) |}.

Definition resultado_completado (c : Contadores) : Resultado :=
  {| total_procesados := documentos_procesados c;
     total_exitosos := documentos_exitosos c;
     total_errores := documentos_errores c;
     cancelado := None;
     mensaje := ProcesamientoCompletado (documentos_exitosos c)
                  (documentos_errores c) |}.

Definition sin_documentos : Resultado :=
  {| total_procesados := 0; total_exitosos := 0; total_errores := 0;
     cancelado := None; mensaje := NoHayDocumentos |}.

Definition un_exito (c : Contadores) : Contadores :=
  {| documentos_procesados := documentos_procesados c;
     documentos_exitosos := documentos_exitosos c + 1;
     documentos_errores := documentos_errores c |}.

Definition un_error (c : Contadores) : Contadores :=
  {| documentos_procesados := documentos_procesados c;
     documentos_exitosos := documentos_exitosos c;
     documentos_errores := documentos_errores c + 1 |}.

Definition lote_hecho (n : Z) (c : Contadores) : Contadores :=
  {| documentos_procesados := documentos_procesados c + n;
     documentos_exitosos := documentos_exitosos c;
     documentos_errores := documentos_errores c |}.

(** [range(0, stop, step)] for [stop >= 0] *)
Definition py_range (stop step : Z) : res (list Z) :=
  if step =? 0 then Error "ValueError: range() arg 3 must not be zero"
  else if step <? 0 then Ok []
  else Ok (map (fun j => Z.of_nat j * step)
             (seq 0 (Z.to_nat ((stop + step - 1) / step)))).

(** [l[i:j]] for [0 <= i <= j] *)
Definition entre {A} (i j : Z) (l : list A) : list A :=
  firstn (Z.to_nat (j - i)) (skipn (Z.to_nat i) l).

Section Lotes.
Variable env : Entorno.

(** The [try] of the inner loop, for one document. *)
Definition procesar_uno (cancel_callback : option (Mundo -> bool))
    (documento : ImagenDocumento) (c : Contadores) : M Contadores :=
  try_except
    (documento_procesado <-
       BuscadorSemantico.procesar_documento env documento
         cancel_callback ;;
     let c := un_exito c in
     registrar (LogProcesado (nombre documento)) ;;;
     try_except
       (DatabaseManager.update_one env (id documento)
          [("qdrant", PBool true)] ;;;
        registrar (LogMarcado (nombre documento)))
       (fun e => registrar (LogAvisoMarca e)) ;;;
     ret c)
    (fun e =>
       registrar (LogErrorProcesando (nombre documento) e) ;;;
       ret (un_error c)).

(** [for documento in batch]; stops with the result to return when the
    cancellation is seen. *)
Fixpoint bucle_documentos (cancel_callback : option (Mundo -> bool))
    (batch : list ImagenDocumento) (c : Contadores)
    : M (Contadores + Resultado) :=
  match batch with
  | [] => ret (inl c)
  | documento :: resto =>
      cancelar <- BuscadorSemantico.cancelado_por cancel_callback ;;
      if cancelar then
        registrar LogCancelacion ;;; ret (inr (resultado_cancelado c))
      else
        c' <- procesar_uno cancel_callback documento c ;;
        bucle_documentos cancel_callback resto c'
  end.

(** [for i in range(0, total_documentos, batch_size)] *)
Fixpoint bucle_lotes (cancel_callback : option (Mundo -> bool))
    (documentos_sin_procesar : list ImagenDocumento) (batch_size : Z)
    (inicios : list Z) (c : Contadores) : M Resultado :=
  match inicios with
  | [] => ret (resultado_completado c)
  | i :: resto =>
      cancelar <- BuscadorSemantico.cancelado_por cancel_callback ;;
      if cancelar then
        registrar LogCancelacion ;;; ret (resultado_cancelado c)
      else
        let batch := entre i (i + batch_size) documentos_sin_procesar in
        r <- bucle_documentos cancel_callback batch c ;;
        match r with
        | inr resultado => ret resultado
        | inl c' =>
            bucle_lotes cancel_callback documentos_sin_procesar
              batch_size resto
              (lote_hecho (Z.of_nat (length batch)) c')
        end
  end.

(** [procesar_coleccion_completa]; [consulta] is what
    [_obtener_documentos_sin_embedding(max_documentos)] returned or
    raised. The pause between two batches is left out. *)
Definition procesar_coleccion_completa (batch_size : Z)
    (consulta : res (list ImagenDocumento))
    (cancel_callback : option (Mundo -> bool)) : M Resultado :=
  let cancel_callback :=
    match cancel_callback with
    | None => Some (fun _ : Mundo => false)
    | Some f => Some f
    end in
  con_registro "procesar_coleccion_completa"
    (documentos_sin_procesar <- lift consulta ;;
     let total_documentos := Z.of_nat (length documentos_sin_procesar) in
     if total_documentos =? 0 then ret sin_documentos
     else
       inicios <- lift (py_range total_documentos batch_size) ;;
       bucle_lotes cancel_callback documentos_sin_procesar batch_size
         inicios
         {| documentos_procesados := 0; documentos_exitosos := 0;
            documentos_errores := 0 |}).

End Lotes.

End BatchProcessor.

(** ** Auxiliary measures *)

Import QdrantManager DatabaseManager BuscadorSemantico BatchProcessor.

(** The number a list of bytes spells, most significant byte first. *)
Definition valor_be (bs : list Z) : Z :=
  fold_left (fun acc b => 256 * acc + b) bs 0.

(** The world with more events in its trace. *)
Definition anotar (e : list Evento) (w : Mundo) : Mundo :=
  {| mongo := mongo w; vectores := vectores w; traza := traza w ++ e |}.

(** A callback that never asks to stop. *)
Definition no_cancela (cb : option (Mundo -> bool)) : Prop :=
  forall f, cb = Some f -> forall w, f w = false.

(** The fields [actualizar_embedding] sets. *)
Definition campos_embedding (emb : list pyfloat) (texto : string)
    : list (string * pyval) :=
  [("embedding", PFloats emb); ("descripcion_semantica", PStr texto)].

(** The world once the embedding was generated and written to MongoDB. *)
Definition tras_mongo (filtro : option string) (emb : list pyfloat)
    (texto : string) (w : Mundo) : Mundo :=
  {| mongo := update_first filtro (campos_embedding emb texto) (mongo w);
     vectores := vectores w;
     traza := traza w
              ++ [EvEmbed texto;
                  EvMongoUpdate filtro
                    ["embedding"; "descripcion_semantica"]] |}.

(** The filter [{"ruta": ruta}] on a document. *)
Definition misma_ruta (ruta : string) (d : doc) : bool :=
  coincide (assoc_get "ruta" d) ruta.

(** ** Sample data

    A document as the discovery step stores it, an environment in which no
    collaborator fails, and the empty world. *)

Definition clave_ejemplo : string :=
  "e3b0c44298fc1c149afbf4c8996fb92427ae41e4649b934ca495991b7852b855".

Definition documento_ejemplo : ImagenDocumento :=
  {| id := Some clave_ejemplo;
     id_hash := Some clave_ejemplo;
     hash_sha512 := "cf83e1357eefb8bd";
     nombre := "playa.jpg";
     ruta := "/fotos/playa.jpg";
     ruta_alternativa := None;
     ancho := 1920; alto := 1080;
     peso := PyFloat 2048 "2048.0";
     fecha_creacion_dia := "01"; fecha_creacion_mes := "02";
     fecha_creacion_anio := "2024"; fecha_creacion_hora := "10";
     fecha_creacion_minuto := "30";
     fecha_procesamiento_dia := "03"; fecha_procesamiento_mes := "02";
     fecha_procesamiento_anio := "2024"; fecha_procesamiento_hora := "11";
     fecha_procesamiento_minuto := "45";
     coordenadas := PNone;
     barrio := ""; calle := ""; ciudad := "Cadiz"; cp := ""; pais := "";
     objeto_procesado := true;
     objetos := ["perro"]; personas := [];
     embedding := None; descripcion_semantica := None;
     qdrant := false;
     model_fields_set :=
       ["id"; "id_hash"; "hash_sha512"; "nombre"; "ruta"; "ancho"; "alto";
        "peso"; "ciudad"; "objeto_procesado"; "objetos"] |}.

Definition embedding_ejemplo : list pyfloat :=
  [PyFloat 0.25 "0.25"; PyFloat 0.5 "0.5"].

Definition entorno_ejemplo : Entorno :=
  {| crear_texto := fun d => ("archivo: " ++ nombre d)%string;
     embed_query := fun _ => Ok embedding_ejemplo;
     object_id := fun _ => "65f0a1b2c3d4e5f601234567";
     mongo_find_falla := fun _ => false;
     mongo_insert_falla := fun _ => false;
     mongo_update_falla := fun _ _ => false;
     qdrant_retrieve_falla := fun _ => false;
     qdrant_upsert_falla := fun _ => false;
     qdrant_delete_falla := fun _ => false |}.

Definition mundo_vacio : Mundo :=
  {| mongo := []; vectores := ∅; traza := [] |}.

(** The world in which the sample document already has its point. *)
Definition mundo_con_vector : Mundo :=
  snd (insertar_vector entorno_ejemplo documento_ejemplo embedding_ejemplo
         "archivo: playa.jpg" mundo_vacio).

(** An environment in which every write to Qdrant raises. *)
Definition entorno_sin_upsert : Entorno :=
  {| crear_texto := crear_texto entorno_ejemplo;
     embed_query := embed_query entorno_ejemplo;
     object_id := object_id entorno_ejemplo;
     mongo_find_falla := fun _ => false;
     mongo_insert_falla := fun _ => false;
     mongo_update_falla := fun _ _ => false;
     qdrant_retrieve_falla := fun _ => false;
     qdrant_upsert_falla := fun _ => true;
     qdrant_delete_falla := fun _ => false |}.

(** A collection that holds the sample document. *)
Definition coleccion_ejemplo : list doc :=
  [ [("_id", PStr "0a1b2c"); ("ruta", PStr "/fotos/monte.jpg")];
    to_dict documento_ejemplo ].

Definition mundo_ejemplo : Mundo :=
  {| mongo := coleccion_ejemplo; vectores := ∅; traza := [] |}.

(** What the structural checks establish. *)
Definition estructura_correcta (seccion cuenta : string)
    (campos : list string) (backup_data metadata datos : pyval) : Prop :=
  py_getitem backup_data "metadata" = Ok metadata
  /\ py_getitem backup_data seccion = Ok datos
  /\ Forall (fun campo => py_contains campo metadata = Ok true) campos
  /\ exists n declarado,
       py_len datos = Ok n
       /\ py_getitem metadata cuenta = Ok declarado
       /\ py_eq_int n declarado = true.

Definition campos_qdrant : list string :=
  ["collection_name"; "backup_date"; "total_vectors"; "vector_size"].

Definition campos_mongo : list string :=
  ["collection_name"; "database_name"; "backup_date"; "total_documents"].

(** The same file under another digest. *)
Definition con_hash (h : string) (a : Archivo) : Archivo :=
  {| json_load := json_load a; sha256_hexdigest := h; getsize := getsize a |}.

(** A backed-up document: a dictionary with an [_id]. *)
Definition es_documento (v : pyval) : bool :=
  match v with
  | PDict d => is_Some_bool (assoc_get "_id" d)
  | _ => false
  end.

(** One of the two sections is not in the file. *)
Definition falta_seccion (seccion : string) (backup_data : pyval) : Prop :=
  py_contains "metadata" backup_data = Ok false
  \/ (py_contains "metadata" backup_data = Ok true
      /\ py_contains seccion backup_data = Ok false).

(** [campo] is the first of [campos] that the manifest does not have. *)
Definition primero_que_falta (campos : list string) (metadata : pyval)
    (campo : string) : Prop :=
  exists antes despues,
    campos = (antes ++ campo :: despues)%list
    /\ Forall (fun c => py_contains c metadata = Ok true) antes
    /\ py_contains campo metadata = Ok false.

(** The record at index [i] is the first that is not a dictionary with an
    [_id]; [m] is the reason that says which of the two it fails. *)
Definition primer_registro_malo (docs : list pyval) (i : nat) (m : Motivo)
    : Prop :=
  exists antes x despues,
    docs = (antes ++ x :: despues)%list
    /\ length antes = i
    /\ forallb es_documento antes = true
    /\ match x with
       | PDict d => assoc_get "_id" d = None /\ m = DocumentoSinId i
       | _ => m = DocumentoNoDiccionario i
       end.

(** What a validator answers to each failure of the file, for the records
    under [seccion], the count declared under [cuenta] and the required
    fields [campos] of the manifest. *)
Definition informa_cada_fallo (validar : option Archivo -> Validacion)
    (seccion cuenta : string) (campos : list string) : Prop :=
  validar None = Invalida ArchivoNoEncontrado
  /\ (forall a msg,
        json_load a = JSONDecodeError msg ->
        validar (Some a) = Invalida (ErrorFormatoJson msg))
  /\ (forall a msg,
        json_load a = OtraExcepcion msg ->
        validar (Some a) = Invalida (Excepcion msg))
  /\ (forall a backup_data,
        json_load a = JsonOk backup_data ->
        falta_seccion seccion backup_data ->
        validar (Some a) = Invalida EstructuraInvalida)
  /\ (forall a backup_data metadata datos campo,
        json_load a = JsonOk backup_data ->
        py_getitem backup_data "metadata" = Ok metadata ->
        py_getitem backup_data seccion = Ok datos ->
        primero_que_falta campos metadata campo ->
        validar (Some a) = Invalida (CampoFaltante campo))
  /\ (forall a backup_data metadata datos n declarado,
        json_load a = JsonOk backup_data ->
        py_getitem backup_data "metadata" = Ok metadata ->
        py_getitem backup_data seccion = Ok datos ->
        Forall (fun campo => py_contains campo metadata = Ok true) campos ->
        py_len datos = Ok n ->
        py_getitem metadata cuenta = Ok declarado ->
        py_eq_int n declarado = false ->
        validar (Some a) = Invalida (Inconsistencia declarado n)).

(** A backup of one vector as [crear_backup_coleccion] writes it, and the
    same file after the vector and its payload were altered. *)
Definition backup_de (vector nombre : pyval) : pyval :=
  PDict
    [ ("metadata",
       PDict [ ("collection_name", PStr "imagenes_semanticas");
               ("backup_date", PStr "2024-02-03T11:45:00");
               ("total_vectors", PInt 1);
               ("vector_size", PInt 768);
               ("distance", PStr "Cosine");
               ("qdrant_version", PStr "1.0") ]);
      ("vectors",
       PList [ PDict [ ("id", PInt 4195510762);
                       ("vector", vector);
                       ("payload", PDict [("nombre", nombre)]) ] ]) ].

Definition archivo_original : Archivo :=
  {| json_load := JsonOk (backup_de (PFloats embedding_ejemplo)
                            (PStr "playa.jpg"));
     sha256_hexdigest :=
       "9f86d081884c7d659a2feaa0c55ad015a3bf4f1b2b0b822cd15d6c15b0f00a08";
     getsize := 512 |}.

Definition archivo_alterado : Archivo :=
  {| json_load := JsonOk (backup_de (PList []) (PStr "otra.jpg"));
     sha256_hexdigest :=
       "60303ae22b998861bce3b28f33eec1be758a213c86c93c076dbe9f558c11c752";
     getsize := 470 |}.

Definition clave (r : ResultadoBusqueda) : option string :=
  id_hash (documento r).

(** Every entry of the dictionary sits under its own key. *)
Definition bien_indexado (l : list (option string * ResultadoBusqueda)) : Prop :=
  Forall (fun kr => clave (snd kr) = fst kr) l.

Definition mas_relevante (a b : ResultadoBusqueda) : Prop :=
  (similitud b <= similitud a)%Q.

(** The loop of [buscar_hibrida] from a dictionary already begun. *)
Definition combinar_desde (resultados : list ResultadoBusqueda)
    (inicial : list (option string * ResultadoBusqueda))
    : list (option string * ResultadoBusqueda) :=
  fold_left
    (fun combinados resultado =>
       combinar_uno (clave resultado) resultado combinados)
    resultados inicial.

Definition resultado_ejemplo (s : Q) (tipo : string) : ResultadoBusqueda :=
  {| documento := documento_ejemplo; similitud := s; tipo_busqueda := tipo |}.

(** ** Measures on a batch run *)

(** An event that closes the turn of one record in the inner loop. *)
Definition cierra_registro (e : Evento) : bool :=
  match e with
  | LogMarcado _ | LogAvisoMarca _ | LogErrorProcesando _ _ => true
  | _ => false
  end.

(** The number of records whose turn is over. *)
Definition completados (t : list Evento) : nat :=
  length (List.filter cierra_registro t).

(** Code that adds to the trace no event that closes a record. *)
Definition solo_anota {A} (m : M A) : Prop :=
  forall w, completados (traza (snd (m w))) = completados (traza w).

(** The record goes through [procesar_documento] without an error: its
    embedding is generated and the MongoDB update does not raise. *)
Definition procesable (env : Entorno) (d : ImagenDocumento) : bool :=
  is_ok (embed_query env (crear_texto env d))
  && negb (mongo_update_falla env (id_hash d)
             ["embedding"; "descripcion_semantica"]).

Definition contadores_cero : Contadores :=
  {| documentos_procesados := 0; documentos_exitosos := 0;
     documentos_errores := 0 |}.

(** The world after the whole turn of one record, without cancellation. *)
Definition paso_registro (env : Entorno) (d : ImagenDocumento) (w : Mundo)
    : Mundo :=
  snd (procesar_uno env None d contadores_cero w).

Definition contar_uno (env : Entorno) (c : Contadores) (d : ImagenDocumento)
    : Contadores :=
  if procesable env d then un_exito c else un_error c.

(** How the turn of a record ends, given what [procesar_documento] did. *)
Definition cerrar_turno (env : Entorno) (d : ImagenDocumento)
    (r : res ImagenDocumento * Mundo) : Mundo :=
  match r with
  | (Ok _, w1) =>
      match update_one env (id d) [("qdrant", PBool true)]
              (anotar [LogProcesado (nombre d)] w1) with
      | (Ok _, w3) => anotar [LogMarcado (nombre d)] w3
      | (Error e, w3) => anotar [LogAvisoMarca e] w3
      end
  | (Error e, w1) => anotar [LogErrorProcesando (nombre d) e] w1
  end.

(** The world after the turns of the records of a list, in order. *)
Definition procesar_registros (env : Entorno) (docs : list ImagenDocumento)
    (w : Mundo) : Mundo :=
  fold_left (fun w d => paso_registro env d w) docs w.

Definition exitos (env : Entorno) (docs : list ImagenDocumento) : Z :=
  Z.of_nat (length (List.filter (procesable env) docs)).

Definition fallos (env : Entorno) (docs : list ImagenDocumento) : Z :=
  Z.of_nat (length (List.filter (fun d => negb (procesable env d)) docs)).

(** The counters after [p] more documents of whole batches and the turns
    of the records of [docs]. *)
Definition sumar (env : Entorno) (c : Contadores) (p : Z)
    (docs : list ImagenDocumento) : Contadores :=
  {| documentos_procesados := documentos_procesados c + p;
     documentos_exitosos := documentos_exitosos c + exitos env docs;
     documentos_errores := documentos_errores c + fallos env docs |}.

(** The callback answers yes from the moment [k] records were completed
    after the trace had [base] of them. *)
Definition senal_tras (k base : nat) (f : Mundo -> bool) : Prop :=
  forall w, f w = (k + base <=? completados (traza w))%nat.

(** The start indices of the batches [s], [s + 1], ..., [s + n - 1]. *)
Definition inicios (bs : Z) (s n : nat) : list Z :=
  map (fun j => Z.of_nat j * bs) (seq s n).

(** Two more documents of the sample collection. *)
Definition otro_documento (clave nombre ruta : string) : ImagenDocumento :=
  {| id := Some clave;
     id_hash := Some clave;
     hash_sha512 := hash_sha512 documento_ejemplo;
     nombre := nombre;
     ruta := ruta;
     ruta_alternativa := None;
     ancho := 800; alto := 600;
     peso := PyFloat 1024 "1024.0";
     fecha_creacion_dia := "05"; fecha_creacion_mes := "03";
     fecha_creacion_anio := "2024"; fecha_creacion_hora := "09";
     fecha_creacion_minuto := "15";
     fecha_procesamiento_dia := "06"; fecha_procesamiento_mes := "03";
     fecha_procesamiento_anio := "2024"; fecha_procesamiento_hora := "12";
     fecha_procesamiento_minuto := "00";
     coordenadas := PNone;
     barrio := ""; calle := ""; ciudad := ""; cp := ""; pais := "";
     objeto_procesado := false;
     objetos := []; personas := [];
     embedding := None; descripcion_semantica := None;
     Modelos.qdrant := false;
     model_fields_set := model_fields_set documento_ejemplo |}.

Definition candidatos_ejemplo : list ImagenDocumento :=
  [ documento_ejemplo;
    otro_documento "a1" "monte.jpg" "/fotos/monte.jpg";
    otro_documento "b2" "rio.jpg" "/fotos/rio.jpg" ].

(** A callback that asks to stop once one record is completed. *)
Definition senal_ejemplo : Mundo -> bool :=
  fun w => (1 <=? completados (traza w))%nat.

(** Two keys whose digests begin with the same eight digits. *)
Definition clave_colision_1 : string := "img-062567".
Definition clave_colision_2 : string := "img-121081".

(** The trace shows a write to MongoDB. *)
Definition es_mongo_update (e : Evento) : bool :=
  match e with EvMongoUpdate _ _ => true | _ => false end.

(** A document read from a record that had no [id_hash] of its own: its
    key is the SHA-256 digest of the [_id], as [generar_id_hash] derives
    it, and differs from it. *)
Definition documento_con_hash_derivado : ImagenDocumento :=
  {| id := Some "0a1b2c";
     id_hash :=
       Some "c6cb1e1ae775b8fc5ff6938fdc77889913eba4507dac14767a06da926c1688b2";
     hash_sha512 := hash_sha512 documento_ejemplo;
     nombre := "monte.jpg";
     ruta := "/fotos/monte.jpg";
     ruta_alternativa := None;
     ancho := 800; alto := 600;
     peso := PyFloat 1024 "1024.0";
     fecha_creacion_dia := "05"; fecha_creacion_mes := "03";
     fecha_creacion_anio := "2024"; fecha_creacion_hora := "09";
     fecha_creacion_minuto := "15";
     fecha_procesamiento_dia := "06"; fecha_procesamiento_mes := "03";
     fecha_procesamiento_anio := "2024"; fecha_procesamiento_hora := "12";
     fecha_procesamiento_minuto := "00";
     coordenadas := PNone;
     barrio := ""; calle := ""; ciudad := ""; cp := ""; pais := "";
     objeto_procesado := false;
     objetos := []; personas := [];
     embedding := None; descripcion_semantica := None;
     Modelos.qdrant := false;
     model_fields_set := ["id"; "hash_sha512"; "nombre"; "ruta"] |}.

(** The fields a batch run writes in MongoDB. *)
Definition campo_del_lote (k : string) : bool :=
  existsb (String.eqb k) ["embedding"; "descripcion_semantica"; "qdrant"].

(** From [w] to [w']: every other field of every record is as it was, no
    record came or went, and no point left Qdrant. *)
Definition conservado (w w' : Mundo) : Prop :=
  (forall k, campo_del_lote k = false ->
     map (assoc_get k) (mongo w') = map (assoc_get k) (mongo w))
  /\ (forall i, is_Some (vectores w !! i) -> is_Some (vectores w' !! i)).

Definition conserva {A} (m : M A) : Prop :=
  forall w, conservado w (snd (m w)).

(** ** The query of [_obtener_documentos_sin_embedding] *)

(** [{campo: {"$exists": False}}] *)
Definition no_existe (campo : string) (d : doc) : bool :=
  negb (is_Some_bool (assoc_get campo d)).

Definition es_bool (b : bool) (v : pyval) : bool :=
  match v with PBool x => Bool.eqb x b | _ => false end.

(** [{campo: b}] for a boolean [b]: the field is [b], or an array that
    holds it. *)
Definition campo_es (campo : string) (b : bool) (d : doc) : bool :=
  match assoc_get campo d with
  | Some (PList l) => existsb (es_bool b) l
  | Some v => es_bool b v
  | None => false
  end.

(** The [query] of [_obtener_documentos_sin_embedding]. *)
Definition sin_procesar (d : doc) : bool :=
  (no_existe "embedding" d || no_existe "descripcion_semantica" d
   || campo_es "objeto_procesado" false d)
  && (no_existe "qdrant" d || campo_es "qdrant" false d).

(** What [collection.find(query)] selects, in the order of the
    collection. *)
Definition documentos_sin_procesar (c : list doc) : list doc :=
  List.filter sin_procesar c.

(** ** [_crear_texto_desde_campos]

    Text is the sequence of its UTF-8 bytes, in Python's strings as in
    the literals below. *)

(** [bool(s)] of a string and of an optional string. *)
Definition str_truthy (s : string) : bool := negb (String.eqb s "").

Definition opt_truthy (o : option string) : bool :=
  match o with Some s => str_truthy s | None => false end.

(** What an f-string makes of an optional string. *)
Definition str_de (o : option string) : string :=
  match o with Some s => s | None => "None" end.

(** [if b: campos.append(...)] *)
Definition si (b : bool) (l : list string) : list string :=
  if b then l else [].

Definition no_vacia {A} (l : list A) : bool :=
  match l with [] => false | _ => true end.

Definition ubicacion_partes (documento : ImagenDocumento) : list string :=
  si (str_truthy (ciudad documento)) ["ciudad: " ++ ciudad documento]
  ++ si (str_truthy (barrio documento)) ["barrio: " ++ barrio documento]
  ++ si (str_truthy (calle documento)) ["calle: " ++ calle documento]
  ++ si (str_truthy (cp documento)) ["CP: " ++ cp documento]
  ++ si (str_truthy (pais documento)) ["país: " ++ pais documento].

Definition texto_coordenadas (documento : ImagenDocumento)
    (lat lon : pyval) : list string :=
  [ "coordenadas_geográficas: latitud " ++ py_str lat ++ ", longitud "
      ++ py_str lon ]
  ++ si (str_truthy (ciudad documento))
       [ "ubicación_geográfica: " ++ ciudad documento ++ " (lat: "
           ++ py_str lat ++ ", lon: " ++ py_str lon ++ ")" ].

Definition campos_coordenadas (documento : ImagenDocumento)
    : list string :=
  if py_truthy (coordenadas documento) then
    match coordenadas documento with
    | PDict coords =>
        match assoc_get "lat" coords, assoc_get "lon" coords with
        | Some lat, Some lon => texto_coordenadas documento lat lon
        | _, _ => []
        end
    | PList (lat :: lon :: _) => texto_coordenadas documento lat lon
    | _ => []
    end
  else [].

Definition campos_lista (nombre_campo contiene numero sufijo : string)
    (l : list string) : list string :=
  let l_str := join ", " l in
  [ nombre_campo ++ l_str;
    contiene ++ l_str;
    numero ++ str_int (Z.of_nat (length l)) ++ sufijo ].

(** The list [campos_texto] at the end of the function. *)
Definition campos_texto (documento : ImagenDocumento) : list string :=
  si (opt_truthy (id_hash documento))
    ["id_hash: " ++ str_de (id_hash documento)]
  ++ si (str_truthy (hash_sha512 documento))
       ["hash_sha512: " ++ hash_sha512 documento]
  ++ si (str_truthy (nombre documento)) ["archivo: " ++ nombre documento]
  ++ si (str_truthy (ruta documento)) ["ruta: " ++ ruta documento]
  ++ si (opt_truthy (ruta_alternativa documento))
       ["ruta_alternativa: " ++ str_de (ruta_alternativa documento)]
  ++ si (negb (ancho documento =? 0) && negb (alto documento =? 0))
       [ "dimensiones: " ++ str_int (ancho documento) ++ "x"
           ++ str_int (alto documento) ++ " píxeles" ]
  ++ si (negb (Qeq_bool (fvalor (peso documento)) 0))
       ["peso: " ++ frepr (peso documento) ++ " bytes"]
  ++ si (str_truthy (get_fecha_creacion documento))
       ["fecha_creación: " ++ get_fecha_creacion documento]
  ++ si (str_truthy (get_fecha_procesamiento documento))
       ["fecha_procesamiento: " ++ get_fecha_procesamiento documento]
  ++ si (no_vacia (ubicacion_partes documento))
       ["ubicación: " ++ join ", " (ubicacion_partes documento)]
  ++ campos_coordenadas documento
  ++ [ "estado_procesamiento: "
         ++ (if objeto_procesado documento then "procesado"
             else "pendiente de procesamiento");
       "imagen_analizada: "
         ++ (if objeto_procesado documento then "sí" else "no") ]
  ++ si (no_vacia (objetos documento))
       (campos_lista "objetos_detectados: " "contiene_objetos: "
          "número_objetos: " " objetos detectados" (objetos documento))
  ++ si (no_vacia (personas documento))
       (campos_lista "personas_detectadas: " "contiene_personas: "
          "número_personas: " " personas detectadas" (personas documento))
  ++ si (opt_truthy (descripcion_semantica documento))
       [ "descripción_semántica: "
           ++ str_de (descripcion_semantica documento) ].

Definition _crear_texto_desde_campos (documento : ImagenDocumento)
    : string :=
  join " | " (campos_texto documento).

(** An environment whose text is the one the program builds. *)
Definition entorno_textual : Entorno :=
  {| crear_texto := _crear_texto_desde_campos;
     embed_query := embed_query entorno_ejemplo;
     object_id := object_id entorno_ejemplo;
     mongo_find_falla := fun _ => false;
     mongo_insert_falla := fun _ => false;
     mongo_update_falla := fun _ _ => false;
     qdrant_retrieve_falla := fun _ => false;
     qdrant_upsert_falla := fun _ => false;
     qdrant_delete_falla := fun _ => false |}.

(** ** Measures on an insertion *)

(** The document [insert_one] stores for [data]: with a fresh [_id] when
    it has none. *)
Definition almacenado (env : Entorno) (c : list doc) (data : doc) : doc :=
  match assoc_get "_id" data with
  | Some _ => data
  | None => ("_id", PObjectId (object_id env c)) :: data
  end.

(** The [_id] of [data], if it has one, is not in the collection. *)
Definition sin_choque (c : list doc) (data : doc) : bool :=
  match assoc_get "_id" data with
  | Some v => negb (existsb (fun d => mismo_id v (id_de d)) c)
  | None => true
  end.

(** An environment in which the lookup by path raises. *)
Definition entorno_sin_consulta : Entorno :=
  {| crear_texto := crear_texto entorno_ejemplo;
     embed_query := embed_query entorno_ejemplo;
     object_id := object_id entorno_ejemplo;
     mongo_find_falla := fun _ => true;
     mongo_insert_falla := fun _ => false;
     mongo_update_falla := fun _ _ => false;
     qdrant_retrieve_falla := fun _ => false;
     qdrant_upsert_falla := fun _ => false;
     qdrant_delete_falla := fun _ => false |}.

(** ** Backup and restore of the collection ([database.py]) *)

Module Respaldo.

(** What the surroundings answer during a backup or a restore: the names
    of the collection and the database, the clock, the environment
    variable, what [bson.ObjectId] makes of a string (nothing when it
    raises), the digest and the size of the file [json.dump] writes for a
    value, and which calls raise. *)
Record Entorno_respaldo := {
  collection_name : string;
  database_name : string;
  isoformat_now : string;
  mongodb_uri : string;
  ObjectId : string -> option string;
  sha256_del_volcado : pyval -> string;
  tamano_del_volcado : pyval -> Z;
  count_documents_falla : bool;
  find_falla : bool;
  open_falla : bool;
  drop_collection_falla : bool
}.

(** [backup_info] *)
Record InfoBackup := {
  total_documentos : Z;
  tamano_archivo : Z;
  hash_sha256 : string;
  fecha_backup : string
}.

(** [restauracion_info] *)
Record InfoRestauracion := {
  total_documentos_restaurados : Z;
  total_documentos_en_coleccion : Z;
  metadata_backup : pyval
}.

(** What [json.load] reads from what [json.dump(..., default=str)] wrote:
    an [ObjectId] went through [str]. *)
Fixpoint json_leido (v : pyval) : pyval :=
  match v with
  | PObjectId h => PStr h
  | PList l => PList (map json_leido l)
  | PDict d => PDict (map (fun kv => (fst kv, json_leido (snd kv))) d)
  | _ => v
  end.

(** [if '_id' in documento: documento['_id'] = str(documento['_id'])] *)
Definition id_como_texto (documento : doc) : doc :=
  match assoc_get "_id" documento with
  | Some v => set_campo "_id" (PStr (py_str v)) documento
  | None => documento
  end.

Definition metadata_de (er : Entorno_respaldo) (total_documentos : Z)
    : pyval :=
  PDict
    [ ("collection_name", PStr (collection_name er));
      ("database_name", PStr (database_name er));
      ("backup_date", PStr (isoformat_now er));
      ("total_documents", PInt total_documentos);
      ("mongodb_version", PStr "1.0");
      ("connection_info",
        PDict [ ("mongodb_uri", PStr (mongodb_uri er));
                ("database_name", PStr (database_name er));
                ("collection_name", PStr (collection_name er)) ]) ].

Definition si_falla (b : bool) (msg : string) : M unit :=
  if b then raise msg else ret tt.

(** [crear_backup_coleccion]: the result is the file the path then holds
    and [backup_info]. *)
Definition crear_backup_coleccion (er : Entorno_respaldo)
    : M (Archivo * InfoBackup) :=
  con_registro "crear_backup_coleccion"
    (si_falla (count_documents_falla er)
       "ServerSelectionTimeoutError: count_documents" ;;;
     w <- leer_mundo ;;
     let total_documentos := Z.of_nat (length (mongo w)) in
     si_falla (find_falla er) "ServerSelectionTimeoutError: find" ;;;
     let documents := map (fun d => PDict (id_como_texto d)) (mongo w) in
     let backup_data :=
       PDict [ ("metadata", metadata_de er total_documentos);
               ("documents", PList documents) ] in
     si_falla (open_falla er) "OSError: open" ;;;
     ret ({| json_load := JsonOk (json_leido backup_data);
             sha256_hexdigest := sha256_del_volcado er backup_data;
             getsize := tamano_del_volcado er backup_data |},
          {| total_documentos := Z.of_nat (length documents);
             tamano_archivo := tamano_del_volcado er backup_data;
             hash_sha256 := sha256_del_volcado er backup_data;
             fecha_backup := isoformat_now er |})).

(** [doc_data['_id'] = x] on a loaded value that has the key. *)
Definition py_setitem_id (doc_data : pyval) (x : pyval) : pyval :=
  match doc_data with
  | PDict d => PDict (set_campo "_id" x d)
  | _ => doc_data
  end.

(** One turn of the loop that prepares [documents_to_insert]. *)
Definition preparar (er : Entorno_respaldo) (doc_data : pyval)
    : res pyval :=
  rbind (py_contains "_id" doc_data) (fun hay_id =>
  if hay_id then
    rbind (py_getitem doc_data "_id") (fun x =>
    match x with
    | PStr s =>
        match ObjectId er s with
        | Some oid => Ok (py_setitem_id doc_data (PObjectId oid))
        | None => Ok doc_data
        end
    | _ => Ok doc_data
    end)
  else Ok doc_data).

Fixpoint preparar_todos (er : Entorno_respaldo) (documents_data : list pyval)
    : res (list pyval) :=
  match documents_data with
  | [] => Ok []
  | doc_data :: resto =>
      rbind (preparar er doc_data) (fun d =>
      rbind (preparar_todos er resto) (fun ds => Ok (d :: ds)))
  end.

(** The check [insert_many] makes of its argument before it sends
    anything. *)
Fixpoint como_documentos (batch : list pyval) : res (list doc) :=
  match batch with
  | [] => Ok []
  | PDict d :: resto =>
      rbind (como_documentos resto) (fun ds => Ok (d :: ds))
  | _ :: _ =>
      Error "TypeError: document must be an instance of dict"
  end.

Section Restaurar.
Variable env : Entorno.
Variable er : Entorno_respaldo.

Fixpoint insertar_en_orden (docs : list doc) : M unit :=
  match docs with
  | [] => ret tt
  | d :: resto => insert_one env d ;;; insertar_en_orden resto
  end.

(** [collection.insert_many(batch)]: the documents are inserted in order
    until one is refused. *)
Definition insert_many (batch : list pyval) : M unit :=
  docs <- lift (como_documentos batch) ;;
  insertar_en_orden docs.

(** [for i in range(0, len(documents_to_insert), batch_size)] *)
Fixpoint insertar_lotes (documents_to_insert : list pyval) (batch_size : Z)
    (inicios : list Z) : M unit :=
  match inicios with
  | [] => ret tt
  | i :: resto =>
      insert_many (entre i (i + batch_size) documents_to_insert) ;;;
      insertar_lotes documents_to_insert batch_size resto
  end.

Definition drop_collection : M unit :=
  si_falla (drop_collection_falla er)
    "ServerSelectionTimeoutError: drop_collection" ;;;
  poner_mongo [].

(** [restaurar_coleccion], given the file at [ruta_backup], if any. *)
Definition restaurar_coleccion (archivo : option Archivo)
    (eliminar_existente : bool) : M InfoRestauracion :=
  con_registro "restaurar_coleccion"
    (match archivo with
     | None => raise "FileNotFoundError: Archivo de backup no encontrado"
     | Some a =>
         match json_load a with
         | JSONDecodeError msg => raise msg
         | OtraExcepcion msg => raise msg
         | JsonOk backup_data =>
             hay_metadata <- lift (py_contains "metadata" backup_data) ;;
             hay_todo <-
               (if hay_metadata
                then lift (py_contains "documents" backup_data)
                else ret false) ;;
             if negb hay_todo
             then raise "ValueError: Formato de backup inválido"
             else
               metadata <- lift (py_getitem backup_data "metadata") ;;
               documents_data <-
                 lift (py_getitem backup_data "documents") ;;
               _ <- lift (py_len documents_data) ;;
               (if eliminar_existente then drop_collection else ret tt) ;;;
               elementos <- lift (py_iter documents_data) ;;
               documents_to_insert <- lift (preparar_todos er elementos) ;;
               let n := Z.of_nat (length documents_to_insert) in
               inicios <- lift (py_range n 100) ;;
               insertar_lotes documents_to_insert 100 inicios ;;;
               si_falla (count_documents_falla er)
                 "ServerSelectionTimeoutError: count_documents" ;;;
               w <- leer_mundo ;;
               ret {| total_documentos_restaurados := n;
                      total_documentos_en_coleccion :=
                        Z.of_nat (length (mongo w));
                      metadata_backup := metadata |}
         end
     end).

End Restaurar.

End Respaldo.

(** Plain JSON: no [ObjectId] anywhere. *)
Fixpoint es_json (v : pyval) : bool :=
  match v with
  | PObjectId _ => false
  | PList l => forallb es_json l
  | PDict d => forallb (fun kv => es_json (snd kv)) d
  | _ => true
  end.

(** The [_id] of a record comes back from a backup as it was: an
    [ObjectId] that [ObjectId] rebuilds from its text, or a string that
    [ObjectId] refuses. *)
Definition id_recuperable (er : Respaldo.Entorno_respaldo) (d : doc)
    : bool :=
  match assoc_get "_id" d with
  | Some (PObjectId h) =>
      match Respaldo.ObjectId er h with
      | Some h' => String.eqb h' h
      | None => false
      end
  | Some (PStr s) => negb (is_Some_bool (Respaldo.ObjectId er s))
  | _ => false
  end.

(** A record the backup and the restore give back unchanged. *)
Definition recuperable (er : Respaldo.Entorno_respaldo) (d : doc) : bool :=
  id_recuperable er d && es_json (PDict (Respaldo.id_como_texto d)).

(** No record of [docs] has the [_id] of a record of [previos] or of one
    before it in [docs]. *)
Fixpoint sin_repetir (previos docs : list doc) : bool :=
  match docs with
  | [] => true
  | d :: resto => sin_choque previos d && sin_repetir (previos ++ [d]) resto
  end.


(** A loaded value that is a number, a boolean or [null]. *)
Definition es_escalar (v : pyval) : bool :=
  match v with
  | PNone | PBool _ | PInt _ | PFloat _ => true
  | _ => false
  end.

(** What [crear_backup_coleccion] hands to [json.dump] for a collection. *)
Definition volcado (er : Respaldo.Entorno_respaldo) (c : list doc) : pyval :=
  PDict [ ("metadata", Respaldo.metadata_de er (Z.of_nat (length c)));
          ("documents",
            PList (map (fun d => PDict (Respaldo.id_como_texto d)) c)) ].

(** A surrounding in which nothing fails and [ObjectId] takes the strings
    of 24 hexadecimal digits. *)
Definition es_hex (c : ascii) : bool :=
  is_Some_bool (digit16 c).

Definition object_id_ejemplo (s : string) : option string :=
  if (String.length s =? 24)%nat && forallb es_hex (list_ascii_of_string s)
  then Some (lower_de_ascii s) else None.

Definition respaldo_ejemplo : Respaldo.Entorno_respaldo :=
  {| Respaldo.collection_name := "imagenes";
     Respaldo.database_name := "fotos";
     Respaldo.isoformat_now := "2024-03-07T10:00:00";
     Respaldo.mongodb_uri := "mongodb://localhost:27017/";
     Respaldo.ObjectId := object_id_ejemplo;
     Respaldo.sha256_del_volcado := fun _ => clave_ejemplo;
     Respaldo.tamano_del_volcado := fun _ => 2048;
     Respaldo.count_documents_falla := false;
     Respaldo.find_falla := false;
     Respaldo.open_falla := false;
     Respaldo.drop_collection_falla := false |}.

(** A backup file whose list of records holds a number. *)
Definition archivo_con_un_numero : Archivo :=
  {| json_load :=
       JsonOk (PDict [ ("metadata", Respaldo.metadata_de respaldo_ejemplo 2);
                       ("documents",
                         PList [PDict [("_id", PStr "0a1b2c")]; PInt 7]) ]);
     sha256_hexdigest := clave_ejemplo;
     getsize := 2048 |}.

(** ** The dates of a search result ([buscar_semanticamente])

    [s.split(sep)] for a separator of one character, and [s.split()],
    whose white space is that of ASCII. *)

Fixpoint py_split (sep : ascii) (s : string) : list string :=
  match s with
  | EmptyString => [EmptyString]
  | String c s' =>
      if Ascii.eqb c sep then EmptyString :: py_split sep s'
      else
        match py_split sep s' with
        | p :: ps => String c p :: ps
        | [] => [String c EmptyString]
        end
  end.

Definition es_espacio (c : ascii) : bool :=
  let n := N_of_ascii c in
  (((9 <=? n) && (n <=? 13)) || ((28 <=? n) && (n <=? 32)))%N.

Fixpoint py_split_espacios (s : string) : list string :=
  match s with
  | EmptyString => []
  | String c s' =>
      if es_espacio c then py_split_espacios s'
      else
        match s' with
        | EmptyString => [String c EmptyString]
        | String c' _ =>
            if es_espacio c' then String c EmptyString :: py_split_espacios s'
            else
              match py_split_espacios s' with
              | p :: ps => String c p :: ps
              | [] => [String c EmptyString]
              end
        end
  end.

(** [l[i]] *)
Definition py_item (l : list string) (i : nat) : res string :=
  match nth_error l i with
  | Some x => Ok x
  | None => Error "IndexError: list index out of range"
  end.

Definition barra : ascii := "/"%char.
Definition dos_puntos : ascii := ":"%char.

(** The five date arguments [buscar_semanticamente] passes to
    [ImagenDocumento] for the payload entry [clave], in the order it
    evaluates them; the value of the entry is what [payload.get(clave)]
    gives. *)
Definition fechas_de_payload (clave : string)
    (payload : list (string * pyval))
    : res (string * string * string * string * string) :=
  let valor :=
    match assoc_get clave payload with Some v => v | None => PNone end in
  if py_truthy valor then
    match valor with
    | PStr s =>
        rbind (py_item (py_split barra s) 0) (fun dia =>
        rbind (if str_in "/" s then py_item (py_split barra s) 1
               else Ok "") (fun mes =>
        rbind (rbind (py_item (py_split barra s) 2) (fun p =>
               py_item (py_split_espacios p) 0)) (fun anio =>
        rbind (if str_in " " s
               then rbind (py_item (py_split_espacios s) 1) (fun p =>
                    py_item (py_split dos_puntos p) 0)
               else Ok "") (fun hora =>
        rbind (if str_in " " s
               then rbind (py_item (py_split_espacios s) 1) (fun p =>
                    py_item (py_split dos_puntos p) 1)
               else Ok "") (fun minuto =>
        Ok (dia, mes, anio, hora, minuto))))))
    | _ => Error "AttributeError: object has no attribute 'split'"
    end
  else Ok ("", "", "", "", "").

(** Every character of the string passes the test. *)
Fixpoint todos (p : ascii -> bool) (s : string) : bool :=
  match s with
  | EmptyString => true
  | String c s' => p c && todos p s'
  end.

(** An ASCII character that is no slash, no colon and no white space. *)
Definition caracter_simple (c : ascii) : bool :=
  (N_of_ascii c <? 128)%N
  && negb (Ascii.eqb c barra) && negb (Ascii.eqb c dos_puntos)
  && negb (es_espacio c).

Definition campo_simple (s : string) : bool := todos caracter_simple s.

(** The date fields of a document are as the extractor writes them: no
    slash, colon or white space in any of them, and a year. *)
Definition fechas_simples (d : ImagenDocumento) : bool :=
  campo_simple (fecha_creacion_dia d) && campo_simple (fecha_creacion_mes d)
  && campo_simple (fecha_creacion_anio d)
  && campo_simple (fecha_creacion_hora d)
  && campo_simple (fecha_creacion_minuto d)
  && str_truthy (fecha_creacion_anio d)
  && campo_simple (fecha_procesamiento_dia d)
  && campo_simple (fecha_procesamiento_mes d)
  && campo_simple (fecha_procesamiento_anio d)
  && campo_simple (fecha_procesamiento_hora d)
  && campo_simple (fecha_procesamiento_minuto d)
  && str_truthy (fecha_procesamiento_anio d).

(** ** The filter of [buscar_similares] *)

Module Filtros.

(** [FieldCondition(key=..., match=MatchValue(value=...))] *)
Record FieldCondition := { key : string; value : pyval }.

(** [MatchValue(value=v)] takes a boolean, an integer or a string. *)
Definition MatchValue (v : pyval) : res pyval :=
  match v with
  | PBool _ | PInt _ | PStr _ => Ok v
  | _ => Error "ValidationError: MatchValue"
  end.

(** [for item in valor: conditions.append(...)] *)
Fixpoint condiciones_de_lista (campo : string) (valor : list pyval)
    : res (list FieldCondition) :=
  match valor with
  | [] => Ok []
  | item :: resto =>
      rbind (MatchValue item) (fun m =>
      rbind (condiciones_de_lista campo resto) (fun cs =>
      Ok ({| key := campo; value := m |} :: cs)))
  end.

(** [for campo, valor in filtros.items()] *)
Fixpoint condiciones (filtros : list (string * pyval))
    : res (list FieldCondition) :=
  match filtros with
  | [] => Ok []
  | (campo, valor) :: resto =>
      rbind
        (match valor with
         | PStr _ =>
             rbind (MatchValue valor) (fun m =>
             Ok [{| key := campo; value := m |}])
         | PList l => condiciones_de_lista campo l
         | _ => Ok []
         end) (fun cs =>
      rbind (condiciones resto) (fun cs' => Ok (cs ++ cs')%list))
  end.

(** [qdrant_filter]: [None], or [Filter(should=conditions)]. *)
Definition qdrant_filter (filtros : option (list (string * pyval)))
    : res (option (list FieldCondition)) :=
  match filtros with
  | Some (f :: fs) =>
      rbind (condiciones (f :: fs)) (fun conditions =>
      match conditions with
      | [] => Ok None
      | _ :: _ => Ok (Some conditions)
      end)
  | _ => Ok None
  end.

End Filtros.

(** A value of a filter that gives no condition: neither a string nor a
    list with an item. *)
Definition sin_condicion (v : pyval) : bool :=
  match v with
  | PStr _ => false
  | PList (_ :: _) => false
  | _ => true
  end.

(** ** A run in which nothing fails *)

(** The model embeds every text, and no write to MongoDB and no call to
    Qdrant raises. *)
Definition entorno_fiable (env : Entorno) : Prop :=
  (forall t, is_ok (embed_query env t) = true)
  /\ (forall f c, mongo_update_falla env f c = false)
  /\ (forall i, qdrant_retrieve_falla env i = false)
  /\ (forall i, qdrant_upsert_falla env i = false).

(** The record a filter on [_id] addresses, if any, carries
    [qdrant: True]. *)
Definition marcado (filtro : option string) (c : list doc) : Prop :=
  forall x,
    List.find (coincide_id filtro) c = Some x ->
    assoc_get "qdrant" x = Some (PBool true).

(** ** Backup of the Qdrant collection ([qdrant_manager.py]) *)

Module RespaldoQdrant.

(** What the surroundings answer during a backup: the name of the
    collection, the clock, the size and the distance of the collection's
    vectors, the digest and the size of the file written for a value, and
    which calls raise. *)
Record Entorno_respaldo := {
  collection_name : string;
  isoformat_now : string;
  vector_size : Z;
  distance : string;
  sha256_del_volcado : pyval -> string;
  tamano_del_volcado : pyval -> Z;
  get_collection_falla : bool;
  scroll_falla : bool;
  open_falla : bool
}.

(** [backup_info] *)
Record InfoBackup := {
  total_vectores : Z;
  tamano_archivo : Z;
  hash_sha256 : string;
  fecha_backup : string
}.

(** The points of the collection in the order of their ids, the order in
    which [scroll] pages through them. *)
Fixpoint insertar_punto (x : Z * Punto) (l : list (Z * Punto))
    : list (Z * Punto) :=
  match l with
  | [] => [x]
  | y :: l' =>
      if fst x <? fst y then x :: y :: l' else y :: insertar_punto x l'
  end.

Definition puntos_ordenados (q : gmap Z Punto) : list (Z * Punto) :=
  fold_right insertar_punto [] (map_to_list q).

(** The points a page may start with: all of them, or those from the id
    [offset] on. *)
Definition desde (offset : option Z) (l : list (Z * Punto))
    : list (Z * Punto) :=
  match offset with
  | None => l
  | Some o => List.filter (fun x => o <=? fst x) l
  end.

Section Backup.
Variable er : Entorno_respaldo.

(** [client.scroll(limit=limit, offset=offset, with_payload=True,
    with_vectors=True)]: a page and the id the next page starts at, if
    there is one. *)
Definition scroll (limit : nat) (offset : option Z)
    : M (list (Z * Punto) * option Z) :=
  Respaldo.si_falla (scroll_falla er) "UnexpectedResponse: scroll" ;;;
  w <- leer_mundo ;;
  let puntos := desde offset (puntos_ordenados (vectores w)) in
  ret (firstn limit puntos, option_map fst (nth_error puntos limit)).

(** The [while True] that fills [all_points]; [None] when the turns
    allowed are used up. *)
Fixpoint bucle_scroll (turnos : nat) (offset : option Z)
    (all_points : list (Z * Punto)) : M (option (list (Z * Punto))) :=
  match turnos with
  | O => ret None
  | S turnos' =>
      r <- scroll 1000 offset ;;
      let response := fst r in
      let offset := snd r in
      match response with
      | [] => ret (Some all_points)
      | _ :: _ =>
          let all_points := (all_points ++ response)%list in
          match offset with
          | None => ret (Some all_points)
          | Some _ => bucle_scroll turnos' offset all_points
          end
      end
  end.

Definition metadata_de (total_vectors : Z) : pyval :=
  PDict
    [ ("collection_name", PStr (collection_name er));
      ("backup_date", PStr (isoformat_now er));
      ("total_vectors", PInt total_vectors);
      ("vector_size", PInt (vector_size er));
      ("distance", PStr (distance er));
      ("qdrant_version", PStr "1.0") ].

Definition vector_data (point : Z * Punto) : pyval :=
  PDict [ ("id", PInt (fst point));
          ("vector", PFloats (vector (snd point)));
          ("payload", PDict (payload (snd point))) ].

Definition backup_data_de (all_points : list (Z * Punto)) : pyval :=
  PDict [ ("metadata", metadata_de (Z.of_nat (length all_points)));
          ("vectors", PList (map vector_data all_points)) ].

(** [crear_backup_coleccion]: the result is the file the path then holds
    and [backup_info]; [json.dump] has no [default] here and raises on a
    value that is not JSON. *)
Definition crear_backup_coleccion (turnos : nat)
    : M (option (Archivo * InfoBackup)) :=
  con_registro "crear_backup_coleccion"
    (Respaldo.si_falla (get_collection_falla er)
       "UnexpectedResponse: get_collection" ;;;
     r <- bucle_scroll turnos None [] ;;
     match r with
     | None => ret None
     | Some all_points =>
         let backup_data := backup_data_de all_points in
         Respaldo.si_falla (open_falla er) "OSError: open" ;;;
         Respaldo.si_falla (negb (es_json backup_data))
           "TypeError: Object is not JSON serializable" ;;;
         ret (Some
                ({| json_load := JsonOk backup_data;
                    sha256_hexdigest := sha256_del_volcado er backup_data;
                    getsize := tamano_del_volcado er backup_data |},
                 {| total_vectores := Z.of_nat (length all_points);
                    tamano_archivo := tamano_del_volcado er backup_data;
                    hash_sha256 := sha256_del_volcado er backup_data;
                    fecha_backup := isoformat_now er |}))
     end).

End Backup.

End RespaldoQdrant.

(** A surrounding of the Qdrant backup in which nothing fails. *)
Definition respaldo_qdrant_ejemplo : RespaldoQdrant.Entorno_respaldo :=
  {| RespaldoQdrant.collection_name := "imagenes_semanticas";
     RespaldoQdrant.isoformat_now := "2024-03-07T10:00:00";
     RespaldoQdrant.vector_size := 2;
     RespaldoQdrant.distance := "Cosine";
     RespaldoQdrant.sha256_del_volcado := fun _ => clave_ejemplo;
     RespaldoQdrant.tamano_del_volcado := fun _ => 4096;
     RespaldoQdrant.get_collection_falla := false;
     RespaldoQdrant.scroll_falla := false;
     RespaldoQdrant.open_falla := false |}.

(** ** Restore of the Qdrant collection ([qdrant_manager.py]) *)

Module RestauracionQdrant.

(** What the surroundings answer during a restore: what [PointStruct]
    makes of an id, a vector and a payload (or that it raises), and which
    calls raise; [_ensure_collection] is called on a collection that was
    just deleted, which it creates anew. *)
Record Entorno_restauracion := {
  PointStruct : pyval -> pyval -> pyval -> res (Z * Punto);
  delete_collection_falla : bool;
  ensure_collection_falla : bool;
  upsert_falla : list (Z * Punto) -> bool;
  get_collection_falla : bool
}.

(** [restauracion_info] *)
Record InfoRestauracion := {
  total_vectores_restaurados : Z;
  total_vectores_en_coleccion : Z;
  metadata_backup : pyval
}.

Section Restaurar.
Variable er : Entorno_restauracion.

(** [for vector_data in vectors_data: points.append(PointStruct(...))] *)
Fixpoint puntos_de (vectors_data : list pyval) : res (list (Z * Punto)) :=
  match vectors_data with
  | [] => Ok []
  | vector_data :: resto =>
      rbind (py_getitem vector_data "id") (fun i =>
      rbind (py_getitem vector_data "vector") (fun v =>
      rbind (py_getitem vector_data "payload") (fun p =>
      rbind (PointStruct er i v p) (fun point =>
      rbind (puntos_de resto) (fun points => Ok (point :: points))))))
  end.

(** [client.upsert(points=batch)]: each point replaces whatever its id
    held. *)
Definition upsert (batch : list (Z * Punto)) : M unit :=
  Respaldo.si_falla (upsert_falla er batch) "UnexpectedResponse: upsert" ;;;
  w <- leer_mundo ;;
  poner_qdrant
    (fold_left (fun q point => <[fst point := snd point]> q) batch
       (vectores w)).

(** [for i in range(0, len(points), batch_size)] *)
Fixpoint upsert_lotes (points : list (Z * Punto)) (batch_size : Z)
    (inicios : list Z) : M unit :=
  match inicios with
  | [] => ret tt
  | i :: resto =>
      upsert (entre i (i + batch_size) points) ;;;
      upsert_lotes points batch_size resto
  end.

Definition recrear : M unit :=
  Respaldo.si_falla (delete_collection_falla er)
    "UnexpectedResponse: delete_collection" ;;;
  poner_qdrant ∅ ;;;
  Respaldo.si_falla (ensure_collection_falla er)
    "UnexpectedResponse: create_collection".

(** [restaurar_coleccion], given the file at [ruta_backup], if any. *)
Definition restaurar_coleccion (archivo : option Archivo)
    (recrear_coleccion : bool) : M InfoRestauracion :=
  con_registro "restaurar_coleccion"
    (match archivo with
     | None => raise "FileNotFoundError: Archivo de backup no encontrado"
     | Some a =>
         match json_load a with
         | JSONDecodeError msg => raise msg
         | OtraExcepcion msg => raise msg
         | JsonOk backup_data =>
             hay_metadata <- lift (py_contains "metadata" backup_data) ;;
             hay_todo <-
               (if hay_metadata
                then lift (py_contains "vectors" backup_data)
                else ret false) ;;
             if negb hay_todo
             then raise "ValueError: Formato de backup inválido"
             else
               metadata <- lift (py_getitem backup_data "metadata") ;;
               vectors_data <- lift (py_getitem backup_data "vectors") ;;
               _ <- lift (py_len vectors_data) ;;
               (if recrear_coleccion then recrear else ret tt) ;;;
               elementos <- lift (py_iter vectors_data) ;;
               points <- lift (puntos_de elementos) ;;
               let n := Z.of_nat (length points) in
               inicios <- lift (py_range n 100) ;;
               upsert_lotes points 100 inicios ;;;
               Respaldo.si_falla (get_collection_falla er)
                 "UnexpectedResponse: get_collection" ;;;
               w <- leer_mundo ;;
               ret {| total_vectores_restaurados := n;
                      total_vectores_en_coleccion :=
                        Z.of_nat (size (vectores w));
                      metadata_backup := metadata |}
         end
     end).

End Restaurar.

End RestauracionQdrant.

(** An entry of [vectors] that has its three keys. *)
Definition punto_completo (v : pyval) : bool :=
  is_ok (py_getitem v "id") && is_ok (py_getitem v "vector")
  && is_ok (py_getitem v "payload").

(** [PointStruct] on the values a backup writes for a point: an integer
    id, a list of floats and a dictionary. *)
Definition point_struct_ejemplo (i v p : pyval) : res (Z * Punto) :=
  match i, v, p with
  | PInt n, PList l, PDict d =>
      if forallb (fun x => match x with PFloat _ => true | _ => false end) l
      then Ok (n, {| vector :=
                       flat_map (fun x => match x with
                                          | PFloat f => [f]
                                          | _ => []
                                          end) l;
                     payload := d |})
      else Error "ValidationError: PointStruct"
  | _, _, _ => Error "ValidationError: PointStruct"
  end.

Definition restauracion_ejemplo : RestauracionQdrant.Entorno_restauracion :=
  {| RestauracionQdrant.PointStruct := point_struct_ejemplo;
     RestauracionQdrant.delete_collection_falla := false;
     RestauracionQdrant.ensure_collection_falla := false;
     RestauracionQdrant.upsert_falla := fun _ => false;
     RestauracionQdrant.get_collection_falla := false |}.

(** A backup file with the structure [validar_backup] asks for, one of
    whose vectors has no payload. *)
Definition archivo_sin_payload : Archivo :=
  {| json_load :=
       JsonOk
         (PDict
            [ ("metadata",
                RespaldoQdrant.metadata_de respaldo_qdrant_ejemplo 1);
              ("vectors",
                PList [PDict [ ("id", PInt 7);
                               ("vector", PFloats embedding_ejemplo) ]]) ]);
     sha256_hexdigest := clave_ejemplo;
     getsize := 512 |}.

(** ** [_ensure_collection] ([qdrant_manager.py]) *)

Module Coleccion.

(** The collection on the server, when it exists: the size of its vectors
    and its points. *)
Record Coleccion := { dimension : Z; puntos : gmap Z Punto }.

(** Which calls to the server raise. *)
Record Entorno_coleccion := {
  get_collections_falla : bool;
  create_collection_falla : bool;
  get_collection_falla : bool;
  delete_collection_falla : bool
}.

Definition vector_size : Z := 768.

Definition nueva : Coleccion := {| dimension := vector_size; puntos := ∅ |}.

(** The inner [try]: the size of an existing collection is compared with
    that of the model, and whatever raises there is only logged. *)
Definition verificar_dimension (ec : Entorno_coleccion) (c : Coleccion)
    : option Coleccion :=
  if get_collection_falla ec then Some c
  else if negb (dimension c =? vector_size) then
    if delete_collection_falla ec then Some c
    else if create_collection_falla ec then None
    else Some nueva
  else Some c.

(** [_ensure_collection], on the collection of the manager's name. *)
Definition _ensure_collection (ec : Entorno_coleccion)
    (c : option Coleccion) : res unit * option Coleccion :=
  if get_collections_falla ec
  then (Error "UnexpectedResponse: get_collections", c)
  else
    match c with
    | None =>
        if create_collection_falla ec
        then (Error "UnexpectedResponse: create_collection", None)
        else (Ok tt, Some nueva)
    | Some existente => (Ok tt, verificar_dimension ec existente)
    end.

End Coleccion.

(** The results of a list that have a given score. *)
Definition con_puntuacion (s : Q) (l : list ResultadoBusqueda)
    : list ResultadoBusqueda :=
  List.filter (fun r => Qeq_bool (similitud r) s) l.

(** ** [_generar_ruta_alternativa] ([metadata_extractor.py]) *)

Definition ruta_base : string := "/mnt/remoto/11/Datos".

Definition ruta_alternativa_base : string :=
  "/mnt/local/datos/PROYECTO_ALBUM/copiado".

(** [s.startswith(p)] *)
Fixpoint startswith (s p : string) {struct p} : bool :=
  match p, s with
  | EmptyString, _ => true
  | String _ _, EmptyString => false
  | String a p', String b s' => Ascii.eqb a b && startswith s' p'
  end.

(** [s[n:]] *)
Fixpoint desde_indice (n : nat) (s : string) : string :=
  match n, s with
  | O, _ => s
  | S _, EmptyString => EmptyString
  | S n', String _ s' => desde_indice n' s'
  end.

Definition _generar_ruta_alternativa (ruta_original : string) : string :=
  if startswith ruta_original ruta_base
  then ruta_alternativa_base
       ++ desde_indice (String.length ruta_base) ruta_original
  else ruta_original.

(** * Properties *)

(** ** The shape of [coordenadas] after validation *)

(** C9: after validation [coordenadas] is [None] or a dictionary: a list
    of at least two elements becomes [{"lat": first, "lon": second}], a
    dictionary is kept, every other shape (a shorter list among them)
    becomes [None]; the result is never a list. *)
Theorem validar_coordenadas_none_o_dict :
  forall v : pyval,
    (validar_coordenadas v = PNone
     \/ exists d, validar_coordenadas v = PDict d)
    /\ (forall l, validar_coordenadas v <> PList l)
    /\ (forall lat lon resto,
          validar_coordenadas (PList (lat :: lon :: resto))
          = PDict [("lat", lat); ("lon", lon)])
    /\ (forall d, validar_coordenadas (PDict d) = PDict d)
    /\ validar_coordenadas PNone = PNone
    /\ validar_coordenadas (PList []) = PNone
    /\ (forall x, validar_coordenadas (PList [x]) = PNone)
    /\ (forall b, validar_coordenadas (PBool b) = PNone)
    /\ (forall n, validar_coordenadas (PInt n) = PNone)
    /\ (forall f, validar_coordenadas (PFloat f) = PNone)
    /\ (forall s, validar_coordenadas (PStr s) = PNone)
    /\ (forall h, validar_coordenadas (PObjectId h) = PNone).
Proof.
  intros v. repeat split; try reflexivity.
  - destruct v as [| | | | | | [|lat [|lon resto]] | d]; simpl;
      try (left; reflexivity); right; eexists; reflexivity.
  - intros l.
    destruct v as [| | | | | | [|lat [|lon resto]] | d]; simpl; discriminate.
Qed.

(** ** The numeric id of a key *)

Lemma digit16_hex_digit (d : Z) :
  0 <= d < 16 -> digit16 (Hashlib.hex_digit d) = Some d.
Proof.
  intros H.
  assert (d = 0 \/ d = 1 \/ d = 2 \/ d = 3 \/ d = 4 \/ d = 5 \/ d = 6
          \/ d = 7 \/ d = 8 \/ d = 9 \/ d = 10 \/ d = 11 \/ d = 12
          \/ d = 13 \/ d = 14 \/ d = 15) as Hd by lia.
  repeat (destruct Hd as [-> | Hd]; [reflexivity |]). subst d. reflexivity.
Qed.

Lemma int16_aux_hex_byte (b acc : Z) (rest : list ascii) :
  0 <= b < 256 ->
  int16_aux acc (Hashlib.hex_byte b ++ rest) = int16_aux (256 * acc + b) rest.
Proof.
  intros Hb. unfold Hashlib.hex_byte. cbn [app int16_aux].
  assert (H1 : Z.shiftr b 4 = b / 16) by (rewrite Z.shiftr_div_pow2; [reflexivity | lia]).
  assert (H2 : Z.land b 15 = b mod 16) by (change 15 with (Z.ones 4); rewrite Z.land_ones; [reflexivity | lia]).
  rewrite H1, H2.
  rewrite !digit16_hex_digit.
  - f_equal. pose proof (Z.div_mod b 16 ltac:(lia)). lia.
  - apply Z.mod_pos_bound. lia.
  - split; [apply Z.div_pos; lia | apply Z.div_lt_upper_bound; lia].
Qed.

Lemma int16_aux_hex (bs : list Z) (acc : Z) :
  Forall (fun b => 0 <= b < 256) bs ->
  int16_aux acc (concat (map Hashlib.hex_byte bs))
  = Ok (fold_left (fun acc b => 256 * acc + b) bs acc).
Proof.
  intros H. revert acc. induction H as [|b bs Hb _ IH]; intros acc.
  - reflexivity.
  - cbn [map concat fold_left]. rewrite int16_aux_hex_byte by exact Hb. apply IH.
Qed.

Lemma bytes_le_rango (n : nat) (w : Z) :
  Forall (fun b => 0 <= b < 256) (Hashlib.bytes_le n w).
Proof.
  revert w. induction n as [|n IH]; intros w; cbn [Hashlib.bytes_le].
  - constructor.
  - constructor; [| apply IH].
    change 255 with (Z.ones 8). rewrite Z.land_ones by lia.
    apply Z.mod_pos_bound. lia.
Qed.

Lemma fold_be_app (xs ys : list Z) (acc : Z) :
  fold_left (fun acc b => 256 * acc + b) (xs ++ ys) acc
  = fold_left (fun acc b => 256 * acc + b) ys
      (fold_left (fun acc b => 256 * acc + b) xs acc).
Proof. apply fold_left_app. Qed.

Lemma fold_be_cota (bs : list Z) (acc : Z) :
  Forall (fun b => 0 <= b < 256) bs ->
  let v := fold_left (fun acc b => 256 * acc + b) bs acc in
  acc * 256 ^ Z.of_nat (length bs) <= v
  < (acc + 1) * 256 ^ Z.of_nat (length bs).
Proof.
  intros H. revert acc. induction H as [|b bs Hb _ IH]; intros acc; cbn [fold_left length].
  - cbn. lia.
  - cbn zeta in IH. specialize (IH (256 * acc + b)).
    rewrite Nat2Z.inj_succ, Z.pow_succ_r by lia.
    set (p := 256 ^ Z.of_nat (length bs)) in *.
    assert (0 < p) by (apply Z.pow_pos_nonneg; lia).
    nia.
Qed.

Lemma int16_hex (bs : list Z) :
  bs <> [] ->
  Forall (fun b => 0 <= b < 256) bs ->
  int16 (string_of_list_ascii (concat (map Hashlib.hex_byte bs)))
  = Ok (valor_be bs).
Proof.
  intros Hne H. unfold int16. rewrite list_ascii_of_string_of_list_ascii.
  destruct bs as [|b bs]; [congruence |].
  unfold valor_be. rewrite <- (int16_aux_hex (b :: bs) 0 H).
  reflexivity.
Qed.

Lemma ids_de_una_clave (k : string) :
  exists a r,
    id_numerico_insertar k = Ok a
    /\ id_numerico_eliminar k = Ok (a * 2 ^ 96 + r)
    /\ 0 <= a < 2 ^ 32 /\ 0 <= r < 2 ^ 96.
Proof.
  unfold id_numerico_insertar, id_numerico_eliminar, Hashlib.md5_hexdigest,
    Hashlib.hexdigest, Hashlib.md5, str_prefix.
  set (st := Hashlib.blocks _ _ _).
  set (hi := Hashlib.bytes_le 4 (Hashlib.sa st)).
  set (lo := (Hashlib.bytes_le 4 (Hashlib.sb st)
               ++ Hashlib.bytes_le 4 (Hashlib.sc st)
               ++ Hashlib.bytes_le 4 (Hashlib.sd st))%list).
  assert (Hhi : Forall (fun b => 0 <= b < 256) hi) by apply bytes_le_rango.
  assert (Hlo : Forall (fun b => 0 <= b < 256) lo).
  { unfold lo. rewrite !Forall_app. repeat split; apply bytes_le_rango. }
  assert (Lhi : length hi = 4%nat) by reflexivity.
  assert (Llo : length lo = 12%nat) by reflexivity.
  exists (valor_be hi), (fold_left (fun acc b => 256 * acc + b) lo 0
                          + (fold_left (fun acc b => 256 * acc + b) lo (valor_be hi)
                             - valor_be hi * 2 ^ 96
                             - fold_left (fun acc b => 256 * acc + b) lo 0)).
  rewrite list_ascii_of_string_of_list_ascii.
  rewrite map_app, concat_app.
  assert (L8 : length (concat (map Hashlib.hex_byte hi)) = 8%nat) by reflexivity.
  rewrite firstn_app, <- L8, firstn_all, Nat.sub_diag. cbn [firstn]. rewrite app_nil_r.
  rewrite <- concat_app, <- map_app.
  rewrite int16_hex; [| subst hi; discriminate | exact Hhi].
  rewrite int16_hex; [| subst hi; discriminate | apply Forall_app; split; assumption].
  pose proof (fold_be_cota hi 0 Hhi) as Bhi. cbn zeta in Bhi. rewrite Lhi in Bhi.
  pose proof (fold_be_cota lo (valor_be hi) Hlo) as Blo. cbn zeta in Blo. rewrite Llo in Blo.
  fold (valor_be hi) in Bhi.
  change (256 ^ Z.of_nat 4) with (2 ^ 32) in Bhi.
  change (256 ^ Z.of_nat 12) with (2 ^ 96) in Blo.
  split; [reflexivity |]. split.
  - f_equal. unfold valor_be at 1. rewrite fold_be_app. fold (valor_be hi). lia.
  - lia.
Qed.

Lemma id_eliminar_igual_solo_si_cero (k : string) (a b : Z) :
  id_numerico_insertar k = Ok a -> id_numerico_eliminar k = Ok b ->
  a = b -> a = 0 /\ b = 0.
Proof.
  intros Ha Hb Heq. destruct (ids_de_una_clave k) as (a' & r & Ha' & Hb' & Ba & Br).
  rewrite Ha in Ha'. rewrite Hb in Hb'. injection Ha' as <-. injection Hb' as ->.
  lia.
Qed.

(** The insert, retrieve and update paths derive the id by the same
    expression. *)
Lemma id_numerico_mismo_en_insertar_obtener_actualizar (k : string) :
  id_numerico_obtener k = id_numerico_insertar k
  /\ id_numerico_actualizar k = id_numerico_insertar k.
Proof. split; reflexivity. Qed.

(** C1 (the code departs from it): the delete path reads the whole
    digest as the id while insert and retrieve read its first eight
    digits, so after an insert and a delete under the same key the vector
    is still found under that key. *)
Theorem eliminar_vector_no_alcanza_lo_insertado :
  let w1 :=
    snd (insertar_vector entorno_ejemplo documento_ejemplo
           embedding_ejemplo "archivo: playa.jpg" mundo_vacio) in
  let borrado := eliminar_vector entorno_ejemplo (Some clave_ejemplo) w1 in
  id_numerico_insertar clave_ejemplo = Ok 4195510762
  /\ id_numerico_obtener clave_ejemplo = Ok 4195510762
  /\ id_numerico_eliminar clave_ejemplo
     = Ok 332402608486274199807124457150275878214
  /\ fst (obtener_por_id entorno_ejemplo (Some clave_ejemplo) (snd borrado))
     = Ok (Some (4195510762,
                 payload_insertar documento_ejemplo embedding_ejemplo
                   "archivo: playa.jpg")).
Proof. vm_compute. repeat split. Qed.

(** ** Driver calls, step by step *)

Ltac desplegar :=
  unfold con_registro, try_except, bind, ret, raise, lift, registrar,
    leer_mundo, poner_mongo, poner_qdrant, anotar in *; cbn [mongo vectores traza fst snd] in *.

Lemma client_upsert_ok env id p w :
  qdrant_upsert_falla env id = false ->
  client_upsert env id p w
  = (Ok tt, {| mongo := mongo w; vectores := <[id := p]> (vectores w);
               traza := traza w ++ [EvQdrantUpsert id] |}).
Proof. intros H. unfold client_upsert. desplegar. rewrite H. reflexivity. Qed.

Lemma client_upsert_error env id p w :
  qdrant_upsert_falla env id = true ->
  client_upsert env id p w
  = (Error "UnexpectedResponse: upsert", anotar [EvQdrantUpsert id] w).
Proof. intros H. unfold client_upsert. desplegar. rewrite H. reflexivity. Qed.

Lemma client_retrieve_ok env id w :
  qdrant_retrieve_falla env id = false ->
  client_retrieve env id w
  = (Ok (vectores w !! id), anotar [EvQdrantRetrieve id] w).
Proof. intros H. unfold client_retrieve. desplegar. rewrite H. reflexivity. Qed.

Lemma update_one_ok env filtro campos w :
  mongo_update_falla env filtro (map fst campos) = false ->
  update_one env filtro campos w
  = (Ok tt, {| mongo := update_first filtro campos (mongo w);
               vectores := vectores w;
               traza := traza w ++ [EvMongoUpdate filtro (map fst campos)] |}).
Proof. intros H. unfold update_one. desplegar. rewrite H. reflexivity. Qed.

Lemma insertar_vector_ok env documento k n emb desc w :
  id_hash documento = Some k ->
  id_numerico_insertar k = Ok n ->
  qdrant_upsert_falla env n = false ->
  insertar_vector env documento emb desc w
  = (Ok (str_int n),
     {| mongo := mongo w;
        vectores := <[n := {| vector := emb;
                            payload := payload_insertar documento emb desc |}]>
                    (vectores w);
        traza := traza w ++ [EvQdrantUpsert n] |}).
Proof.
  intros Hk Hn Hf. unfold insertar_vector, con_registro, try_except, bind at 1, lift.
  rewrite Hk. cbn [encode_opt]. unfold bind at 1. rewrite Hn.
  unfold bind. rewrite client_upsert_ok by exact Hf. reflexivity.
Qed.

Lemma actualizar_vector_ok env k n emb desc w :
  id_numerico_insertar k = Ok n ->
  qdrant_upsert_falla env n = false ->
  actualizar_vector env (Some k) emb desc w
  = (Ok tt,
     {| mongo := mongo w;
        vectores := <[n := {| vector := emb;
                            payload := payload_actualizar desc |}]>
                    (vectores w);
        traza := traza w ++ [EvQdrantUpsert n] |}).
Proof.
  intros Hn Hf. unfold actualizar_vector, con_registro, try_except, bind at 1, lift.
  cbn [encode_opt]. unfold bind at 1.
  change (id_numerico_actualizar k) with (id_numerico_insertar k). rewrite Hn.
  rewrite client_upsert_ok by exact Hf. reflexivity.
Qed.

Lemma obtener_por_id_ok env k n w :
  id_numerico_insertar k = Ok n ->
  qdrant_retrieve_falla env n = false ->
  obtener_por_id env (Some k) w
  = (Ok (option_map (fun p => (n, payload p)) (vectores w !! n)),
     anotar [EvQdrantRetrieve n] w).
Proof.
  intros Hn Hf. unfold obtener_por_id, con_registro, try_except, bind at 1, lift.
  cbn [encode_opt]. unfold bind at 1.
  change (id_numerico_obtener k) with (id_numerico_insertar k). rewrite Hn.
  unfold bind. rewrite client_retrieve_ok by exact Hf.
  destruct (vectores w !! n); reflexivity.
Qed.

Lemma cancelado_por_no cb w :
  no_cancela cb -> cancelado_por cb w = (Ok false, w).
Proof.
  intros H. unfold cancelado_por. destruct cb as [f|]; [| reflexivity].
  rewrite (H f eq_refl). reflexivity.
Qed.

Lemma comprobar_cancelacion_no cb w :
  no_cancela cb -> comprobar_cancelacion cb w = (Ok tt, w).
Proof.
  intros H. unfold comprobar_cancelacion, bind.
  rewrite cancelado_por_no by exact H. reflexivity.
Qed.

Lemma generar_embedding_ok env texto emb w :
  embed_query env texto = Ok emb ->
  generar_embedding env texto w = (Ok emb, anotar [EvEmbed texto] w).
Proof.
  intros H. unfold generar_embedding. desplegar. rewrite H. reflexivity.
Qed.

Lemma generar_embedding_error env texto e w :
  embed_query env texto = Error e ->
  generar_embedding env texto w
  = (Error e, anotar [EvEmbed texto; LogError "generar_embedding" e] w).
Proof.
  intros H. unfold generar_embedding. desplegar. rewrite H.
  cbn. rewrite <- app_assoc. reflexivity.
Qed.

Lemma actualizar_embedding_ok env filtro emb texto w :
  mongo_update_falla env filtro ["embedding"; "descripcion_semantica"] = false ->
  actualizar_embedding env filtro emb texto w
  = (Ok tt,
     {| mongo := update_first filtro (campos_embedding emb texto) (mongo w);
        vectores := vectores w;
        traza := traza w
                 ++ [EvMongoUpdate filtro ["embedding"; "descripcion_semantica"]] |}).
Proof.
  intros H. unfold actualizar_embedding, con_registro, try_except.
  rewrite update_one_ok by exact H. reflexivity.
Qed.

Lemma guardar_en_qdrant_no_lanza env documento emb texto w :
  exists w', guardar_en_qdrant env documento emb texto w = (Ok tt, w')
             /\ mongo w' = mongo w.
Proof.
  unfold guardar_en_qdrant, obtener_por_id, actualizar_vector,
    insertar_vector, client_retrieve, client_upsert.
  desplegar.
  destruct (id_hash documento) as [k|]; cbn [encode_opt];
    [| eexists; split; reflexivity].
  change (id_numerico_obtener k) with (id_numerico_insertar k).
  change (id_numerico_actualizar k) with (id_numerico_insertar k).
  destruct (id_numerico_insertar k) as [n|e]; cbn [mongo vectores traza];
    [| eexists; split; reflexivity].
  destruct (qdrant_retrieve_falla env n); cbn [mongo vectores traza];
    [eexists; split; reflexivity |].
  destruct (vectores w !! n) as [p|]; cbn [mongo vectores traza];
    destruct (qdrant_upsert_falla env n); cbn [mongo vectores traza];
    eexists; split; reflexivity.
Qed.

Lemma procesar_documento_hasta_qdrant env documento cb emb w :
  no_cancela cb ->
  embed_query env (crear_texto env documento) = Ok emb ->
  mongo_update_falla env (id_hash documento)
    ["embedding"; "descripcion_semantica"] = false ->
  procesar_documento env documento cb w
  = (Ok (con_embedding documento (crear_texto env documento) emb),
     snd (guardar_en_qdrant env documento emb (crear_texto env documento)
            (tras_mongo (id_hash documento) emb (crear_texto env documento) w))).
Proof.
  intros Hc He Hm.
  destruct (guardar_en_qdrant_no_lanza env documento emb (crear_texto env documento)
              (tras_mongo (id_hash documento) emb (crear_texto env documento) w))
    as (w' & Hg & _).
  unfold procesar_documento, con_registro. unfold try_except at 1.
  unfold bind at 1. rewrite comprobar_cancelacion_no by exact Hc.
  unfold bind at 1. rewrite generar_embedding_ok with (emb := emb) by exact He.
  unfold bind at 1. rewrite comprobar_cancelacion_no by exact Hc.
  unfold bind at 1. rewrite actualizar_embedding_ok by exact Hm.
  unfold bind at 1. rewrite comprobar_cancelacion_no by exact Hc.
  unfold bind at 1.
  fold (guardar_en_qdrant env documento emb (crear_texto env documento)).
  unfold anotar. cbn [mongo vectores traza]. rewrite <- app_assoc. cbn [app].
  fold (tras_mongo (id_hash documento) emb (crear_texto env documento) w).
  rewrite Hg. reflexivity.
Qed.

Lemma guardar_en_qdrant_actualiza env documento k n p emb texto w :
  id_hash documento = Some k ->
  id_numerico_insertar k = Ok n ->
  vectores w !! n = Some p ->
  qdrant_retrieve_falla env n = false ->
  qdrant_upsert_falla env n = false ->
  guardar_en_qdrant env documento emb texto w
  = (Ok tt,
     {| mongo := mongo w;
        vectores := <[n := {| vector := emb;
                              payload := payload_actualizar texto |}]>
                      (vectores w);
        traza := traza w ++ [EvQdrantRetrieve n; EvQdrantUpsert n] |}).
Proof.
  intros Hk Hn Hp Hr Hu. unfold guardar_en_qdrant, try_except, bind.
  rewrite Hk, (obtener_por_id_ok env k n w Hn Hr), Hp. cbn [option_map].
  rewrite (actualizar_vector_ok env k n emb texto _ Hn Hu).
  unfold anotar. cbn [mongo vectores traza]. rewrite <- app_assoc. reflexivity.
Qed.

Lemma guardar_en_qdrant_inserta env documento k n emb texto w :
  id_hash documento = Some k ->
  id_numerico_insertar k = Ok n ->
  vectores w !! n = None ->
  qdrant_retrieve_falla env n = false ->
  qdrant_upsert_falla env n = false ->
  guardar_en_qdrant env documento emb texto w
  = (Ok tt,
     {| mongo := mongo w;
        vectores := <[n := {| vector := emb;
                              payload := payload_insertar documento emb texto |}]>
                      (vectores w);
        traza := traza w ++ [EvQdrantRetrieve n; EvQdrantUpsert n] |}).
Proof.
  intros Hk Hn Hp Hr Hu. unfold guardar_en_qdrant, try_except, bind.
  rewrite Hk, (obtener_por_id_ok env k n w Hn Hr), Hp. cbn [option_map].
  rewrite (insertar_vector_ok env documento k n emb texto _ Hk Hn Hu).
  unfold anotar, ret. cbn [mongo vectores traza]. rewrite <- app_assoc. reflexivity.
Qed.

Lemma guardar_en_qdrant_upsert_falla env documento k n emb texto w :
  id_hash documento = Some k ->
  id_numerico_insertar k = Ok n ->
  qdrant_retrieve_falla env n = false ->
  qdrant_upsert_falla env n = true ->
  exists donde,
    guardar_en_qdrant env documento emb texto w
    = (Ok tt,
       anotar [EvQdrantRetrieve n; EvQdrantUpsert n;
               LogError donde "UnexpectedResponse: upsert";
               LogAvisoQdrant "UnexpectedResponse: upsert"] w).
Proof.
  intros Hk Hn Hr Hu. unfold guardar_en_qdrant, try_except, bind.
  rewrite Hk, (obtener_por_id_ok env k n w Hn Hr).
  destruct (vectores w !! n) as [p|]; cbn [option_map].
  - exists "actualizar_vector".
    unfold actualizar_vector, con_registro, try_except, bind at 1, lift.
    cbn [encode_opt]. unfold bind at 1.
    change (id_numerico_actualizar k) with (id_numerico_insertar k). rewrite Hn.
    rewrite client_upsert_error by exact Hu.
    unfold bind, registrar, raise, anotar. cbn [mongo vectores traza].
    rewrite <- !app_assoc. reflexivity.
  - exists "insertar_vector".
    unfold insertar_vector, con_registro, try_except, bind at 1, lift.
    rewrite Hk. cbn [encode_opt]. unfold bind at 1. unfold bind at 1. rewrite Hn.
    unfold bind at 1.
    rewrite client_upsert_error by exact Hu.
    unfold bind, registrar, raise, anotar. cbn [mongo vectores traza].
    rewrite <- !app_assoc. reflexivity.
Qed.

(** ** What a vector entry carries *)

(** The payload of the insert path has every key the read path needs. *)
Lemma payload_insertar_completo documento emb texto :
  primer_KeyError (payload_insertar documento emb texto) = None
  /\ map fst (payload_insertar documento emb texto)
     = ["id"; "id_hash"; "hash_sha512"; "nombre"; "ruta";
        "ruta_alternativa"; "ancho"; "alto"; "peso"; "fecha_creacion";
        "fecha_creacion_dia"; "fecha_creacion_mes"; "fecha_creacion_anio";
        "fecha_creacion_hora"; "fecha_creacion_minuto";
        "fecha_procesamiento"; "fecha_procesamiento_dia";
        "fecha_procesamiento_mes"; "fecha_procesamiento_anio";
        "fecha_procesamiento_hora"; "fecha_procesamiento_minuto";
        "coordenadas"; "barrio"; "calle"; "ciudad"; "cp"; "pais";
        "objeto_procesado"; "objetos"; "personas";
        "descripcion_semantica"; "embedding"].
Proof. split; reflexivity. Qed.

(** C5 (the code departs from it): when a document whose key already has
    a point is processed, the update path replaces the point by one whose
    payload is the description alone, so the key [id_hash] that the read
    path needs is gone; a key without a point gets the full payload. *)
Theorem actualizar_vector_deja_solo_la_descripcion :
  forall env w documento k n emb,
    id_hash documento = Some k ->
    id_numerico_insertar k = Ok n ->
    embed_query env (crear_texto env documento) = Ok emb ->
    mongo_update_falla env (Some k)
      ["embedding"; "descripcion_semantica"] = false ->
    qdrant_retrieve_falla env n = false ->
    qdrant_upsert_falla env n = false ->
    let texto := crear_texto env documento in
    let w' := snd (procesar_documento env documento None w) in
    exists punto,
      vectores w' !! n = Some punto
      /\ vector punto = emb
      /\ (vectores w !! n = None ->
          payload punto = payload_insertar documento emb texto
          /\ primer_KeyError (payload punto) = None)
      /\ (vectores w !! n <> None ->
          payload punto = [("descripcion_semantica", PStr texto)]
          /\ primer_KeyError (payload punto) = Some "id_hash"
          /\ assoc_get "nombre" (payload punto) = None).
Proof.
  intros env w documento k n emb Hk Hn He Hm Hr Hu texto w'.
  assert (Hc : no_cancela None) by (intros f Hf; discriminate).
  subst w'. rewrite <- Hk in Hm.
  rewrite (procesar_documento_hasta_qdrant env documento None emb w Hc He Hm).
  fold texto. cbn [snd].
  set (w1 := tras_mongo (id_hash documento) emb texto w).
  assert (Hv : vectores w1 = vectores w) by reflexivity.
  destruct (vectores w !! n) as [p|] eqn:Hp.
  - rewrite (guardar_en_qdrant_actualiza env documento k n p emb texto w1 Hk Hn
               ltac:(rewrite Hv; exact Hp) Hr Hu).
    cbn [snd vectores]. eexists. rewrite lookup_insert_eq.
    split; [reflexivity |]. split; [reflexivity |]. split.
    + intros H; discriminate.
    + intros _. repeat split; reflexivity.
  - rewrite (guardar_en_qdrant_inserta env documento k n emb texto w1 Hk Hn
               ltac:(rewrite Hv; exact Hp) Hr Hu).
    cbn [snd vectores]. eexists. rewrite lookup_insert_eq.
    split; [reflexivity |]. split; [reflexivity |]. split.
    + intros _. split; reflexivity.
    + intros H; congruence.
Qed.

Lemma actualizar_vector_deja_solo_la_descripcion_witness :
  exists punto,
    vectores (snd (procesar_documento entorno_ejemplo documento_ejemplo None
                     mundo_con_vector)) !! 4195510762 = Some punto
    /\ payload punto = [("descripcion_semantica", PStr "archivo: playa.jpg")]
    /\ primer_KeyError (payload punto) = Some "id_hash".
Proof.
  assert (Hn : id_numerico_insertar clave_ejemplo = Ok 4195510762)
    by (vm_compute; reflexivity).
  destruct (actualizar_vector_deja_solo_la_descripcion entorno_ejemplo
              mundo_con_vector documento_ejemplo clave_ejemplo 4195510762
              embedding_ejemplo eq_refl Hn eq_refl eq_refl eq_refl eq_refl)
    as (punto & H1 & _ & _ & H4).
  exists punto. split; [exact H1 |].
  destruct H4 as (Hp & Hk & _); [vm_compute; discriminate |].
  split; assumption.
Defined.

(** ** A failed vector write does not fail the record *)

Lemma con_embedding_otros_campos d texto emb campo :
  campo <> "embedding" -> campo <> "descripcion_semantica" ->
  assoc_get campo (model_dump (con_embedding d texto emb))
  = assoc_get campo (model_dump d).
Proof.
  intros H1 H2. unfold model_dump, con_embedding.
  cbn [assoc_get id id_hash hash_sha512 nombre ruta ruta_alternativa ancho
       alto peso fecha_creacion_dia fecha_creacion_mes fecha_creacion_anio
       fecha_creacion_hora fecha_creacion_minuto fecha_procesamiento_dia
       fecha_procesamiento_mes fecha_procesamiento_anio
       fecha_procesamiento_hora fecha_procesamiento_minuto coordenadas
       barrio calle ciudad cp pais objeto_procesado objetos personas
       embedding descripcion_semantica Modelos.qdrant].
  apply String.eqb_neq in H1, H2. rewrite H1, H2. reflexivity.
Qed.

(** C7: once the embedding is generated and written to MongoDB, whatever
    the Qdrant calls do, [procesar_documento] returns the document it was
    given with the embedding and the embedded text as its description,
    every other field as it was, and the turn of the batch adds one to
    the successes and nothing to the errors; when the upsert raises, the
    vector store is left as it was, the failure is logged as a warning
    and the upsert was attempted once. *)
Theorem fallo_de_qdrant_no_falla_el_registro :
  forall env w documento cb emb c,
    no_cancela cb ->
    embed_query env (crear_texto env documento) = Ok emb ->
    mongo_update_falla env (id_hash documento)
      ["embedding"; "descripcion_semantica"] = false ->
    let texto := crear_texto env documento in
    fst (procesar_documento env documento cb w)
      = Ok (con_embedding documento texto emb)
    /\ (exists procesado,
          fst (procesar_documento env documento cb w) = Ok procesado
          /\ embedding procesado = Some emb
          /\ descripcion_semantica procesado = Some texto
          /\ (forall campo,
                campo <> "embedding" -> campo <> "descripcion_semantica" ->
                assoc_get campo (model_dump procesado)
                = assoc_get campo (model_dump documento))
          /\ model_fields_set procesado
             = (model_fields_set documento
                ++ ["descripcion_semantica"; "embedding"])%list)
    /\ mongo (snd (procesar_documento env documento cb w))
       = update_first (id_hash documento) (campos_embedding emb texto)
           (mongo w)
    /\ fst (procesar_uno env cb documento c w)
       = Ok {| documentos_procesados := documentos_procesados c;
               documentos_exitosos := documentos_exitosos c + 1;
               documentos_errores := documentos_errores c |}
    /\ (forall k n,
          id_hash documento = Some k ->
          id_numerico_insertar k = Ok n ->
          qdrant_retrieve_falla env n = false ->
          qdrant_upsert_falla env n = true ->
          exists donde,
            snd (procesar_documento env documento cb w)
            = {| mongo := update_first (Some k) (campos_embedding emb texto)
                            (mongo w);
                 vectores := vectores w;
                 traza := traza w
                   ++ [EvEmbed texto;
                       EvMongoUpdate (Some k)
                         ["embedding"; "descripcion_semantica"];
                       EvQdrantRetrieve n;
                       EvQdrantUpsert n;
                       LogError donde "UnexpectedResponse: upsert";
                       LogAvisoQdrant "UnexpectedResponse: upsert"] |}).
Proof.
  intros env w documento cb emb c Hc He Hm texto.
  pose proof (procesar_documento_hasta_qdrant env documento cb emb w Hc He Hm)
    as Hp.
  fold texto in Hp.
  destruct (guardar_en_qdrant_no_lanza env documento emb texto
              (tras_mongo (id_hash documento) emb texto w))
    as (w1 & Hg & Hmongo).
  rewrite Hg in Hp. cbn [snd] in Hp.
  split; [rewrite Hp; reflexivity |].
  split.
  { exists (con_embedding documento texto emb).
    split; [rewrite Hp; reflexivity |].
    split; [reflexivity |]. split; [reflexivity |].
    split; [| reflexivity].
    intros campo H1 H2. apply con_embedding_otros_campos; assumption. }
  split; [rewrite Hp; cbn [snd]; rewrite Hmongo; reflexivity |].
  split.
  - unfold procesar_uno. unfold try_except at 1. unfold bind at 1.
    rewrite Hp. unfold bind at 1. unfold registrar at 1.
    unfold bind at 1, try_except at 1.
    match goal with
    | |- context [bind ?m ?f ?x] => destruct (bind m f x) as [[u|e] w2]
    end; reflexivity.
  - intros k n Hk Hn Hr Hu.
    destruct (guardar_en_qdrant_upsert_falla env documento k n emb texto
                (tras_mongo (id_hash documento) emb texto w) Hk Hn Hr Hu)
      as (donde & Hd).
    exists donde. rewrite Hp. cbn [snd].
    rewrite Hd in Hg. injection Hg as <-.
    unfold anotar, tras_mongo. cbn [mongo vectores traza].
    rewrite Hk, <- app_assoc. reflexivity.
Qed.

Lemma fallo_de_qdrant_no_falla_el_registro_witness :
  let c := {| documentos_procesados := 0; documentos_exitosos := 0;
              documentos_errores := 0 |} in
  (exists procesado,
     fst (procesar_documento entorno_sin_upsert documento_ejemplo None
            mundo_ejemplo) = Ok procesado
     /\ embedding procesado = Some embedding_ejemplo
     /\ descripcion_semantica procesado = Some "archivo: playa.jpg"
     /\ nombre procesado = "playa.jpg")
  /\ fst (procesar_uno entorno_sin_upsert None documento_ejemplo c
            mundo_ejemplo)
     = Ok {| documentos_procesados := 0; documentos_exitosos := 1;
             documentos_errores := 0 |}
  /\ vectores (snd (procesar_documento entorno_sin_upsert documento_ejemplo
                      None mundo_ejemplo)) = vectores mundo_ejemplo.
Proof.
  intros c.
  assert (Hc : no_cancela None) by (intros f Hf; discriminate).
  assert (Hn : id_numerico_insertar clave_ejemplo = Ok 4195510762)
    by (vm_compute; reflexivity).
  destruct (fallo_de_qdrant_no_falla_el_registro entorno_sin_upsert
              mundo_ejemplo documento_ejemplo None embedding_ejemplo c
              Hc eq_refl eq_refl)
    as (_ & (p & H1 & H1a & H1b & H1c & _) & _ & H3 & H4).
  split.
  { exists p. split; [exact H1 |]. split; [exact H1a |].
    split; [exact H1b |].
    specialize (H1c "nombre"). cbn [model_dump assoc_get String.eqb Ascii.eqb Bool.eqb] in H1c.
    assert (PStr (nombre p) = PStr (nombre documento_ejemplo)) as Hx.
    { assert (Some (PStr (nombre p)) = Some (PStr (nombre documento_ejemplo))) as Hy
        by (apply H1c; discriminate).
      injection Hy as Hy. rewrite Hy. reflexivity. }
    injection Hx as ->. reflexivity. }
  split; [exact H3 |].
  destruct (H4 clave_ejemplo 4195510762 eq_refl Hn eq_refl eq_refl)
    as (donde & Hd).
  rewrite Hd. reflexivity.
Defined.

(** ** Insertion by path *)

Lemma find_one_ruta_ok env ruta w :
  mongo_find_falla env ruta = false ->
  find_one_ruta env ruta w
  = (Ok (List.find (misma_ruta ruta) (mongo w)), anotar [EvMongoFind ruta] w).
Proof. intros H. unfold find_one_ruta. desplegar. rewrite H. reflexivity. Qed.

Lemma verificar_ruta_existente_ok env ruta w :
  mongo_find_falla env ruta = false ->
  verificar_ruta_existente env ruta w
  = (Ok (is_Some_bool (List.find (misma_ruta ruta) (mongo w))),
     anotar [EvMongoFind ruta] w).
Proof.
  intros H. unfold verificar_ruta_existente, try_except, bind.
  rewrite find_one_ruta_ok by exact H. reflexivity.
Qed.

(** C8, as stated, fails when the lookup by path raises:
    [verificar_ruta_existente] logs the error and answers that the path is
    not there, so a document whose path is already stored is inserted
    again: the call returns the [_id] of the new record, not that of the
    stored one, and the store holds two records with the path. *)
Lemma insertar_documento_inserta_si_la_consulta_falla :
  let d := otro_documento "c3" "playa.jpg" "/fotos/playa.jpg" in
  let r := insertar_documento entorno_sin_consulta d mundo_ejemplo in
  List.find (misma_ruta (ruta d)) (mongo mundo_ejemplo)
    = Some (to_dict documento_ejemplo)
  /\ id_de (to_dict documento_ejemplo) = PStr clave_ejemplo
  /\ fst r = Ok "c3"
  /\ mongo (snd r) = (mongo mundo_ejemplo ++ [to_dict d])%list
  /\ map id_de (List.filter (misma_ruta (ruta d)) (mongo (snd r)))
     = [PStr clave_ejemplo; PStr "c3"]
  /\ traza (snd r)
     = [EvMongoFind "/fotos/playa.jpg";
        LogError "verificar_ruta_existente"
          "ServerSelectionTimeoutError: find_one";
        EvMongoInsert].
Proof.
  cbv zeta.
  split; [vm_compute; reflexivity |].
  split; [vm_compute; reflexivity |].
  split; [vm_compute; reflexivity |].
  split; [vm_compute; reflexivity |].
  split; vm_compute; reflexivity.
Qed.

(** C8, amended: when the store already holds a document with the path
    of the one to insert and the lookup by path does not raise,
    [insertar_documento] performs no insertion, leaves both stores as
    they were and returns the [_id] of the first stored document with
    that path; a second call returns the same id and again changes
    nothing. *)
Theorem insertar_documento_ruta_existente :
  forall env w documento d,
    mongo_find_falla env (ruta documento) = false ->
    In d (mongo w) ->
    assoc_get "ruta" d = Some (PStr (ruta documento)) ->
    exists existente,
      List.find (misma_ruta (ruta documento)) (mongo w) = Some existente
      /\ In existente (mongo w)
      /\ insertar_documento env documento w
         = (Ok (py_str (id_de existente)),
            {| mongo := mongo w;
               vectores := vectores w;
               traza := traza w
                 ++ [EvMongoFind (ruta documento);
                     LogAvisoRutaExiste (ruta documento);
                     EvMongoFind (ruta documento)] |})
      /\ fst (insertar_documento env documento
                (snd (insertar_documento env documento w)))
         = Ok (py_str (id_de existente))
      /\ mongo (snd (insertar_documento env documento
                       (snd (insertar_documento env documento w))))
         = mongo w.
Proof.
  intros env w documento d Hf Hin Hr.
  assert (Hgen : forall w0 e,
            List.find (misma_ruta (ruta documento)) (mongo w0) = Some e ->
            insertar_documento env documento w0
            = (Ok (py_str (id_de e)),
               {| mongo := mongo w0;
                  vectores := vectores w0;
                  traza := traza w0
                    ++ [EvMongoFind (ruta documento);
                        LogAvisoRutaExiste (ruta documento);
                        EvMongoFind (ruta documento)] |})).
  { intros w0 e He.
    unfold insertar_documento, con_registro. unfold try_except at 1.
    unfold bind at 1. rewrite verificar_ruta_existente_ok by exact Hf.
    rewrite He. cbn [is_Some_bool].
    unfold bind at 1. unfold registrar at 1.
    unfold bind at 1. rewrite find_one_ruta_ok by exact Hf.
    unfold anotar at 1 2. cbn [mongo]. rewrite He.
    apply find_some in He. destruct He as [_ Hm].
    destruct e as [|campo campos]; [discriminate |].
    unfold ret, anotar. cbn [mongo vectores traza].
    rewrite <- !app_assoc. reflexivity. }
  destruct (List.find (misma_ruta (ruta documento)) (mongo w)) as [e|] eqn:He.
  - exists e. apply find_some in He as He'. destruct He' as [Hine _].
    split; [reflexivity |]. split; [exact Hine |].
    rewrite (Hgen w e He). split; [reflexivity |]. cbn [snd].
    match goal with
    | |- context [insertar_documento env documento ?w1] =>
        rewrite (Hgen w1 e He)
    end.
    split; reflexivity.
  - exfalso. apply (find_none _ _ He) in Hin.
    unfold misma_ruta in Hin. rewrite Hr in Hin. cbn in Hin.
    rewrite String.eqb_refl in Hin. discriminate.
Qed.

Lemma insertar_documento_ruta_existente_witness :
  fst (insertar_documento entorno_ejemplo documento_ejemplo mundo_ejemplo)
    = Ok clave_ejemplo
  /\ mongo (snd (insertar_documento entorno_ejemplo documento_ejemplo
                   mundo_ejemplo)) = coleccion_ejemplo.
Proof.
  assert (H1 : In (to_dict documento_ejemplo) (mongo mundo_ejemplo)).
  { right. left. reflexivity. }
  assert (H2 : assoc_get "ruta" (to_dict documento_ejemplo) = Some (PStr (ruta documento_ejemplo))).
  { vm_compute. reflexivity. }
  destruct (insertar_documento_ruta_existente entorno_ejemplo mundo_ejemplo
              documento_ejemplo (to_dict documento_ejemplo) eq_refl
              H1 H2)
    as (e & He & _ & Hi & _).
  rewrite Hi. 
  assert (He2 : e = to_dict documento_ejemplo).
  { vm_compute in He. injection He as <-. vm_compute. reflexivity. }
  rewrite He2. split; vm_compute; reflexivity.
Defined.

(** ** The score of the regular-expression fallback *)

Section Puntuacion.
Variable str : pyval -> string.
Variable lower : string -> string.






End Puntuacion.



(** ** Validation of a backup *)

Lemma py_getitem_contains v k x :
  py_getitem v k = Ok x -> py_contains k v = Ok true.
Proof.
  destruct v; cbn; try discriminate.
  destruct (assoc_get k d); [reflexivity | discriminate].
Qed.

Lemma campos_presentes_ok campos metadata :
  campos_presentes campos metadata = Ok (inl tt)
  <-> Forall (fun campo => py_contains campo metadata = Ok true) campos.
Proof.
  induction campos as [|campo resto IH]; cbn [campos_presentes].
  - split; [constructor | reflexivity].
  - unfold pbind, de_res. destruct (py_contains campo metadata) as [[|]|e] eqn:E;
      cbn [sigue rechaza].
    + rewrite IH. split; [intros H; constructor; assumption | intros H; inversion H; assumption].
    + split; [discriminate | intros H; inversion H; congruence].
    + split; [discriminate | intros H; inversion H; congruence].
Qed.

Lemma estructura_ok seccion cuenta campos backup_data metadata datos :
  estructura seccion cuenta campos backup_data = Ok (inl (metadata, datos))
  <-> estructura_correcta seccion cuenta campos backup_data metadata datos.
Proof.
  unfold estructura, estructura_correcta. split.
  - unfold pbind at 1. unfold de_res at 1.
    destruct (py_contains "metadata" backup_data) as [[|]|e] eqn:E1;
      cbn [sigue]; try discriminate.
    unfold pbind at 1. unfold de_res at 1.
      destruct (py_contains seccion backup_data) as [[|]|e] eqn:E2;
        cbn [sigue negb rechaza]; try discriminate.
      unfold pbind at 1. unfold de_res at 1.
      destruct (py_getitem backup_data "metadata") as [md|e] eqn:E3;
        cbn [sigue]; try discriminate.
      unfold pbind at 1. unfold de_res at 1.
      destruct (py_getitem backup_data seccion) as [ds|e] eqn:E4;
        cbn [sigue]; try discriminate.
      unfold pbind at 1.
      destruct (campos_presentes campos md) as [[[]|m]|e] eqn:E5; try discriminate.
      unfold pbind at 1. unfold de_res at 1.
      destruct (py_len ds) as [n|e] eqn:E6; cbn [sigue]; try discriminate.
      unfold pbind at 1. unfold de_res at 1.
      destruct (py_getitem md cuenta) as [decl|e] eqn:E7; cbn [sigue]; try discriminate.
      destruct (py_eq_int n decl) eqn:E8; cbn [negb rechaza sigue]; try discriminate.
      intros H. injection H as <- <-.
      split; [reflexivity |]. split; [reflexivity |].
      split; [apply campos_presentes_ok; exact E5 |].
      exists n, decl. repeat split; assumption.
  - intros (H1 & H2 & H3 & n & decl & H4 & H5 & H6).
    rewrite (py_getitem_contains _ _ _ H1). unfold pbind at 1. cbn [de_res sigue].
    rewrite (py_getitem_contains _ _ _ H2). unfold pbind at 1. cbn [de_res sigue negb].
    rewrite H1. unfold pbind at 1. cbn [de_res sigue].
    rewrite H2. unfold pbind at 1. cbn [de_res sigue].
    apply campos_presentes_ok in H3. rewrite H3. unfold pbind at 1.
    rewrite H4. unfold pbind at 1. cbn [de_res sigue].
    rewrite H5. unfold pbind at 1. cbn [de_res sigue].
    rewrite H6. reflexivity.
Qed.

Lemma documentos_validos_ok i docs :
  documentos_validos i docs = Ok (inl tt)
  <-> forallb es_documento docs = true.
Proof.
  revert i. induction docs as [|d docs IH]; intros i; cbn [documentos_validos forallb].
  - split; reflexivity.
  - destruct d as [| | | | | | |campos]; cbn [es_documento andb];
      try (split; discriminate).
    destruct (assoc_get "_id" campos); cbn [is_Some_bool andb].
    + apply IH.
    + split; discriminate.
Qed.

Lemma veredicto_valido a p :
  valido (veredicto a p) = true
  <-> exists metadata datos, p = Ok (inl (metadata, datos))
                             /\ exists n, py_len datos = Ok n.
Proof.
  unfold veredicto. destruct p as [[[md ds]|m]|e]; cbn [valido].
  - destruct (py_len ds) as [n|e] eqn:E; cbn [valido].
    + split; [intros _; exists md, ds; split; [reflexivity | exists n; exact E]
             | reflexivity].
    + split; [discriminate | intros (md' & ds' & H & n & Hn); injection H as <- <-; congruence].
  - split; [discriminate | intros (md' & ds' & H & _); discriminate].
  - split; [discriminate | intros (md' & ds' & H & _); discriminate].
Qed.

Lemma validar_backup_qdrant_valido archivo :
  valido (validar_backup_qdrant archivo) = true
  <-> exists a backup_data metadata datos,
        archivo = Some a /\ json_load a = JsonOk backup_data
        /\ estructura_correcta "vectors" "total_vectors" campos_qdrant
             backup_data metadata datos.
Proof.
  unfold validar_backup_qdrant, validar_con.
  destruct archivo as [a|]; cbn [valido].
  2:{ split; [discriminate | intros (a & bd & md & ds & H & _); discriminate]. }
  destruct (json_load a) as [bd|msg|msg] eqn:E; cbn [valido].
  2,3: split; [discriminate | intros (a' & bd & md & ds & H1 & H2 & _); injection H1 as <-; congruence].
  rewrite veredicto_valido. split.
  - intros (md & ds & H & n & Hn). exists a, bd, md, ds.
    split; [reflexivity |]. split; [exact E |]. apply estructura_ok. exact H.
  - intros (a' & bd' & md & ds & H1 & H2 & H3). injection H1 as <-.
    rewrite E in H2. injection H2 as <-.
    exists md, ds. split; [apply estructura_ok; exact H3 |].
    destruct H3 as (_ & _ & _ & n & decl & Hn & _). exists n. exact Hn.
Qed.

Lemma validar_backup_mongo_valido archivo :
  valido (validar_backup_mongo archivo) = true
  <-> exists a backup_data metadata datos docs,
        archivo = Some a /\ json_load a = JsonOk backup_data
        /\ estructura_correcta "documents" "total_documents" campos_mongo
             backup_data metadata datos
        /\ py_iter datos = Ok docs
        /\ forallb es_documento docs = true.
Proof.
  unfold validar_backup_mongo, validar_con.
  destruct archivo as [a|]; cbn [valido].
  2:{ split; [discriminate | intros (a & bd & md & ds & docs & H & _); discriminate]. }
  destruct (json_load a) as [bd|msg|msg] eqn:E; cbn [valido].
  2,3: split; [discriminate | intros (a' & bd & md & ds & docs & H1 & H2 & _); injection H1 as <-; congruence].
  rewrite veredicto_valido. split.
  - intros (md & ds & H & n & Hn).
    unfold pbind at 1 in H.
    destruct (estructura "documents" "total_documents" _ bd) as [[[md' ds']|m]|e] eqn:Es;
      try discriminate.
    unfold pbind at 1 in H. unfold de_res in H.
    destruct (py_iter ds') as [docs|e] eqn:Ei; cbn [sigue] in H; try discriminate.
    unfold pbind in H.
    destruct (documentos_validos 0 docs) as [[[]|m]|e] eqn:Ed; try discriminate.
    cbn [sigue] in H. injection H as <- <-.
    exists a, bd, md', ds', docs.
    split; [reflexivity |]. split; [exact E |].
    split; [apply estructura_ok; exact Es |].
    split; [exact Ei | apply (documentos_validos_ok 0); exact Ed].
  - intros (a' & bd' & md & ds & docs & H1 & H2 & H3 & H4 & H5). injection H1 as <-.
    rewrite E in H2. injection H2 as <-.
    exists md, ds. split.
    + apply estructura_ok in H3 as H3'. fold campos_mongo. rewrite H3'.
      unfold pbind at 1. rewrite H4. unfold pbind at 1. cbn [de_res sigue].
      apply (documentos_validos_ok 0) in H5. rewrite H5. reflexivity.
    + destruct H3 as (_ & _ & _ & n & decl & Hn & _). exists n. exact Hn.
Qed.

Lemma estructura_inconsistencia seccion cuenta campos bd md ds n decl :
  py_getitem bd "metadata" = Ok md ->
  py_getitem bd seccion = Ok ds ->
  Forall (fun campo => py_contains campo md = Ok true) campos ->
  py_len ds = Ok n ->
  py_getitem md cuenta = Ok decl ->
  py_eq_int n decl = false ->
  estructura seccion cuenta campos bd = Ok (inr (Inconsistencia decl n)).
Proof.
  intros H1 H2 H3 H4 H5 H6. unfold estructura.
  rewrite (py_getitem_contains _ _ _ H1). unfold pbind at 1. cbn [de_res sigue].
  rewrite (py_getitem_contains _ _ _ H2). unfold pbind at 1. cbn [de_res sigue negb].
  rewrite H1. unfold pbind at 1. cbn [de_res sigue].
  rewrite H2. unfold pbind at 1. cbn [de_res sigue].
  apply campos_presentes_ok in H3. rewrite H3. unfold pbind at 1.
  rewrite H4. unfold pbind at 1. cbn [de_res sigue].
  rewrite H5. unfold pbind at 1. cbn [de_res sigue].
  rewrite H6. reflexivity.
Qed.

Lemma campos_presentes_falta campos d :
  existsb (fun campo => negb (is_Some_bool (assoc_get campo d))) campos = true ->
  exists campo,
    In campo campos /\ assoc_get campo d = None
    /\ campos_presentes campos (PDict d) = Ok (inr (CampoFaltante campo)).
Proof.
  induction campos as [|c resto IH]; cbn [existsb campos_presentes]; [discriminate |].
  unfold pbind, de_res. cbn [py_contains sigue rechaza].
  destruct (assoc_get c d) as [v|] eqn:E; cbn [is_Some_bool negb orb].
  - intros H. destruct (IH H) as (campo & Hin & Hn & Hc).
    exists campo. split; [right; exact Hin |]. split; assumption.
  - intros _. exists c. split; [left; reflexivity |]. split; [exact E | reflexivity].
Qed.

Lemma estructura_campo_faltante seccion cuenta campos bd d ds :
  py_getitem bd "metadata" = Ok (PDict d) ->
  py_getitem bd seccion = Ok ds ->
  existsb (fun campo => negb (is_Some_bool (assoc_get campo d))) campos = true ->
  exists campo,
    In campo campos /\ assoc_get campo d = None
    /\ estructura seccion cuenta campos bd = Ok (inr (CampoFaltante campo)).
Proof.
  intros H1 H2 H3. destruct (campos_presentes_falta campos d H3) as (campo & Hin & Hn & Hc).
  exists campo. split; [exact Hin |]. split; [exact Hn |].
  unfold estructura.
  rewrite (py_getitem_contains _ _ _ H1). unfold pbind at 1. cbn [de_res sigue].
  rewrite (py_getitem_contains _ _ _ H2). unfold pbind at 1. cbn [de_res sigue negb].
  rewrite H1. unfold pbind at 1. cbn [de_res sigue].
  rewrite H2. unfold pbind at 1. cbn [de_res sigue].
  rewrite Hc. reflexivity.
Qed.

Lemma validar_con_hash comprobar h a :
  valido (validar_con comprobar (Some (con_hash h a)))
  = valido (validar_con comprobar (Some a)).
Proof.
  unfold validar_con, con_hash. cbn [json_load].
  destruct (json_load a) as [bd|msg|msg]; try reflexivity.
  unfold veredicto. destruct (comprobar bd) as [[[md ds]|m]|e]; try reflexivity.
  destruct (py_len ds); reflexivity.
Qed.

Lemma validar_con_informa_hash comprobar archivo info :
  validar_con comprobar archivo = Valida info ->
  exists a, archivo = Some a /\ hash_sha256 info = sha256_hexdigest a
            /\ tamano_archivo info = getsize a.
Proof.
  unfold validar_con. destruct archivo as [a|]; [| discriminate].
  destruct (json_load a) as [bd|msg|msg]; try discriminate.
  unfold veredicto. destruct (comprobar bd) as [[[md ds]|m]|e]; try discriminate.
  destruct (py_len ds); try discriminate.
  intros H. injection H as <-. exists a. repeat split.
Qed.

Lemma estructura_sin_secciones seccion cuenta campos bd :
  falta_seccion seccion bd ->
  estructura seccion cuenta campos bd = Ok (inr EstructuraInvalida).
Proof.
  unfold estructura. intros [H | [H1 H2]].
  - rewrite H. reflexivity.
  - rewrite H1. unfold pbind at 1. cbn [de_res sigue]. rewrite H2. reflexivity.
Qed.

Lemma campos_presentes_primero campos metadata campo :
  primero_que_falta campos metadata campo ->
  campos_presentes campos metadata = Ok (inr (CampoFaltante campo)).
Proof.
  intros (antes & despues & -> & Ha & Hc).
  induction Ha as [|c antes Hc1 _ IH]; cbn [app campos_presentes].
  - rewrite Hc. reflexivity.
  - rewrite Hc1. unfold pbind at 1. cbn [de_res sigue]. exact IH.
Qed.

Lemma estructura_primero_que_falta seccion cuenta campos bd md ds campo :
  py_getitem bd "metadata" = Ok md ->
  py_getitem bd seccion = Ok ds ->
  primero_que_falta campos md campo ->
  estructura seccion cuenta campos bd = Ok (inr (CampoFaltante campo)).
Proof.
  intros H1 H2 H3. unfold estructura.
  rewrite (py_getitem_contains _ _ _ H1). unfold pbind at 1. cbn [de_res sigue].
  rewrite (py_getitem_contains _ _ _ H2). unfold pbind at 1. cbn [de_res sigue negb].
  rewrite H1. unfold pbind at 1. cbn [de_res sigue].
  rewrite H2. unfold pbind at 1. cbn [de_res sigue].
  rewrite (campos_presentes_primero _ _ _ H3). reflexivity.
Qed.

Lemma documentos_validos_primero antes x despues :
  forall k,
    forallb es_documento antes = true ->
    documentos_validos k (antes ++ x :: despues)
    = match x with
      | PDict d =>
          if is_Some_bool (assoc_get "_id" d)
          then documentos_validos (S (k + length antes)) despues
          else rechaza (DocumentoSinId (k + length antes))
      | _ => rechaza (DocumentoNoDiccionario (k + length antes))
      end.
Proof.
  induction antes as [|y antes IH]; intros k Ha; cbn [app length].
  - rewrite Nat.add_0_r. destruct x; reflexivity.
  - cbn [forallb] in Ha. apply andb_true_iff in Ha as [Hy Ha].
    destruct y as [| | | | | | |d]; try discriminate Hy.
    cbn [es_documento] in Hy. cbn [documentos_validos]. rewrite Hy.
    rewrite (IH (S k) Ha). rewrite <- Nat.add_succ_comm. reflexivity.
Qed.

Lemma documentos_validos_registro_malo docs i m :
  primer_registro_malo docs i m ->
  documentos_validos 0 docs = Ok (inr m).
Proof.
  intros (antes & x & despues & -> & Hi & Ha & Hx).
  rewrite (documentos_validos_primero antes x despues 0 Ha).
  cbn [Nat.add]. rewrite Hi.
  destruct x as [| | | | | | |d]; try (rewrite Hx; reflexivity).
  destruct Hx as [Hd ->]. rewrite Hd. reflexivity.
Qed.

Lemma validar_con_rechaza comprobar a bd m :
  json_load a = JsonOk bd ->
  comprobar bd = Ok (inr m) ->
  validar_con comprobar (Some a) = Invalida m.
Proof. intros H1 H2. unfold validar_con. rewrite H1, H2. reflexivity. Qed.

Lemma validar_con_acepta comprobar a bd md ds n :
  json_load a = JsonOk bd ->
  comprobar bd = Ok (inl (md, ds)) ->
  py_len ds = Ok n ->
  validar_con comprobar (Some a)
  = Valida {| tamano_archivo := getsize a;
              hash_sha256 := sha256_hexdigest a;
              metadata := md;
              total := n;
              fecha_backup := get_o_desconocida md "backup_date" |}.
Proof.
  intros H1 H2 H3. unfold validar_con. rewrite H1, H2. unfold veredicto.
  rewrite H3. reflexivity.
Qed.

Lemma informa_cada_fallo_de_estructura comprobar seccion cuenta campos :
  (forall bd m,
     estructura seccion cuenta campos bd = Ok (inr m) ->
     comprobar bd = Ok (inr m)) ->
  informa_cada_fallo (validar_con comprobar) seccion cuenta campos.
Proof.
  intros Hc. unfold informa_cada_fallo.
  split; [reflexivity |].
  split; [intros a msg E; unfold validar_con; rewrite E; reflexivity |].
  split; [intros a msg E; unfold validar_con; rewrite E; reflexivity |].
  split.
  { intros a bd E H. apply (validar_con_rechaza _ _ _ _ E), Hc,
      estructura_sin_secciones, H. }
  split.
  { intros a bd md ds campo E H1 H2 H3.
    apply (validar_con_rechaza _ _ _ _ E), Hc.
    apply (estructura_primero_que_falta _ _ _ _ _ _ _ H1 H2 H3). }
  intros a bd md ds n decl E H1 H2 H3 H4 H5 H6.
  apply (validar_con_rechaza _ _ _ _ E), Hc.
  apply (estructura_inconsistencia _ _ _ _ _ _ _ _ H1 H2 H3 H4 H5 H6).
Qed.

Lemma informa_cada_fallo_qdrant :
  informa_cada_fallo validar_backup_qdrant "vectors" "total_vectors"
    campos_qdrant.
Proof.
  apply informa_cada_fallo_de_estructura. intros bd m H. exact H.
Qed.

Lemma informa_cada_fallo_mongo :
  informa_cada_fallo validar_backup_mongo "documents" "total_documents"
    campos_mongo.
Proof.
  apply informa_cada_fallo_de_estructura. intros bd m H.
  fold campos_mongo. rewrite H. reflexivity.
Qed.

Lemma validar_backup_mongo_registro_malo a bd md ds docs i m :
  json_load a = JsonOk bd ->
  estructura_correcta "documents" "total_documents" campos_mongo bd md ds ->
  py_iter ds = Ok docs ->
  primer_registro_malo docs i m ->
  validar_backup_mongo (Some a) = Invalida m.
Proof.
  intros E Hs Hi Hm. apply (validar_con_rechaza _ _ _ _ E).
  apply estructura_ok in Hs. fold campos_mongo. rewrite Hs.
  unfold pbind at 1. rewrite Hi. unfold pbind at 1. cbn [de_res sigue].
  rewrite (documentos_validos_registro_malo _ _ _ Hm). reflexivity.
Qed.

Lemma estructura_correcta_fecha seccion cuenta campos bd md ds :
  estructura_correcta seccion cuenta campos bd md ds ->
  In "backup_date" campos ->
  exists d fecha, md = PDict d /\ assoc_get "backup_date" d = Some fecha.
Proof.
  intros (_ & _ & Hc & n & decl & _ & Hg & _) Hin.
  destruct md as [| | | | | | |d]; try discriminate Hg.
  rewrite List.Forall_forall in Hc. specialize (Hc _ Hin).
  cbn [py_contains] in Hc.
  destruct (assoc_get "backup_date" d) as [fecha|] eqn:E; [| discriminate Hc].
  exists d, fecha. split; [reflexivity | exact E].
Qed.

Lemma validar_backup_qdrant_informe a bd md ds n :
  json_load a = JsonOk bd ->
  estructura_correcta "vectors" "total_vectors" campos_qdrant bd md ds ->
  py_len ds = Ok n ->
  validar_backup_qdrant (Some a)
  = Valida {| tamano_archivo := getsize a;
              hash_sha256 := sha256_hexdigest a;
              metadata := md;
              total := n;
              fecha_backup := get_o_desconocida md "backup_date" |}.
Proof.
  intros E Hs Hn. apply (validar_con_acepta _ a bd md ds n E); [| exact Hn].
  apply estructura_ok. exact Hs.
Qed.

Lemma validar_backup_mongo_informe a bd md ds docs n :
  json_load a = JsonOk bd ->
  estructura_correcta "documents" "total_documents" campos_mongo bd md ds ->
  py_iter ds = Ok docs ->
  forallb es_documento docs = true ->
  py_len ds = Ok n ->
  validar_backup_mongo (Some a)
  = Valida {| tamano_archivo := getsize a;
              hash_sha256 := sha256_hexdigest a;
              metadata := md;
              total := n;
              fecha_backup := get_o_desconocida md "backup_date" |}.
Proof.
  intros E Hs Hi Hd Hn. apply (validar_con_acepta _ a bd md ds n E); [| exact Hn].
  apply estructura_ok in Hs. fold campos_mongo. rewrite Hs.
  unfold pbind at 1. rewrite Hi. unfold pbind at 1. cbn [de_res sigue].
  apply (documentos_validos_ok 0) in Hd. rewrite Hd. reflexivity.
Qed.

(** [len] and iteration go by characters, not by the bytes of the
    encoding: a records section that is the text of one letter counts one
    record for the Qdrant validator. *)
Example len_cuenta_caracteres :
  py_len (PStr "año") = Ok 3
  /\ py_iter (PStr "ñu") = Ok [PStr "ñ"; PStr "u"]
  /\ valido
       (validar_backup_qdrant
          (Some {| json_load :=
                     JsonOk
                       (PDict [ ("metadata",
                                 PDict [ ("collection_name", PStr "c");
                                         ("backup_date", PStr "hoy");
                                         ("total_vectors", PInt 1);
                                         ("vector_size", PInt 768) ]);
                                ("vectors", PStr "ñ") ]);
                   sha256_hexdigest := "";
                   getsize := 0 |})) = true.
Proof.
  split; [vm_compute; reflexivity |].
  split; vm_compute; reflexivity.
Qed.

(** C4, as stated, fails: the digest is computed and reported but compared
    with nothing, so the backup whose vector and payload were altered, and
    whose digest is no longer the one of the backup that was written, is
    reported valid. *)
Lemma validar_backup_acepta_un_artefacto_alterado :
  json_load archivo_alterado <> json_load archivo_original
  /\ sha256_hexdigest archivo_alterado <> sha256_hexdigest archivo_original
  /\ valido (validar_backup_qdrant (Some archivo_original)) = true
  /\ valido (validar_backup_qdrant (Some archivo_alterado)) = true.
Proof.
  split; [intros H; vm_compute in H; discriminate |].
  split; [intros H; vm_compute in H; discriminate |].
  split; vm_compute; reflexivity.
Qed.

(** C4, amended: both validators report a backup valid exactly when the
    file exists and parses, the two sections are there, the manifest has
    its required fields and the declared count is the number of records
    (and, for MongoDB, every record is a dictionary with an [_id]). Each
    failure has its own reason, in both validators: no file, a file that
    does not parse, a file that cannot be read, a missing section, the
    first required field that is missing, and the declared count against
    the actual one; for MongoDB also the index of the first record that
    is not a dictionary, or that has no [_id]. A valid verdict carries the
    size and the digest of the file, the manifest, the number of records
    and the date; the digest is recomputed and returned but compared with
    nothing, so the verdict does not depend on it. *)
Theorem validar_backup_comprueba_la_estructura :
  forall archivo : option Archivo,
    (valido (validar_backup_qdrant archivo) = true
     <-> exists a backup_data metadata datos,
           archivo = Some a /\ json_load a = JsonOk backup_data
           /\ estructura_correcta "vectors" "total_vectors" campos_qdrant
                backup_data metadata datos)
    /\ (valido (validar_backup_mongo archivo) = true
        <-> exists a backup_data metadata datos docs,
              archivo = Some a /\ json_load a = JsonOk backup_data
              /\ estructura_correcta "documents" "total_documents"
                   campos_mongo backup_data metadata datos
              /\ py_iter datos = Ok docs
              /\ forallb es_documento docs = true)
    /\ (forall info,
          validar_backup_qdrant archivo = Valida info
          \/ validar_backup_mongo archivo = Valida info ->
          exists a, archivo = Some a
                    /\ hash_sha256 info = sha256_hexdigest a
                    /\ tamano_archivo info = getsize a)
    /\ (forall a h,
          valido (validar_backup_qdrant (Some (con_hash h a)))
          = valido (validar_backup_qdrant (Some a))
          /\ valido (validar_backup_mongo (Some (con_hash h a)))
             = valido (validar_backup_mongo (Some a)))
    /\ (archivo = None ->
        validar_backup_qdrant archivo = Invalida ArchivoNoEncontrado
        /\ validar_backup_mongo archivo = Invalida ArchivoNoEncontrado)
    /\ (forall a msg,
          archivo = Some a -> json_load a = JSONDecodeError msg ->
          validar_backup_qdrant archivo = Invalida (ErrorFormatoJson msg)
          /\ validar_backup_mongo archivo = Invalida (ErrorFormatoJson msg))
    /\ (forall a backup_data d datos,
          archivo = Some a -> json_load a = JsonOk backup_data ->
          py_getitem backup_data "metadata" = Ok (PDict d) ->
          py_getitem backup_data "vectors" = Ok datos ->
          existsb (fun campo => negb (is_Some_bool (assoc_get campo d)))
            campos_qdrant = true ->
          exists campo,
            In campo campos_qdrant /\ assoc_get campo d = None
            /\ validar_backup_qdrant archivo
               = Invalida (CampoFaltante campo))
    /\ (forall a backup_data metadata datos n declarado,
          archivo = Some a -> json_load a = JsonOk backup_data ->
          py_getitem backup_data "metadata" = Ok metadata ->
          py_getitem backup_data "vectors" = Ok datos ->
          Forall (fun campo => py_contains campo metadata = Ok true)
            campos_qdrant ->
          py_len datos = Ok n ->
          py_getitem metadata "total_vectors" = Ok declarado ->
          py_eq_int n declarado = false ->
          validar_backup_qdrant archivo
          = Invalida (Inconsistencia declarado n))
    /\ informa_cada_fallo validar_backup_qdrant "vectors" "total_vectors"
         campos_qdrant
    /\ informa_cada_fallo validar_backup_mongo "documents" "total_documents"
         campos_mongo
    /\ (forall a backup_data metadata datos docs i m,
          archivo = Some a -> json_load a = JsonOk backup_data ->
          estructura_correcta "documents" "total_documents" campos_mongo
            backup_data metadata datos ->
          py_iter datos = Ok docs ->
          primer_registro_malo docs i m ->
          validar_backup_mongo archivo = Invalida m)
    /\ (forall a backup_data metadata datos n,
          archivo = Some a -> json_load a = JsonOk backup_data ->
          estructura_correcta "vectors" "total_vectors" campos_qdrant
            backup_data metadata datos ->
          py_len datos = Ok n ->
          exists d fecha,
            metadata = PDict d
            /\ assoc_get "backup_date" d = Some fecha
            /\ validar_backup_qdrant archivo
               = Valida {| tamano_archivo := getsize a;
                           hash_sha256 := sha256_hexdigest a;
                           metadata := PDict d;
                           total := n;
                           fecha_backup := fecha |})
    /\ (forall a backup_data metadata datos docs n,
          archivo = Some a -> json_load a = JsonOk backup_data ->
          estructura_correcta "documents" "total_documents" campos_mongo
            backup_data metadata datos ->
          py_iter datos = Ok docs ->
          forallb es_documento docs = true ->
          py_len datos = Ok n ->
          exists d fecha,
            metadata = PDict d
            /\ assoc_get "backup_date" d = Some fecha
            /\ validar_backup_mongo archivo
               = Valida {| tamano_archivo := getsize a;
                           hash_sha256 := sha256_hexdigest a;
                           metadata := PDict d;
                           total := n;
                           fecha_backup := fecha |}).
Proof.
  intros archivo.
  split; [apply validar_backup_qdrant_valido |].
  split; [apply validar_backup_mongo_valido |].
  split.
  { intros info [H | H]; apply validar_con_informa_hash in H; exact H. }
  split.
  { intros a h. split; apply validar_con_hash. }
  split.
  { intros ->. split; reflexivity. }
  split.
  { intros a msg -> E. unfold validar_backup_qdrant, validar_backup_mongo,
      validar_con. rewrite E. split; reflexivity. }
  split.
  { intros a bd d ds -> E H1 H2 H3.
    destruct (estructura_campo_faltante "vectors" "total_vectors"
                campos_qdrant bd d ds H1 H2 H3) as (campo & Hin & Hn & Hc).
    exists campo. split; [exact Hin |]. split; [exact Hn |].
    unfold validar_backup_qdrant, validar_con. rewrite E.
    fold campos_qdrant. rewrite Hc. reflexivity. }
  split.
  { intros a bd md ds n decl -> E H1 H2 H3 H4 H5 H6.
    unfold validar_backup_qdrant, validar_con. rewrite E. fold campos_qdrant.
    rewrite (estructura_inconsistencia _ _ _ _ _ _ _ _ H1 H2 H3 H4 H5 H6).
    reflexivity. }
  split; [exact informa_cada_fallo_qdrant |].
  split; [exact informa_cada_fallo_mongo |].
  split.
  { intros a bd md ds docs i m -> E Hs Hi Hm.
    exact (validar_backup_mongo_registro_malo a bd md ds docs i m E Hs Hi Hm). }
  split.
  { intros a bd md ds n -> E Hs Hn.
    destruct (estructura_correcta_fecha _ _ _ _ _ _ Hs) as (d & fecha & -> & Hf);
      [right; left; reflexivity |].
    exists d, fecha. split; [reflexivity |]. split; [exact Hf |].
    rewrite (validar_backup_qdrant_informe a bd (PDict d) ds n E Hs Hn).
    cbn [get_o_desconocida]. rewrite Hf. reflexivity. }
  intros a bd md ds docs n -> E Hs Hi Hd Hn.
  destruct (estructura_correcta_fecha _ _ _ _ _ _ Hs) as (d & fecha & -> & Hf);
    [right; right; left; reflexivity |].
  exists d, fecha. split; [reflexivity |]. split; [exact Hf |].
  rewrite (validar_backup_mongo_informe a bd (PDict d) ds docs n E Hs Hi Hd Hn).
  cbn [get_o_desconocida]. rewrite Hf. reflexivity.
Qed.

(** ** Fusion of the two result lists *)

Lemma clave_eqb_eq a b : clave_eqb a b = true <-> a = b.
Proof.
  destruct a as [x|], b as [y|]; cbn; try (split; congruence).
  rewrite String.eqb_eq. split; congruence.
Qed.

Lemma Qlt_bool_iff a b : Qlt_bool a b = true <-> (a < b)%Q.
Proof.
  unfold Qlt_bool. destruct (Qle_bool b a) eqn:E; cbn [negb].
  - apply Qle_bool_iff in E. split; [discriminate | intros H; lra].
  - split; [intros _ | reflexivity]. apply Qnot_le_lt. intros H.
    apply Qle_bool_iff in H. congruence.
Qed.

Lemma Qlt_bool_false a b : Qlt_bool a b = false <-> (b <= a)%Q.
Proof.
  unfold Qlt_bool. destruct (Qle_bool b a) eqn:E; cbn [negb].
  - apply Qle_bool_iff in E. split; [intros _; exact E | reflexivity].
  - split; [discriminate |]. intros H. apply Qle_bool_iff in H. congruence.
Qed.

Lemma combinar_uno_claves k r l :
  map fst (combinar_uno k r l)
  = if existsb (clave_eqb k) (map fst l) then map fst l
    else (map fst l ++ [k])%list.
Proof.
  induction l as [|[k' r'] l IH]; cbn [combinar_uno map fst existsb]; [reflexivity |].
  destruct (clave_eqb k k') eqn:E; cbn [orb].
  - destruct (Qlt_bool _ _); reflexivity.
  - cbn [map fst]. rewrite IH. destruct (existsb _ _); reflexivity.
Qed.

Lemma combinar_uno_nodup k r l :
  NoDup (map fst l) -> NoDup (map fst (combinar_uno k r l)).
Proof.
  intros H. rewrite combinar_uno_claves.
  destruct (existsb (clave_eqb k) (map fst l)) eqn:E; [exact H |].
  apply NoDup_app. split; [exact H |]. split; [| repeat constructor; intros []%elem_of_nil].
  intros x Hx Hk. apply list_elem_of_singleton in Hk. subst x.
  assert (existsb (clave_eqb k) (map fst l) = true); [| congruence].
  apply existsb_exists. exists k. split; [apply list_elem_of_In; exact Hx | apply clave_eqb_eq; reflexivity].
Qed.

Lemma combinar_uno_In k r l kr :
  In kr (combinar_uno k r l) -> In kr l \/ kr = (k, r).
Proof.
  induction l as [|[k' r'] l IH]; cbn [combinar_uno].
  - intros [<- | []]. right. reflexivity.
  - destruct (clave_eqb k k') eqn:E.
    + apply clave_eqb_eq in E. subst k'.
      destruct (Qlt_bool _ _).
      * intros [<- | H]; [right; reflexivity | left; right; exact H].
      * intros H. left. exact H.
    + intros [<- | H]; [left; left; reflexivity |].
      destruct (IH H) as [H' | H']; [left; right; exact H' | right; exact H'].
Qed.

(** Nothing already in the dictionary is lost or lowered, and the new
    result is in it or is dominated by the entry under its key. *)
Lemma combinar_uno_domina k r l :
  (forall k0 r0, In (k0, r0) l ->
     exists r1, In (k0, r1) (combinar_uno k r l) /\ mas_relevante r1 r0)
  /\ exists r1, In (k, r1) (combinar_uno k r l) /\ mas_relevante r1 r.
Proof.
  unfold mas_relevante.
  induction l as [|[k' r'] l [IH1 IH2]]; cbn [combinar_uno].
  - split; [intros k0 r0 [] |]. exists r. split; [left; reflexivity | lra].
  - destruct (clave_eqb k k') eqn:E.
    + apply clave_eqb_eq in E. subst k'.
      destruct (Qlt_bool (similitud r') (similitud r)) eqn:L.
      * apply Qlt_bool_iff in L. split.
        -- intros k0 r0 [H | H].
           ++ injection H as <- <-. exists r. split; [left; reflexivity | lra].
           ++ exists r0. split; [right; exact H | lra].
        -- exists r. split; [left; reflexivity | lra].
      * apply Qlt_bool_false in L. split.
        -- intros k0 r0 H. exists r0. split; [exact H | lra].
        -- exists r'. split; [left; reflexivity | exact L].
    + split.
      * intros k0 r0 [H | H].
        -- injection H as <- <-. exists r'. split; [left; reflexivity | lra].
        -- destruct (IH1 k0 r0 H) as (r1 & Hin & Hle).
           exists r1. split; [right; exact Hin | exact Hle].
      * destruct IH2 as (r1 & Hin & Hle). exists r1. split; [right; exact Hin | exact Hle].
Qed.

Lemma combinar_desde_props resultados :
  forall inicial,
    NoDup (map fst inicial) ->
    bien_indexado inicial ->
    let final := combinar_desde resultados inicial in
    NoDup (map fst final)
    /\ bien_indexado final
    /\ (forall kr, In kr final -> In kr inicial \/ In (snd kr) resultados)
    /\ (forall k0 r0, In (k0, r0) inicial ->
          exists r1, In (k0, r1) final /\ mas_relevante r1 r0)
    /\ (forall r, In r resultados ->
          exists r1, In (clave r, r1) final /\ mas_relevante r1 r).
Proof.
  induction resultados as [|r resultados IH]; intros inicial Hnd Hbi; cbn zeta.
  - cbn [combinar_desde fold_left]. split; [exact Hnd |]. split; [exact Hbi |].
    split; [intros kr H; left; exact H |]. split.
    + intros k0 r0 H. exists r0. split; [exact H | unfold mas_relevante; lra].
    + intros r [].
  - unfold combinar_desde. cbn [fold_left].
    fold (combinar_desde resultados (combinar_uno (clave r) r inicial)).
    set (medio := combinar_uno (clave r) r inicial).
    assert (Hnd' : NoDup (map fst medio)) by (apply combinar_uno_nodup; exact Hnd).
    assert (Hbi' : bien_indexado medio).
    { unfold bien_indexado. apply Forall_forall. intros kr Hkr.
      apply list_elem_of_In in Hkr.
      destruct (combinar_uno_In _ _ _ _ Hkr) as [H | ->].
      - unfold bien_indexado in Hbi. rewrite Forall_forall in Hbi.
        apply Hbi. apply list_elem_of_In. exact H.
      - reflexivity. }
    destruct (IH medio Hnd' Hbi') as (F1 & F2 & F3 & F4 & F5).
    destruct (combinar_uno_domina (clave r) r inicial) as [D1 D2]. fold medio in D1, D2.
    split; [exact F1 |]. split; [exact F2 |]. split; [| split].
    + intros kr Hkr. destruct (F3 kr Hkr) as [H | H].
      * destruct (combinar_uno_In _ _ _ _ H) as [H' | ->].
        -- left. exact H'.
        -- right. left. reflexivity.
      * right. right. exact H.
    + intros k0 r0 H. destruct (D1 k0 r0 H) as (r1 & Hin & Hle).
      destruct (F4 k0 r1 Hin) as (r2 & Hin2 & Hle2).
      exists r2. split; [exact Hin2 | unfold mas_relevante in *; lra].
    + intros r0 [<- | H].
      * destruct D2 as (r1 & Hin & Hle).
        destruct (F4 _ r1 Hin) as (r2 & Hin2 & Hle2).
        exists r2. split; [exact Hin2 | unfold mas_relevante in *; lra].
      * apply F5. exact H.
Qed.

Lemma insertar_ordenado_perm x l :
  Permutation (insertar_ordenado x l) (x :: l).
Proof.
  induction l as [|y l IH]; cbn [insertar_ordenado]; [reflexivity |].
  destruct (Qlt_bool _ _); [| reflexivity].
  rewrite IH. apply perm_swap.
Qed.

Lemma ordenar_perm l : Permutation (ordenar l) l.
Proof.
  induction l as [|x l IH]; cbn [ordenar fold_right]; [reflexivity |].
  fold (ordenar l). rewrite insertar_ordenado_perm. apply perm_skip. exact IH.
Qed.

Lemma insertar_ordenado_sorted x l :
  StronglySorted mas_relevante l ->
  StronglySorted mas_relevante (insertar_ordenado x l).
Proof.
  unfold mas_relevante.
  induction l as [|y l IH]; intros H; cbn [insertar_ordenado].
  - repeat constructor.
  - inversion H as [|y' l' Hs Hf]; subst.
    destruct (Qlt_bool (similitud x) (similitud y)) eqn:L.
    + apply Qlt_bool_iff in L. constructor; [apply IH; exact Hs |].
      apply Forall_forall. intros z Hz.
      apply list_elem_of_In in Hz.
      apply (Permutation_in _ (insertar_ordenado_perm x l)) in Hz.
      destruct Hz as [<- | Hz]; [lra |].
      rewrite Forall_forall in Hf. apply Hf. apply list_elem_of_In. exact Hz.
    + apply Qlt_bool_false in L. constructor; [exact H |].
      constructor; [exact L |].
      apply Forall_forall. intros z Hz. rewrite Forall_forall in Hf.
      specialize (Hf z Hz). cbv beta in Hf. lra.
Qed.

Lemma ordenar_sorted l : StronglySorted mas_relevante (ordenar l).
Proof.
  induction l as [|x l IH]; cbn [ordenar fold_right]; [constructor |].
  apply insertar_ordenado_sorted. exact IH.
Qed.

Lemma hasta_no_negativo {A} (n : Z) (l : list A) :
  0 <= n ->
  hasta n l = firstn (Z.to_nat n) l
  /\ Z.of_nat (length (hasta n l)) <= n.
Proof.
  intros H. unfold hasta. destruct (0 <=? n) eqn:E; [| lia].
  split; [reflexivity |]. rewrite length_firstn. lia.
Qed.

Lemma bien_indexado_claves l :
  bien_indexado l -> map clave (map snd l) = map fst l.
Proof.
  unfold bien_indexado. induction 1 as [|kr l H _ IH]; [reflexivity |].
  cbn [map]. rewrite H, IH. reflexivity.
Qed.

(** C3: the merged results hold every key of the two lists exactly once,
    each under an entry of the input whose score is at least that of every
    entry with the key; the answer is the merged set sorted by descending
    score and cut to the limit; a key found by both searches with a lower
    text score gives the one vector entry. *)
Theorem buscar_hibrida_fusiona :
  forall (texto semanticos : list ResultadoBusqueda) (limite : Z),
    let unicos := resultados_unicos texto semanticos in
    let fusion := ordenar unicos in
    buscar_hibrida (Ok texto) (Ok semanticos) limite
      = Ok (hasta limite fusion)
    /\ List.NoDup (map clave unicos)
    /\ (forall r, In r (texto ++ semanticos) ->
          exists r', In r' unicos /\ clave r' = clave r
                     /\ (similitud r <= similitud r')%Q)
    /\ (forall r', In r' unicos -> In r' (texto ++ semanticos))
    /\ Permutation fusion unicos
    /\ StronglySorted mas_relevante fusion
    /\ (0 <= limite ->
        hasta limite fusion = firstn (Z.to_nat limite) fusion
        /\ Z.of_nat (length (hasta limite fusion)) <= limite)
    /\ (forall rt rs,
          texto = [rt] -> semanticos = [rs] -> clave rt = clave rs ->
          (similitud rt < similitud rs)%Q -> 0 < limite ->
          buscar_hibrida (Ok texto) (Ok semanticos) limite = Ok [rs]).
Proof.
  intros texto semanticos limite unicos fusion.
  destruct (combinar_desde_props (texto ++ semanticos) [] ltac:(constructor)
              ltac:(constructor)) as (F1 & F2 & F3 & _ & F5).
  cbn zeta in *.
  change (combinar_desde (texto ++ semanticos) [])
    with (combinar (texto ++ semanticos)) in *.
  split; [reflexivity |]. split.
  { unfold unicos, resultados_unicos. rewrite bien_indexado_claves by exact F2.
    apply NoDup_ListNoDup. exact F1. }
  split.
  { intros r Hr. destruct (F5 r Hr) as (r1 & Hin & Hle).
    exists r1. split; [| split].
    - unfold unicos, resultados_unicos. apply in_map_iff.
      exists (clave r, r1). split; [reflexivity | exact Hin].
    - unfold bien_indexado in F2. rewrite Forall_forall in F2.
      apply (F2 (clave r, r1)). apply list_elem_of_In. exact Hin.
    - exact Hle. }
  split.
  { intros r' Hr'. unfold unicos, resultados_unicos in Hr'.
    apply in_map_iff in Hr'. destruct Hr' as ([k r0] & <- & Hin).
    destruct (F3 _ Hin) as [[] | H]. exact H. }
  split; [apply ordenar_perm |].
  split; [apply ordenar_sorted |].
  split; [apply hasta_no_negativo |].
  intros rt rs -> -> Hk Hlt Hl.
  unfold buscar_hibrida, rbind, resultados_unicos, combinar.
  cbn [app fold_left combinar_uno].
  change (id_hash (documento rs)) with (clave rs).
  change (id_hash (documento rt)) with (clave rt).
  rewrite <- Hk.
  assert (E : clave_eqb (clave rt) (clave rt) = true) by (apply clave_eqb_eq; reflexivity).
  rewrite E. apply Qlt_bool_iff in Hlt. rewrite Hlt.
  cbn [map snd ordenar fold_right insertar_ordenado].
  unfold hasta. destruct (0 <=? limite) eqn:E0; [| lia].
  destruct (Z.to_nat limite) eqn:En; [lia |].
  cbn [firstn]. destruct n; reflexivity.
Qed.

Example buscar_hibrida_clave_repetida :
  buscar_hibrida (Ok [resultado_ejemplo 0.4 "texto"])
    (Ok [resultado_ejemplo 0.9 "semántica"]) 10
  = Ok [resultado_ejemplo 0.9 "semántica"].
Proof. vm_compute. reflexivity. Qed.

(** ** The batch run *)

Lemma completados_app t1 t2 :
  completados (t1 ++ t2) = (completados t1 + completados t2)%nat.
Proof. unfold completados. rewrite List.filter_app, length_app. reflexivity. Qed.

Lemma solo_anota_ret {A} (a : A) : solo_anota (ret a).
Proof. intros w. reflexivity. Qed.

Lemma solo_anota_raise {A} msg : solo_anota (@raise A msg).
Proof. intros w. reflexivity. Qed.

Lemma solo_anota_lift {A} (r : res A) : solo_anota (lift r).
Proof. intros w. reflexivity. Qed.

Lemma solo_anota_leer : solo_anota leer_mundo.
Proof. intros w. reflexivity. Qed.

Lemma solo_anota_poner_mongo c : solo_anota (poner_mongo c).
Proof. intros w. reflexivity. Qed.

Lemma solo_anota_poner_qdrant q : solo_anota (poner_qdrant q).
Proof. intros w. reflexivity. Qed.

Lemma solo_anota_registrar e :
  cierra_registro e = false -> solo_anota (registrar e).
Proof.
  intros H w. unfold registrar. cbn [snd traza].
  rewrite completados_app. unfold completados at 2. cbn [List.filter].
  rewrite H. cbn. lia.
Qed.

Lemma solo_anota_bind {A B} (m : M A) (f : A -> M B) :
  solo_anota m -> (forall a, solo_anota (f a)) -> solo_anota (bind m f).
Proof.
  intros Hm Hf w. unfold bind. specialize (Hm w).
  destruct (m w) as [[a|e] w1]; cbn [snd] in *.
  - rewrite (Hf a w1). exact Hm.
  - exact Hm.
Qed.

Lemma solo_anota_try {A} (m : M A) (h : string -> M A) :
  solo_anota m -> (forall e, solo_anota (h e)) -> solo_anota (try_except m h).
Proof.
  intros Hm Hh w. unfold try_except. specialize (Hm w).
  destruct (m w) as [[a|e] w1]; cbn [snd] in *.
  - exact Hm.
  - rewrite (Hh e w1). exact Hm.
Qed.

Lemma solo_anota_con_registro {A} donde (m : M A) :
  solo_anota m -> solo_anota (con_registro donde m).
Proof.
  intros Hm. unfold con_registro. apply solo_anota_try; [exact Hm |].
  intros e. apply solo_anota_bind; [apply solo_anota_registrar; reflexivity |].
  intros _. apply solo_anota_raise.
Qed.

Lemma solo_anota_if {A} (b : bool) (m1 m2 : M A) :
  solo_anota m1 -> solo_anota m2 -> solo_anota (if b then m1 else m2).
Proof. destruct b; auto. Qed.

Lemma solo_anota_cancelado_por cb : solo_anota (cancelado_por cb).
Proof. intros w. reflexivity. Qed.

Ltac anota :=
  repeat first
    [ apply solo_anota_ret | apply solo_anota_raise | apply solo_anota_lift
    | apply solo_anota_leer | apply solo_anota_poner_mongo
    | apply solo_anota_poner_qdrant | apply solo_anota_cancelado_por
    | apply solo_anota_registrar; reflexivity
    | apply solo_anota_con_registro | apply solo_anota_try
    | apply solo_anota_bind | apply solo_anota_if
    | match goal with
      | |- solo_anota (match ?x with _ => _ end) => destruct x
      | |- forall _, _ => intro
      end ].

Lemma solo_anota_procesar_documento env d cb :
  solo_anota (procesar_documento env d cb).
Proof.
  unfold procesar_documento, comprobar_cancelacion, generar_embedding,
    actualizar_embedding, update_one, guardar_en_qdrant, obtener_por_id,
    actualizar_vector, insertar_vector, client_retrieve, client_upsert.
  anota.
Qed.

Lemma bind_ext {A B} (m1 m2 : M A) (f1 f2 : A -> M B) w :
  m1 w = m2 w ->
  (forall a w', m2 w = (Ok a, w') -> f1 a w' = f2 a w') ->
  bind m1 f1 w = bind m2 f2 w.
Proof.
  intros Hm Hf. unfold bind. rewrite Hm.
  destruct (m2 w) as [[a|e] w'] eqn:E; [| reflexivity].
  apply Hf. reflexivity.
Qed.

Lemma solo_anota_generar_embedding env texto :
  solo_anota (generar_embedding env texto).
Proof. unfold generar_embedding. anota. Qed.

Lemma solo_anota_actualizar_embedding env filtro emb texto :
  solo_anota (actualizar_embedding env filtro emb texto).
Proof. unfold actualizar_embedding, update_one. anota. Qed.

Lemma comprobar_cancelacion_sin_senal f w :
  f w = false ->
  comprobar_cancelacion (Some f) w = comprobar_cancelacion None w.
Proof.
  intros H. unfold comprobar_cancelacion, bind, cancelado_por.
  rewrite H. reflexivity.
Qed.

Lemma comprobar_cancelacion_mundo cb w a w' :
  comprobar_cancelacion cb w = (Ok a, w') -> w' = w.
Proof.
  unfold comprobar_cancelacion, bind, cancelado_por.
  destruct (match cb with Some f => f w | None => false end); cbn.
  - discriminate.
  - intros H. injection H as _ <-. reflexivity.
Qed.

(** A callback that stays silent while no further record is completed is
    not noticed by [procesar_documento]. *)
Lemma procesar_documento_sin_senal env d f w :
  (forall w', completados (traza w') = completados (traza w) -> f w' = false) ->
  procesar_documento env d (Some f) w = procesar_documento env d None w.
Proof.
  intros Hf. unfold procesar_documento, con_registro, try_except.
  match goal with
  | |- match ?l w with _ => _ end = match ?r w with _ => _ end =>
      assert (E : l w = r w); [| rewrite E; reflexivity]
  end.
  apply bind_ext.
  { apply comprobar_cancelacion_sin_senal. apply Hf. reflexivity. }
  intros [] w1 H1. apply comprobar_cancelacion_mundo in H1. subst w1.
  apply bind_ext; [reflexivity |].
  intros emb w2 H2.
  assert (C2 : completados (traza w2) = completados (traza w)).
  { pose proof (solo_anota_generar_embedding env (crear_texto env d) w) as S.
    rewrite H2 in S. exact S. }
  apply bind_ext.
  { apply comprobar_cancelacion_sin_senal. apply Hf. exact C2. }
  intros [] w3 H3. apply comprobar_cancelacion_mundo in H3. subst w3.
  apply bind_ext; [reflexivity |].
  intros [] w4 H4.
  assert (C4 : completados (traza w4) = completados (traza w)).
  { pose proof (solo_anota_actualizar_embedding env (id_hash d) emb
                  (crear_texto env d) w2) as S.
    rewrite H4 in S. cbn [snd] in S. congruence. }
  apply bind_ext; [| reflexivity].
  apply comprobar_cancelacion_sin_senal. apply Hf. exact C4.
Qed.

Lemma no_cancela_None : no_cancela None.
Proof. intros f H. discriminate. Qed.

Lemma procesar_documento_ok_sii env d w :
  is_ok (fst (procesar_documento env d None w)) = procesable env d.
Proof.
  unfold procesable.
  destruct (embed_query env (crear_texto env d)) as [emb|e] eqn:He; cbn [is_ok andb].
  - destruct (mongo_update_falla env (id_hash d) _) eqn:Hm; cbn [negb].
    + unfold procesar_documento, con_registro, try_except.
      unfold bind at 1. rewrite comprobar_cancelacion_no by apply no_cancela_None.
      unfold bind at 1. rewrite generar_embedding_ok with (emb := emb) by exact He.
      unfold bind at 1. rewrite comprobar_cancelacion_no by apply no_cancela_None.
      unfold bind at 1. unfold actualizar_embedding, con_registro, try_except,
        update_one. unfold bind at 1. unfold registrar at 1.
      cbn [map fst]. rewrite Hm. reflexivity.
    + rewrite (procesar_documento_hasta_qdrant env d None emb w no_cancela_None He Hm).
      reflexivity.
  - unfold procesar_documento, con_registro, try_except.
    unfold bind at 1. rewrite comprobar_cancelacion_no by apply no_cancela_None.
    unfold bind at 1. rewrite generar_embedding_error with (e := e) by exact He.
    reflexivity.
Qed.

Lemma solo_anota_update_one env filtro campos :
  solo_anota (update_one env filtro campos).
Proof. unfold update_one. anota. Qed.

Lemma procesar_uno_forma env cb d c w :
  procesar_uno env cb d c w
  = (Ok (if is_ok (fst (procesar_documento env d cb w))
         then un_exito c else un_error c),
     cerrar_turno env d (procesar_documento env d cb w)).
Proof.
  unfold procesar_uno, cerrar_turno, try_except, bind, registrar, ret, anotar.
  destruct (procesar_documento env d cb w) as [[d'|e] w1]; cbn [fst snd is_ok];
    [| reflexivity].
  destruct (update_one env (id d) [("qdrant", PBool true)] _) as [[[]|e] w3];
    reflexivity.
Qed.

Lemma procesar_uno_None env d c w :
  procesar_uno env None d c w = (Ok (contar_uno env c d), paso_registro env d w)
  /\ completados (traza (paso_registro env d w)) = S (completados (traza w)).
Proof.
  unfold paso_registro, contar_uno. rewrite !procesar_uno_forma.
  rewrite procesar_documento_ok_sii. split; [reflexivity |]. cbn [snd].
  pose proof (solo_anota_procesar_documento env d None w) as S1.
  unfold cerrar_turno.
  destruct (procesar_documento env d None w) as [[d'|e] w1]; cbn [fst snd] in *.
  - pose proof (solo_anota_update_one env (id d) [("qdrant", PBool true)]
                  (anotar [LogProcesado (nombre d)] w1)) as S2.
    destruct (update_one env (id d) [("qdrant", PBool true)] _) as [[[]|e] w3];
      cbn [snd] in S2; unfold anotar in *; cbn [traza] in *;
      rewrite completados_app, S2, completados_app, S1; cbn; lia.
  - unfold anotar. cbn [traza]. rewrite completados_app, S1. cbn. lia.
Qed.

Lemma procesar_uno_sin_senal env d f c w :
  (forall w', completados (traza w') = completados (traza w) -> f w' = false) ->
  procesar_uno env (Some f) d c w = procesar_uno env None d c w.
Proof.
  intros H. rewrite !procesar_uno_forma.
  rewrite (procesar_documento_sin_senal env d f w H). reflexivity.
Qed.

Lemma contadores_eq (c1 c2 : Contadores) :
  documentos_procesados c1 = documentos_procesados c2 ->
  documentos_exitosos c1 = documentos_exitosos c2 ->
  documentos_errores c1 = documentos_errores c2 ->
  c1 = c2.
Proof. destruct c1, c2; cbn; intros -> -> ->; reflexivity. Qed.

Lemma exitos_fallos_cons env d l :
  exitos env (d :: l) = (if procesable env d then 1 else 0) + exitos env l
  /\ fallos env (d :: l) = (if procesable env d then 0 else 1) + fallos env l.
Proof.
  unfold exitos, fallos. cbn [List.filter].
  destruct (procesable env d); cbn [negb length]; lia.
Qed.

Lemma exitos_fallos_app env l1 l2 :
  exitos env (l1 ++ l2) = exitos env l1 + exitos env l2
  /\ fallos env (l1 ++ l2) = fallos env l1 + fallos env l2.
Proof.
  unfold exitos, fallos. rewrite !List.filter_app, !length_app. lia.
Qed.

Lemma exitos_mas_fallos env l :
  exitos env l + fallos env l = Z.of_nat (length l).
Proof.
  induction l as [|d l IH]; [reflexivity |].
  destruct (exitos_fallos_cons env d l) as [-> ->].
  cbn [length]. destruct (procesable env d); lia.
Qed.

Lemma sumar_nil env c : sumar env c 0 [] = c.
Proof. apply contadores_eq; unfold sumar, exitos, fallos; cbn; lia. Qed.

Lemma sumar_cons env c p d l :
  sumar env (contar_uno env c d) p l = sumar env c p (d :: l).
Proof.
  destruct (exitos_fallos_cons env d l) as [E F].
  apply contadores_eq; unfold sumar, contar_uno; cbn [documentos_procesados
    documentos_exitosos documentos_errores]; rewrite ?E, ?F;
    destruct (procesable env d); cbn; lia.
Qed.

Lemma procesar_registros_completados env l w :
  completados (traza (procesar_registros env l w))
  = (completados (traza w) + length l)%nat.
Proof.
  revert w. induction l as [|d l IH]; intros w; cbn [procesar_registros fold_left length].
  - lia.
  - fold (procesar_registros env l (paso_registro env d w)). rewrite IH.
    destruct (procesar_uno_None env d contadores_cero w) as [_ ->]. lia.
Qed.

Lemma bucle_documentos_senal env f k base batch :
  senal_tras k base f ->
  forall c w j,
    completados (traza w) = (base + j)%nat -> (j <= k)%nat ->
    bucle_documentos env (Some f) batch c w
    = if (k - j <? length batch)%nat
      then (Ok (inr (resultado_cancelado
                       (sumar env c 0 (firstn (k - j) batch)))),
            anotar [LogCancelacion]
              (procesar_registros env (firstn (k - j) batch) w))
      else (Ok (inl (sumar env c 0 batch)), procesar_registros env batch w).
Proof.
  intros Hf. induction batch as [|d batch IH]; intros c w j Hw Hj.
  - cbn [bucle_documentos length]. replace (k - j <? 0)%nat with false
      by (symmetry; apply Nat.ltb_ge; lia).
    rewrite sumar_nil. reflexivity.
  - cbn [bucle_documentos]. unfold bind at 1. unfold cancelado_por at 1.
    rewrite (Hf w), Hw.
    destruct (Nat.eq_dec j k) as [-> | Hne].
    + replace (k + base <=? base + k)%nat with true
        by (symmetry; apply Nat.leb_le; lia).
      rewrite Nat.sub_diag. cbn [length Nat.ltb Nat.leb firstn].
      rewrite sumar_nil. reflexivity.
    + replace (k + base <=? base + j)%nat with false
        by (symmetry; apply Nat.leb_gt; lia).
      unfold bind at 1.
      rewrite procesar_uno_sin_senal.
      2:{ intros w' Hw'. rewrite (Hf w'), Hw', Hw. apply Nat.leb_gt. lia. }
      destruct (procesar_uno_None env d c w) as [-> Hc].
      rewrite (IH (contar_uno env c d) (paso_registro env d w) (S j)) by lia.
      replace (k - j)%nat with (S (k - S j)) by lia.
      cbn [length firstn]. 
      change (S (k - S j) <? S (length batch))%nat
        with (k - S j <? length batch)%nat.
      rewrite !sumar_cons. reflexivity.
Qed.

Lemma firstn_suma {A} (a c : nat) (l : list A) :
  firstn (a + c) l = (firstn a l ++ firstn c (skipn a l))%list.
Proof.
  revert l. induction a as [|a IH]; intros l; [reflexivity |].
  destruct l as [|x l]; cbn [Nat.add firstn skipn app].
  - rewrite firstn_nil. reflexivity.
  - rewrite IH. reflexivity.
Qed.

Lemma entre_lote {A} (s : nat) (bs : Z) (l : list A) :
  0 < bs ->
  entre (Z.of_nat s * bs) (Z.of_nat s * bs + bs) l
  = firstn (Z.to_nat bs) (skipn (s * Z.to_nat bs) l).
Proof.
  intros H. unfold entre. f_equal; [f_equal; lia | f_equal; nia].
Qed.

Lemma procesar_registros_app env l1 l2 w :
  procesar_registros env (l1 ++ l2) w
  = procesar_registros env l2 (procesar_registros env l1 w).
Proof. apply fold_left_app. Qed.

Lemma sumar_sumar env c p1 l1 p2 l2 :
  sumar env (sumar env c p1 l1) p2 l2 = sumar env c (p1 + p2) (l1 ++ l2).
Proof.
  destruct (exitos_fallos_app env l1 l2) as [E F].
  apply contadores_eq; unfold sumar; cbn [documentos_procesados
    documentos_exitosos documentos_errores]; rewrite ?E, ?F; lia.
Qed.

Lemma lote_hecho_sumar env c x p l :
  lote_hecho x (sumar env c p l) = sumar env c (p + x) l.
Proof.
  apply contadores_eq; unfold sumar, lote_hecho;
    cbn [documentos_procesados documentos_exitosos documentos_errores]; lia.
Qed.

Lemma bucle_lotes_senal env f k base docs bs :
  0 < bs ->
  senal_tras k base f ->
  (k < length docs)%nat ->
  let b := Z.to_nat bs in
  forall n s c w,
    completados (traza w) = (base + s * b)%nat ->
    (s * b <= k)%nat -> (k < (s + n) * b)%nat ->
    let seg := firstn (k - s * b) (skipn (s * b) docs) in
    bucle_lotes env (Some f) docs bs (inicios bs s n) c w
    = (Ok (resultado_cancelado
             (sumar env c (bs * Z.of_nat ((k - s * b) / b)) seg)),
       anotar [LogCancelacion] (procesar_registros env seg w)).
Proof.
  intros Hbs Hf Hk b.
  assert (Hb : (0 < b)%nat) by (unfold b; lia).
  assert (Ebs : bs = Z.of_nat b) by (unfold b; lia).
  induction n as [|n IH]; intros s c w Hw Hs Hn seg; [lia |].
  unfold inicios. cbn [seq map bucle_lotes].
  fold (inicios bs (S s) n).
  unfold bind at 1. unfold cancelado_por at 1. rewrite (Hf w), Hw.
  destruct (Nat.eq_dec (s * b)%nat k) as [E | Hne].
  - replace (k + base <=? base + s * b)%nat with true
      by (symmetry; apply Nat.leb_le; lia).
    unfold seg. rewrite <- E, Nat.sub_diag. cbn [firstn].
    rewrite Nat.Div0.div_0_l. rewrite Z.mul_0_r, sumar_nil. reflexivity.
  - replace (k + base <=? base + s * b)%nat with false
      by (symmetry; apply Nat.leb_gt; lia).
    rewrite entre_lote by exact Hbs. fold b.
    set (batch := firstn b (skipn (s * b)%nat docs)).
    unfold bind at 1.
    rewrite (bucle_documentos_senal env f k base batch Hf c w (s * b)%nat Hw Hs).
    assert (Lb : length batch = Nat.min b (length docs - s * b)%nat).
    { unfold batch. rewrite length_firstn, length_skipn. reflexivity. }
    destruct (k - s * b <? length batch)%nat eqn:Elt.
    + apply Nat.ltb_lt in Elt.
      unfold seg, batch. rewrite firstn_firstn.
      replace (Nat.min (k - s * b)%nat b) with (k - s * b)%nat by lia.
      rewrite Nat.div_small by lia. rewrite Z.mul_0_r. reflexivity.
    + apply Nat.ltb_ge in Elt.
      assert (Lb' : length batch = b) by lia.
      rewrite Lb', lote_hecho_sumar.
      rewrite (IH (S s) _ (procesar_registros env batch w)).
      * rewrite sumar_sumar, <- procesar_registros_app.
        assert (Eseg : seg = (batch ++ firstn (k - S s * b)%nat (skipn (S s * b)%nat docs))%list).
        { unfold seg, batch.
          replace (k - s * b)%nat with (b + (k - S s * b))%nat by lia.
          rewrite firstn_suma, skipn_skipn.
          replace (b + s * b)%nat with (S s * b)%nat by lia. reflexivity. }
        rewrite <- Eseg.
        replace ((k - s * b) / b)%nat with (S ((k - S s * b) / b))%nat.
        2:{ replace (k - s * b)%nat with (1 * b + (k - S s * b))%nat by lia.
            rewrite Nat.div_add_l by lia. lia. }
        assert (Ez : forall q : nat,
                   0 + Z.of_nat b + bs * Z.of_nat q = bs * Z.of_nat (S q))
          by (intros q; rewrite Ebs; lia).
        rewrite Ez. reflexivity.
      * rewrite procesar_registros_completados, Hw, Lb'. lia.
      * lia.
      * lia.
Qed.

Lemma py_range_positivo (total bs : Z) :
  0 < bs -> 0 <= total ->
  let n := Z.to_nat ((total + bs - 1) / bs) in
  py_range total bs = Ok (inicios bs 0 n)
  /\ total <= Z.of_nat n * bs.
Proof.
  intros Hbs Ht n. unfold py_range.
  destruct (bs =? 0) eqn:E0; [lia |]. destruct (bs <? 0) eqn:E1; [lia |].
  split; [reflexivity |].
  assert (Hq : 0 <= (total + bs - 1) / bs) by (apply Z.div_pos; lia).
  unfold n. rewrite Z2Nat.id by exact Hq.
  pose proof (Z.div_mod (total + bs - 1) bs ltac:(lia)) as Hdm.
  pose proof (Z.mod_pos_bound (total + bs - 1) bs Hbs) as Hm.
  nia.
Qed.

Lemma exitos_todos env l :
  forallb (procesable env) l = true ->
  exitos env l = Z.of_nat (length l) /\ fallos env l = 0.
Proof.
  induction l as [|d l IH]; cbn [forallb]; [intros _; split; reflexivity |].
  intros H. apply andb_true_iff in H. destruct H as [Hd Hl].
  destruct (exitos_fallos_cons env d l) as [-> ->]. rewrite Hd.
  destruct (IH Hl) as [-> ->]. cbn [length]. lia.
Qed.

(** C2: when the callback asks to stop from the moment exactly [k] of the
    [N] candidates ([k < N]) have had their whole turn, the run returns
    [cancelado = True] at the next check; its counters are those of the
    first [k] records (so [total_exitosos = k] when each of them is
    processed without an error, and [total_procesados] counts the whole
    batches among them), and the stores are exactly those left by the
    whole turns of the first [k] records. *)
Theorem cancelacion_tras_k_registros :
  forall env batch_size docs k f w,
    0 < batch_size ->
    (k < length docs)%nat ->
    senal_tras k (completados (traza w)) f ->
    let hechos := firstn k docs in
    procesar_coleccion_completa env batch_size (Ok docs) (Some f) w
    = (Ok {| total_procesados := batch_size * (Z.of_nat k / batch_size);
             total_exitosos := exitos env hechos;
             total_errores := fallos env hechos;
             cancelado := Some true;
             mensaje := ProcesamientoCancelado (exitos env hechos)
                          (fallos env hechos) |},
       anotar [LogCancelacion] (procesar_registros env hechos w))
    /\ exitos env hechos + fallos env hechos = Z.of_nat k
    /\ (forallb (procesable env) hechos = true ->
        exitos env hechos = Z.of_nat k /\ fallos env hechos = 0).
Proof.
  intros env bs docs k f w Hbs Hk Hf hechos.
  assert (Lh : length hechos = k) by (unfold hechos; rewrite length_firstn; lia).
  split; [| split].
  - unfold procesar_coleccion_completa, con_registro, try_except.
    unfold bind at 1. unfold lift at 1.
    destruct (Z.of_nat (length docs) =? 0) eqn:E0; [lia |].
    destruct (py_range_positivo (Z.of_nat (length docs)) bs Hbs ltac:(lia))
      as [Hr Hn].
    set (n := Z.to_nat ((Z.of_nat (length docs) + bs - 1) / bs)) in *.
    unfold bind at 1. rewrite Hr. unfold lift.
    pose proof (bucle_lotes_senal env f k (completados (traza w)) docs bs
                  Hbs Hf Hk n 0%nat
                  {| documentos_procesados := 0; documentos_exitosos := 0;
                     documentos_errores := 0 |} w) as HL.
    cbn zeta in HL. rewrite Nat.mul_0_l, Nat.add_0_r, Nat.sub_0_r in HL.
    change (skipn 0 docs) with docs in HL. fold hechos in HL.
    rewrite HL; [| reflexivity | lia | ].
    + unfold resultado_cancelado, sumar.
      cbn [documentos_procesados documentos_exitosos documentos_errores].
      rewrite Nat2Z.inj_div, Z2Nat.id by lia. rewrite !Z.add_0_l. reflexivity.
    + cbn [Nat.add]. apply Nat2Z.inj_lt.
      rewrite Nat2Z.inj_mul, (Z2Nat.id bs) by lia. lia.
  - rewrite exitos_mas_fallos, Lh. reflexivity.
  - intros H. destruct (exitos_todos env hechos H) as [E F].
    rewrite E, F, Lh. split; reflexivity.
Qed.

Lemma bucle_documentos_sin_senal env f batch :
  (forall w, f w = false) ->
  forall c w,
    bucle_documentos env (Some f) batch c w
    = (Ok (inl (sumar env c 0 batch)), procesar_registros env batch w).
Proof.
  intros Hf. induction batch as [|d batch IH]; intros c w.
  - cbn [bucle_documentos]. rewrite sumar_nil. reflexivity.
  - cbn [bucle_documentos]. unfold bind at 1. unfold cancelado_por at 1.
    rewrite (Hf w). unfold bind at 1.
    rewrite procesar_uno_sin_senal by (intros w' _; apply Hf).
    destruct (procesar_uno_None env d c w) as [-> _].
    rewrite IH, sumar_cons. reflexivity.
Qed.

Lemma bucle_lotes_sin_senal env f docs bs :
  0 < bs ->
  (forall w, f w = false) ->
  let b := Z.to_nat bs in
  forall n s c w,
    let seg := firstn (n * b) (skipn (s * b) docs) in
    bucle_lotes env (Some f) docs bs (inicios bs s n) c w
    = (Ok (resultado_completado
             (sumar env c (Z.of_nat (length seg)) seg)),
       procesar_registros env seg w).
Proof.
  intros Hbs Hf b. induction n as [|n IH]; intros s c w seg.
  - unfold seg. cbn [Nat.mul firstn inicios seq map bucle_lotes length].
    rewrite sumar_nil. reflexivity.
  - unfold inicios. cbn [seq map bucle_lotes]. fold (inicios bs (S s) n).
    unfold bind at 1. unfold cancelado_por at 1. rewrite (Hf w).
    rewrite entre_lote by exact Hbs. fold b.
    set (batch := firstn b (skipn (s * b)%nat docs)).
    unfold bind at 1. rewrite (bucle_documentos_sin_senal env f batch Hf).
    rewrite lote_hecho_sumar, IH, sumar_sumar, <- procesar_registros_app.
    assert (Eseg : seg = (batch ++ firstn (n * b)%nat (skipn (S s * b)%nat docs))%list).
    { unfold seg, batch. replace (S n * b)%nat with (b + n * b)%nat by lia.
      rewrite firstn_suma, skipn_skipn.
      replace (b + s * b)%nat with (S s * b)%nat by lia. reflexivity. }
    rewrite <- Eseg.
    replace (0 + Z.of_nat (length batch)
             + Z.of_nat (length (firstn (n * b)%nat (skipn (S s * b)%nat docs))))
      with (Z.of_nat (length seg)); [reflexivity |].
    rewrite Eseg, length_app. lia.
Qed.

(** C10: without a callback the run never answers [cancelado]: it
    returns the counters of a completed run (all the candidates attempted,
    each one succeeded or failed), or the answer for no candidates, or it
    raises because the query did or because the batch size is zero. *)
Theorem sin_callback_nunca_cancelado :
  forall env batch_size consulta w,
    match procesar_coleccion_completa env batch_size consulta None w with
    | (Ok r, w') =>
        cancelado r = None
        /\ exists docs,
             consulta = Ok docs
             /\ (docs = [] /\ r = sin_documentos /\ w' = w
                 \/ docs <> [] /\ 0 < batch_size
                    /\ r = resultado_completado
                             {| documentos_procesados :=
                                  Z.of_nat (length docs);
                                documentos_exitosos := exitos env docs;
                                documentos_errores := fallos env docs |}
                    /\ exitos env docs + fallos env docs
                       = Z.of_nat (length docs)
                    /\ w' = procesar_registros env docs w
                 \/ docs <> [] /\ batch_size < 0
                    /\ r = resultado_completado contadores_cero /\ w' = w)
    | (Error e, _) =>
        consulta = Error e
        \/ exists docs, consulta = Ok docs /\ docs <> [] /\ batch_size = 0
    end.
Proof.
  intros env bs consulta w.
  unfold procesar_coleccion_completa, con_registro, try_except.
  unfold bind at 1. unfold lift at 1.
  destruct consulta as [docs|e].
  2:{ unfold bind, registrar, raise. left. reflexivity. }
  destruct (Z.of_nat (length docs) =? 0) eqn:E0.
  { unfold ret. split; [reflexivity |]. exists docs. split; [reflexivity |].
    left. apply Z.eqb_eq in E0.
    destruct docs; [repeat split | cbn [length] in E0; lia]. }
  assert (Hne : docs <> []) by (intros ->; cbn in E0; discriminate).
  destruct (Z.lt_trichotomy bs 0) as [Hneg | [-> | Hpos]].
  - unfold bind at 1. unfold py_range, lift.
    destruct (bs =? 0) eqn:E1; [lia |]. destruct (bs <? 0) eqn:E2; [| lia].
    cbn [bucle_lotes]. unfold ret. split; [reflexivity |].
    exists docs. split; [reflexivity |]. right. right. repeat split; assumption.
  - unfold bind, lift, py_range, registrar, raise. cbn [Z.eqb].
    right. exists docs. repeat split. exact Hne.
  - destruct (py_range_positivo (Z.of_nat (length docs)) bs Hpos ltac:(lia))
      as [Hr Hn].
    set (n := Z.to_nat ((Z.of_nat (length docs) + bs - 1) / bs)) in *.
    unfold bind at 1. rewrite Hr. unfold lift.
    pose proof (bucle_lotes_sin_senal env (fun _ => false) docs bs Hpos
                  ltac:(reflexivity) n 0%nat
                  {| documentos_procesados := 0; documentos_exitosos := 0;
                     documentos_errores := 0 |} w) as HL.
    cbn zeta in HL. rewrite Nat.mul_0_l in HL.
    change (skipn 0 docs) with docs in HL.
    rewrite firstn_all2 in HL.
    2:{ apply Nat2Z.inj_le. rewrite Nat2Z.inj_mul, (Z2Nat.id bs) by lia. lia. }
    rewrite HL. split; [reflexivity |].
    exists docs. split; [reflexivity |]. right. left.
    split; [exact Hne |]. split; [exact Hpos |].
    split; [| split; [apply exitos_mas_fallos | reflexivity]].
    reflexivity.
Qed.

Lemma cancelacion_tras_k_registros_witness :
  fst (procesar_coleccion_completa entorno_ejemplo 2 (Ok candidatos_ejemplo)
         (Some senal_ejemplo) mundo_ejemplo)
  = Ok {| total_procesados := 0; total_exitosos := 1; total_errores := 0;
          cancelado := Some true;
          mensaje := ProcesamientoCancelado 1 0 |}.
Proof.
  assert (H2 : (1 < length candidatos_ejemplo)%nat) by (cbn; lia).
  assert (H3 : senal_tras 1 (completados (traza mundo_ejemplo))
                 senal_ejemplo) by (intros w; reflexivity).
  destruct (cancelacion_tras_k_registros entorno_ejemplo 2
              candidatos_ejemplo 1 senal_ejemplo mundo_ejemplo
              eq_refl H2 H3) as [H _].
  rewrite H. vm_compute. reflexivity.
Defined.

(** ** More on the numeric id *)

(** X1: for every key the id of the insert, retrieve and update paths
    exists ([int] never raises on a digest) and fits in 32 bits. *)
Theorem id_numerico_cabe_en_32_bits :
  forall k : string,
    exists n,
      id_numerico_insertar k = Ok n
      /\ id_numerico_obtener k = Ok n
      /\ id_numerico_actualizar k = Ok n
      /\ 0 <= n < 2 ^ 32.
Proof.
  intros k. destruct (ids_de_una_clave k) as (a & r & Ha & _ & Ba & _).
  exists a. repeat split; try exact Ha; lia.
Qed.

(** X2: a vector inserted for a document is what [obtener_por_id] returns
    for the document's key: the numeric id and the whole payload. *)
Theorem obtener_por_id_tras_insertar :
  forall env w documento k n emb desc,
    id_hash documento = Some k ->
    id_numerico_insertar k = Ok n ->
    qdrant_upsert_falla env n = false ->
    qdrant_retrieve_falla env n = false ->
    fst (obtener_por_id env (Some k)
           (snd (insertar_vector env documento emb desc w)))
    = Ok (Some (n, payload_insertar documento emb desc)).
Proof.
  intros env w documento k n emb desc Hk Hn Hu Hr.
  rewrite (insertar_vector_ok env documento k n emb desc w Hk Hn Hu).
  cbn [snd]. rewrite (obtener_por_id_ok env k n _ Hn Hr).
  cbn [fst vectores]. rewrite lookup_insert_eq. reflexivity.
Qed.

Lemma obtener_por_id_tras_insertar_witness :
  fst (obtener_por_id entorno_ejemplo (Some clave_ejemplo)
         (snd (insertar_vector entorno_ejemplo documento_ejemplo
                 embedding_ejemplo "archivo: playa.jpg" mundo_vacio)))
  = Ok (Some (4195510762,
              payload_insertar documento_ejemplo embedding_ejemplo
                "archivo: playa.jpg")).
Proof.
  assert (Hn : id_numerico_insertar clave_ejemplo = Ok 4195510762)
    by (vm_compute; reflexivity).
  exact (obtener_por_id_tras_insertar entorno_ejemplo mundo_vacio
           documento_ejemplo clave_ejemplo 4195510762 embedding_ejemplo
           "archivo: playa.jpg" eq_refl Hn eq_refl eq_refl).
Defined.

(** X3: two keys with the same numeric id share one point: inserting the
    second document replaces the vector of the first, and looking up the
    first key then returns the payload of the second document. *)
Theorem colision_de_ids_reemplaza_el_vector :
  forall env w d1 d2 k1 k2 n e1 e2 t1 t2,
    id_hash d1 = Some k1 -> id_hash d2 = Some k2 ->
    id_numerico_insertar k1 = Ok n ->
    id_numerico_insertar k2 = Ok n ->
    qdrant_upsert_falla env n = false ->
    qdrant_retrieve_falla env n = false ->
    let w1 := snd (insertar_vector env d1 e1 t1 w) in
    let w2 := snd (insertar_vector env d2 e2 t2 w1) in
    fst (obtener_por_id env (Some k1) w2)
      = Ok (Some (n, payload_insertar d2 e2 t2))
    /\ vectores w2 = <[n := {| vector := e2;
                               payload := payload_insertar d2 e2 t2 |}]>
                       (vectores w).
Proof.
  intros env w d1 d2 k1 k2 n e1 e2 t1 t2 H1 H2 N1 N2 Hu Hr w1 w2.
  subst w1 w2.
  rewrite (insertar_vector_ok env d1 k1 n e1 t1 w H1 N1 Hu). cbn [snd].
  rewrite (insertar_vector_ok env d2 k2 n e2 t2 _ H2 N2 Hu). cbn [snd].
  rewrite (obtener_por_id_ok env k1 n _ N1 Hr). cbn [fst vectores].
  rewrite lookup_insert_eq, insert_insert_eq. split; reflexivity.
Qed.

Lemma colision_de_ids_reemplaza_el_vector_witness :
  clave_colision_1 <> clave_colision_2
  /\ fst (obtener_por_id entorno_ejemplo (Some clave_colision_1)
           (snd (insertar_vector entorno_ejemplo
                   (otro_documento clave_colision_2 "rio.jpg" "/fotos/rio.jpg")
                   embedding_ejemplo "archivo: rio.jpg"
                   (snd (insertar_vector entorno_ejemplo
                           (otro_documento clave_colision_1 "monte.jpg"
                              "/fotos/monte.jpg")
                           embedding_ejemplo "archivo: monte.jpg"
                           mundo_vacio)))))
     = Ok (Some (1641564798,
                 payload_insertar
                   (otro_documento clave_colision_2 "rio.jpg" "/fotos/rio.jpg")
                   embedding_ejemplo "archivo: rio.jpg")).
Proof.
  split; [intros H; vm_compute in H; discriminate |].
  assert (N1 : id_numerico_insertar clave_colision_1 = Ok 1641564798)
    by (vm_compute; reflexivity).
  assert (N2 : id_numerico_insertar clave_colision_2 = Ok 1641564798)
    by (vm_compute; reflexivity).
  exact (proj1 (colision_de_ids_reemplaza_el_vector entorno_ejemplo
                  mundo_vacio
                  (otro_documento clave_colision_1 "monte.jpg"
                     "/fotos/monte.jpg")
                  (otro_documento clave_colision_2 "rio.jpg" "/fotos/rio.jpg")
                  clave_colision_1 clave_colision_2 1641564798
                  embedding_ejemplo embedding_ejemplo
                  "archivo: monte.jpg" "archivo: rio.jpg"
                  eq_refl eq_refl N1 N2 eq_refl eq_refl)).
Defined.

(** ** The turn of one record *)

(** X4: the turn of a record in the inner loop never raises, whatever the
    callback and the collaborators do: it adds one to the successes when
    [procesar_documento] returned and one to the errors when it raised,
    and leaves the count of whole batches alone. *)
Theorem procesar_uno_nunca_lanza :
  forall env cb d c w,
    exists c' w',
      procesar_uno env cb d c w = (Ok c', w')
      /\ (c' = if is_ok (fst (procesar_documento env d cb w))
               then un_exito c else un_error c)
      /\ documentos_exitosos c' + documentos_errores c'
         = documentos_exitosos c + documentos_errores c + 1
      /\ documentos_procesados c' = documentos_procesados c.
Proof.
  intros env cb d c w. rewrite procesar_uno_forma.
  eexists. eexists. split; [reflexivity |]. split; [reflexivity |].
  destruct (is_ok _); cbn [un_exito un_error documentos_exitosos
    documentos_errores documentos_procesados]; split; lia.
Qed.

Lemma comprobar_cancelacion_si f w :
  f w = true ->
  comprobar_cancelacion (Some f) w
  = (Error "Procesamiento cancelado por el usuario", w).
Proof.
  intros H. unfold comprobar_cancelacion, bind, cancelado_por.
  rewrite H. reflexivity.
Qed.

Lemma comprobar_cancelacion_no_f f w :
  f w = false -> comprobar_cancelacion (Some f) w = (Ok tt, w).
Proof.
  intros H. unfold comprobar_cancelacion, bind, cancelado_por.
  rewrite H. reflexivity.
Qed.

(** X5: a cancellation that is first seen after the write to MongoDB makes
    [procesar_documento] raise with the embedding and the description
    already stored in MongoDB and nothing written to Qdrant; the loop
    counts that record as an error. *)
Theorem cancelacion_entre_las_dos_escrituras :
  forall env w d f emb c,
    (forall w', f w' = existsb es_mongo_update (traza w')) ->
    existsb es_mongo_update (traza w) = false ->
    embed_query env (crear_texto env d) = Ok emb ->
    mongo_update_falla env (id_hash d)
      ["embedding"; "descripcion_semantica"] = false ->
    let texto := crear_texto env d in
    let msg := "Procesamiento cancelado por el usuario" in
    procesar_documento env d (Some f) w
    = (Error msg,
       {| mongo := update_first (id_hash d) (campos_embedding emb texto)
                     (mongo w);
          vectores := vectores w;
          traza := traza w
            ++ [EvEmbed texto;
                EvMongoUpdate (id_hash d)
                  ["embedding"; "descripcion_semantica"];
                LogError "procesar_documento" msg] |})
    /\ fst (procesar_uno env (Some f) d c w)
       = Ok {| documentos_procesados := documentos_procesados c;
               documentos_exitosos := documentos_exitosos c;
               documentos_errores := documentos_errores c + 1 |}.
Proof.
  intros env w d f emb c Hf Hw He Hm texto msg.
  assert (Hp : procesar_documento env d (Some f) w
               = (Error msg,
                  {| mongo := update_first (id_hash d)
                                (campos_embedding emb texto) (mongo w);
                     vectores := vectores w;
                     traza := traza w
                       ++ [EvEmbed texto;
                           EvMongoUpdate (id_hash d)
                             ["embedding"; "descripcion_semantica"];
                           LogError "procesar_documento" msg] |})).
  { unfold procesar_documento, con_registro, try_except.
    unfold bind at 1.
    rewrite comprobar_cancelacion_no_f by (rewrite Hf; exact Hw).
    unfold bind at 1. rewrite generar_embedding_ok with (emb := emb) by exact He.
    unfold bind at 1. rewrite comprobar_cancelacion_no_f.
    2:{ rewrite Hf. unfold anotar. cbn [traza]. rewrite existsb_app, Hw.
        reflexivity. }
    unfold bind at 1. rewrite actualizar_embedding_ok by exact Hm.
    unfold bind at 1. rewrite comprobar_cancelacion_si.
    2:{ rewrite Hf. unfold anotar. cbn [traza]. rewrite !existsb_app.
        cbn. apply orb_true_r. }
    unfold bind, registrar, raise, anotar. cbn [mongo vectores traza].
    fold texto. rewrite <- !app_assoc. reflexivity. }
  split; [exact Hp |].
  rewrite procesar_uno_forma, Hp. reflexivity.
Qed.

Lemma update_first_sin_coincidencia filtro campos c :
  Forall (fun d => coincide_id filtro d = false) c ->
  update_first filtro campos c = c.
Proof.
  induction 1 as [|d c Hd _ IH]; cbn [update_first]; [reflexivity |].
  rewrite Hd, IH. reflexivity.
Qed.

(** X6: [actualizar_embedding] addresses the record by [id_hash] and the
    mark [qdrant = True] addresses it by [id]. When no stored record has
    the document's [id_hash] as its [_id], the write of the embedding
    changes nothing in MongoDB, and still the record is counted as
    succeeded and the record with the document's [id] is marked. *)
Theorem embedding_no_escrito_si_id_hash_no_es_el_id :
  forall env w d cb emb c,
    no_cancela cb ->
    embed_query env (crear_texto env d) = Ok emb ->
    mongo_update_falla env (id_hash d)
      ["embedding"; "descripcion_semantica"] = false ->
    mongo_update_falla env (id d) ["qdrant"] = false ->
    Forall (fun x => coincide_id (id_hash d) x = false) (mongo w) ->
    mongo (snd (procesar_documento env d cb w)) = mongo w
    /\ fst (procesar_uno env cb d c w)
       = Ok {| documentos_procesados := documentos_procesados c;
               documentos_exitosos := documentos_exitosos c + 1;
               documentos_errores := documentos_errores c |}
    /\ mongo (snd (procesar_uno env cb d c w))
       = update_first (id d) [("qdrant", PBool true)] (mongo w).
Proof.
  intros env w d cb emb c Hc He Hm Hq Hno.
  pose proof (procesar_documento_hasta_qdrant env d cb emb w Hc He Hm) as Hp.
  destruct (guardar_en_qdrant_no_lanza env d emb (crear_texto env d)
              (tras_mongo (id_hash d) emb (crear_texto env d) w))
    as (w1 & Hg & Hmongo).
  rewrite Hg in Hp. cbn [snd] in Hp.
  assert (H2 : mongo w1 = mongo w).
  { rewrite Hmongo. unfold tras_mongo. cbn [mongo].
    apply update_first_sin_coincidencia. exact Hno. }
  rewrite procesar_uno_forma, Hp. cbn [fst snd is_ok cerrar_turno].
  split; [exact H2 |]. split; [reflexivity |].
  rewrite update_one_ok by exact Hq.
  unfold anotar. cbn [mongo]. rewrite H2. reflexivity.
Qed.

Lemma cancelacion_entre_las_dos_escrituras_witness :
  let f := fun w : Mundo => existsb es_mongo_update (traza w) in
  fst (procesar_documento entorno_ejemplo documento_ejemplo (Some f)
         mundo_ejemplo)
    = Error "Procesamiento cancelado por el usuario"
  /\ fst (procesar_uno entorno_ejemplo (Some f) documento_ejemplo
            contadores_cero mundo_ejemplo)
     = Ok {| documentos_procesados := 0; documentos_exitosos := 0;
             documentos_errores := 1 |}.
Proof.
  intros f.
  destruct (cancelacion_entre_las_dos_escrituras entorno_ejemplo
              mundo_ejemplo documento_ejemplo f embedding_ejemplo
              contadores_cero (fun w' => eq_refl) eq_refl eq_refl eq_refl)
    as [H1 H2].
  rewrite H1. split; [reflexivity | exact H2].
Defined.

Lemma embedding_no_escrito_si_id_hash_no_es_el_id_witness :
  mongo (snd (procesar_documento entorno_ejemplo
                documento_con_hash_derivado None mundo_ejemplo))
    = coleccion_ejemplo
  /\ fst (procesar_uno entorno_ejemplo None documento_con_hash_derivado
            contadores_cero mundo_ejemplo)
     = Ok {| documentos_procesados := 0; documentos_exitosos := 1;
             documentos_errores := 0 |}.
Proof.
  assert (Hno : Forall
                  (fun x => coincide_id
                              (id_hash documento_con_hash_derivado) x
                            = false) (mongo mundo_ejemplo)).
  { repeat constructor; vm_compute; reflexivity. }
  destruct (embedding_no_escrito_si_id_hash_no_es_el_id entorno_ejemplo
              mundo_ejemplo documento_con_hash_derivado None
              embedding_ejemplo contadores_cero no_cancela_None
              eq_refl eq_refl eq_refl Hno) as (H1 & H2 & _).
  split; [exact H1 | exact H2].
Defined.

(** ** What a batch run leaves as it was *)

Lemma conservado_refl w : conservado w w.
Proof. split; auto. Qed.

Lemma conservado_trans w1 w2 w3 :
  conservado w1 w2 -> conservado w2 w3 -> conservado w1 w3.
Proof.
  intros [A1 B1] [A2 B2]. split.
  - intros k Hk. rewrite (A2 k Hk). apply A1. exact Hk.
  - intros i Hi. apply B2, B1. exact Hi.
Qed.

Lemma conserva_ret {A} (a : A) : conserva (ret a).
Proof. intros w. apply conservado_refl. Qed.

Lemma conserva_raise {A} msg : conserva (@raise A msg).
Proof. intros w. apply conservado_refl. Qed.

Lemma conserva_lift {A} (r : res A) : conserva (lift r).
Proof. intros w. apply conservado_refl. Qed.

Lemma conserva_registrar e : conserva (registrar e).
Proof. intros w. split; auto. Qed.

Lemma conserva_cancelado_por cb : conserva (cancelado_por cb).
Proof. intros w. apply conservado_refl. Qed.

Lemma conserva_bind {A B} (m : M A) (f : A -> M B) :
  conserva m -> (forall a, conserva (f a)) -> conserva (bind m f).
Proof.
  intros Hm Hf w. unfold bind. specialize (Hm w).
  destruct (m w) as [[a|e] w1]; cbn [snd] in *; [| exact Hm].
  eapply conservado_trans; [exact Hm | apply Hf].
Qed.

Lemma conserva_try {A} (m : M A) (h : string -> M A) :
  conserva m -> (forall e, conserva (h e)) -> conserva (try_except m h).
Proof.
  intros Hm Hh w. unfold try_except. specialize (Hm w).
  destruct (m w) as [[a|e] w1]; cbn [snd] in *; [exact Hm |].
  eapply conservado_trans; [exact Hm | apply Hh].
Qed.

Lemma conserva_con_registro {A} donde (m : M A) :
  conserva m -> conserva (con_registro donde m).
Proof.
  intros Hm. unfold con_registro. apply conserva_try; [exact Hm |].
  intros e. apply conserva_bind; [apply conserva_registrar |].
  intros _. apply conserva_raise.
Qed.

Lemma conserva_if {A} (b : bool) (m1 m2 : M A) :
  conserva m1 -> conserva m2 -> conserva (if b then m1 else m2).
Proof. destruct b; auto. Qed.

Lemma assoc_get_set_campo k k' v (d : doc) :
  String.eqb k k' = false ->
  assoc_get k (set_campo k' v d) = assoc_get k d.
Proof.
  intros Hk. induction d as [| [k0 v0] d IH]; cbn [set_campo assoc_get].
  - rewrite Hk. reflexivity.
  - destruct (String.eqb k' k0) eqn:E; cbn [assoc_get].
    + apply String.eqb_eq in E. subst k0. rewrite Hk. reflexivity.
    + rewrite IH. reflexivity.
Qed.

Lemma assoc_get_set_campos k campos (d : doc) :
  existsb (String.eqb k) (map fst campos) = false ->
  assoc_get k (set_campos campos d) = assoc_get k d.
Proof.
  unfold set_campos. revert d.
  induction campos as [| [k' v] campos IH]; intros d Hk; [reflexivity |].
  cbn [map fst existsb] in Hk. apply orb_false_iff in Hk as [H1 H2].
  cbn [fold_left fst snd]. rewrite IH by exact H2.
  apply assoc_get_set_campo. exact H1.
Qed.

Lemma update_first_otros_campos k filtro campos c :
  existsb (String.eqb k) (map fst campos) = false ->
  map (assoc_get k) (update_first filtro campos c) = map (assoc_get k) c.
Proof.
  intros Hk. induction c as [| d c IH]; [reflexivity |].
  cbn [update_first]. destruct (coincide_id filtro d); cbn [map].
  - rewrite assoc_get_set_campos by exact Hk. reflexivity.
  - rewrite IH. reflexivity.
Qed.

Lemma campo_ajeno k (campos : list (string * pyval)) :
  forallb campo_del_lote (map fst campos) = true ->
  campo_del_lote k = false ->
  existsb (String.eqb k) (map fst campos) = false.
Proof.
  intros Hc Hk. induction campos as [| [k' v] campos IH]; [reflexivity |].
  cbn [map fst forallb existsb] in *.
  apply andb_true_iff in Hc as [H1 H2]. rewrite (IH H2), orb_false_r.
  destruct (String.eqb k k') eqn:E; [| reflexivity].
  apply String.eqb_eq in E. subst k'. congruence.
Qed.

Lemma conserva_update_one env filtro campos :
  forallb campo_del_lote (map fst campos) = true ->
  conserva (update_one env filtro campos).
Proof.
  intros Hc w. unfold update_one, bind, registrar, leer_mundo, poner_mongo,
    raise.
  destruct (mongo_update_falla env filtro (map fst campos));
    cbn [snd mongo vectores]; split; cbn [mongo vectores]; auto.
  intros k Hk. apply update_first_otros_campos.
  apply campo_ajeno; assumption.
Qed.

Lemma conserva_client_upsert env i p : conserva (client_upsert env i p).
Proof.
  intros w. unfold client_upsert, bind, registrar, leer_mundo, poner_qdrant,
    raise.
  destruct (qdrant_upsert_falla env i); cbn [snd mongo vectores];
    split; cbn [mongo vectores]; auto.
  intros j Hj. destruct (decide (i = j)) as [-> | Hne].
  - rewrite lookup_insert_eq. eauto.
  - rewrite lookup_insert_ne by exact Hne. exact Hj.
Qed.

Lemma conserva_client_retrieve env i : conserva (client_retrieve env i).
Proof.
  intros w. unfold client_retrieve, bind, registrar, leer_mundo, ret, raise.
  destruct (qdrant_retrieve_falla env i); cbn [snd]; split;
    cbn [mongo vectores]; auto.
Qed.

Ltac conservar :=
  repeat first
    [ apply conserva_ret | apply conserva_raise | apply conserva_lift
    | apply conserva_cancelado_por | apply conserva_registrar
    | apply conserva_client_upsert | apply conserva_client_retrieve
    | apply conserva_update_one; reflexivity
    | apply conserva_con_registro | apply conserva_try
    | apply conserva_bind | apply conserva_if
    | match goal with
      | |- conserva (match ?x with _ => _ end) => destruct x
      | |- forall _, _ => intro
      end ].

Lemma conserva_procesar_documento env d cb :
  conserva (procesar_documento env d cb).
Proof.
  unfold procesar_documento, comprobar_cancelacion, generar_embedding,
    actualizar_embedding, guardar_en_qdrant, obtener_por_id,
    actualizar_vector, insertar_vector.
  conservar.
Qed.

Lemma conserva_procesar_uno env cb d c :
  conserva (procesar_uno env cb d c).
Proof.
  unfold procesar_uno.
  apply conserva_try.
  - apply conserva_bind; [apply conserva_procesar_documento |].
    intros d'. conservar.
  - conservar.
Qed.

Lemma conserva_bucle_documentos env cb batch :
  forall c, conserva (bucle_documentos env cb batch c).
Proof.
  induction batch as [| d batch IH]; intros c; cbn [bucle_documentos].
  - apply conserva_ret.
  - apply conserva_bind; [apply conserva_cancelado_por |].
    intros [|]; [conservar |].
    apply conserva_bind; [apply conserva_procesar_uno |].
    intros c'. apply IH.
Qed.

Lemma conserva_bucle_lotes env cb docs bs inicios :
  forall c, conserva (bucle_lotes env cb docs bs inicios c).
Proof.
  induction inicios as [| i inicios IH]; intros c; cbn [bucle_lotes].
  - apply conserva_ret.
  - apply conserva_bind; [apply conserva_cancelado_por |].
    intros [|]; [conservar |].
    apply conserva_bind; [apply conserva_bucle_documentos |].
    intros [c' | r]; [apply IH | apply conserva_ret].
Qed.

(** X7: whatever the collaborators answer and whenever the run is
    cancelled, [procesar_coleccion_completa] adds no record to MongoDB and
    removes none, leaves every field other than [embedding],
    [descripcion_semantica] and [qdrant] of every record as it was (the
    [_id] among them), and removes no point from Qdrant. *)
Theorem el_lote_solo_escribe_sus_campos :
  forall env batch_size consulta cb w,
    let w' :=
      snd (procesar_coleccion_completa env batch_size consulta cb w) in
    length (mongo w') = length (mongo w)
    /\ (forall k, campo_del_lote k = false ->
          map (assoc_get k) (mongo w') = map (assoc_get k) (mongo w))
    /\ map id_de (mongo w') = map id_de (mongo w)
    /\ (forall i, is_Some (vectores w !! i) -> is_Some (vectores w' !! i)).
Proof.
  intros env bs consulta cb w w'.
  assert (H : conservado w w').
  { subst w'. revert w. unfold procesar_coleccion_completa.
    apply conserva_con_registro.
    apply conserva_bind; [apply conserva_lift |].
    intros docs. apply conserva_if; [apply conserva_ret |].
    apply conserva_bind; [apply conserva_lift |].
    intros inicios. apply conserva_bucle_lotes. }
  destruct H as [Hk Hv].
  pose proof (Hk "_id" eq_refl) as Hid.
  split; [| split; [exact Hk | split; [| exact Hv]]].
  - apply (f_equal (@length _)) in Hid.
    rewrite !length_map in Hid. exact Hid.
  - unfold id_de.
    rewrite <- (map_map (assoc_get "_id")
                  (fun o => match o with Some v => v | None => PNone end)).
    rewrite Hid. rewrite map_map. reflexivity.
Qed.

(** ** A marked record is not selected again *)

Lemma assoc_get_set_campo_mismo k v (d : doc) :
  assoc_get k (set_campo k v d) = Some v.
Proof.
  induction d as [| [k0 v0] d IH]; cbn [set_campo assoc_get].
  - rewrite String.eqb_refl. reflexivity.
  - destruct (String.eqb k k0) eqn:E; cbn [assoc_get].
    + rewrite String.eqb_refl. reflexivity.
    + rewrite E. exact IH.
Qed.

Lemma coincide_id_set_campos filtro campos d :
  existsb (String.eqb "_id") (map fst campos) = false ->
  coincide_id filtro (set_campos campos d) = coincide_id filtro d.
Proof.
  intros H. unfold coincide_id.
  rewrite assoc_get_set_campos by exact H. reflexivity.
Qed.

Lemma find_update_first filtro campos c :
  existsb (String.eqb "_id") (map fst campos) = false ->
  List.find (coincide_id filtro) (update_first filtro campos c)
  = option_map (set_campos campos) (List.find (coincide_id filtro) c).
Proof.
  intros H. induction c as [| d c IH]; [reflexivity |].
  cbn [update_first List.find].
  destruct (coincide_id filtro d) eqn:E; cbn [List.find].
  - rewrite coincide_id_set_campos by exact H. rewrite E. reflexivity.
  - rewrite E. exact IH.
Qed.

Lemma marcado_no_es_candidato (d : doc) :
  sin_procesar (set_campos [("qdrant", PBool true)] d) = false.
Proof.
  unfold sin_procesar, no_existe, campo_es, set_campos.
  cbn [fold_left fst snd].
  rewrite (assoc_get_set_campo_mismo "qdrant").
  cbn [is_Some_bool negb es_bool Bool.eqb orb]. apply andb_false_r.
Qed.

(** X8: once [procesar_documento] has returned for a record and the
    marking write does not raise, the record the batch addressed by its
    [_id] carries [qdrant: True] and the query of
    [_obtener_documentos_sin_embedding] does not select it any more,
    whether or not its embedding reached MongoDB or Qdrant. *)
Theorem un_registro_marcado_no_vuelve_a_ser_candidato :
  forall env cb d c w,
    is_ok (fst (procesar_documento env d cb w)) = true ->
    mongo_update_falla env (id d) ["qdrant"] = false ->
    let w' := snd (procesar_uno env cb d c w) in
    forall x,
      List.find (coincide_id (id d)) (mongo w') = Some x ->
      assoc_get "qdrant" x = Some (PBool true)
      /\ sin_procesar x = false
      /\ ~ In x (documentos_sin_procesar (mongo w')).
Proof.
  intros env cb d c w Hok Hm w' x Hx. subst w'.
  rewrite procesar_uno_forma in Hx. cbn [snd] in Hx.
  destruct (procesar_documento env d cb w) as [[d' | e] w1];
    [| discriminate Hok].
  cbn [cerrar_turno] in Hx.
  rewrite update_one_ok in Hx by exact Hm.
  unfold anotar in Hx. cbn [mongo] in Hx.
  rewrite find_update_first in Hx by reflexivity.
  destruct (List.find (coincide_id (id d)) (mongo w1)) as [x0 |];
    [| discriminate Hx].
  cbn [option_map] in Hx. injection Hx as Hx. subst x.
  assert (Hs : sin_procesar (set_campos [("qdrant", PBool true)] x0) = false)
    by apply marcado_no_es_candidato.
  split; [| split; [exact Hs |]].
  - unfold set_campos. cbn [fold_left fst snd].
    apply assoc_get_set_campo_mismo.
  - unfold documentos_sin_procesar. intros Hin.
    apply List.filter_In in Hin. destruct Hin as [_ Hin].
    change (set_campo "qdrant" (PBool true) x0)
      with (set_campos [("qdrant", PBool true)] x0) in Hin.
    rewrite Hs in Hin. discriminate Hin.
Qed.

Lemma un_registro_marcado_no_vuelve_a_ser_candidato_witness :
  exists x,
    List.find (coincide_id (id documento_ejemplo))
      (mongo (snd (procesar_uno entorno_sin_upsert None documento_ejemplo
                     contadores_cero mundo_ejemplo))) = Some x
    /\ sin_procesar x = false.
Proof.
  eexists. split; [vm_compute; reflexivity |].
  refine (proj1 (proj2
            (un_registro_marcado_no_vuelve_a_ser_candidato
               entorno_sin_upsert None documento_ejemplo contadores_cero
               mundo_ejemplo _ _ _ _))).
  - vm_compute; reflexivity.
  - reflexivity.
  - vm_compute; reflexivity.
Defined.

(** ** The text of a record that was processed before *)

Lemma str_app_assoc (a b c : string) :
  String.append (String.append a b) c = String.append a (String.append b c).
Proof.
  induction a as [| x a IH]; [reflexivity |].
  change (String x (String.append (String.append a b) c)
          = String x (String.append a (String.append b c))).
  rewrite IH. reflexivity.
Qed.

Lemma str_length_app (a b : string) :
  String.length (String.append a b)
  = (String.length a + String.length b)%nat.
Proof.
  induction a as [| x a IH]; [reflexivity |].
  change (S (String.length (String.append a b))
          = S (String.length a + String.length b)).
  rewrite IH. reflexivity.
Qed.

Lemma join_snoc sep (l : list string) x :
  l <> [] -> join sep (l ++ [x]) = (join sep l ++ sep ++ x)%string.
Proof.
  induction l as [| a l IH]; intros Hl; [congruence |].
  destruct l as [| b l].
  - reflexivity.
  - change (join sep ((a :: b :: l) ++ [x]))
      with (a ++ sep ++ join sep ((b :: l) ++ [x]))%string.
    rewrite IH by discriminate.
    change (join sep (a :: b :: l)) with (a ++ sep ++ join sep (b :: l))%string.
    rewrite !str_app_assoc. reflexivity.
Qed.

Lemma join_contiene sep (l : list string) x :
  In x l -> (String.length x <= String.length (join sep l))%nat.
Proof.
  induction l as [| a l IH]; intros Hin; [destruct Hin |].
  destruct l as [| b l].
  - destruct Hin as [-> | []]. cbn [join]. lia.
  - change (join sep (a :: b :: l)) with (a ++ sep ++ join sep (b :: l))%string.
    rewrite !str_length_app.
    destruct Hin as [-> | Hin]; [lia |].
    specialize (IH Hin). lia.
Qed.

Lemma estado_en_campos_texto d :
  In ("estado_procesamiento: "
        ++ (if objeto_procesado d then "procesado"
            else "pendiente de procesamiento"))%string
     (campos_texto d).
Proof.
  unfold campos_texto. rewrite !in_app_iff. do 11 right. left. left.
  reflexivity.
Qed.

Lemma texto_no_vacio d : str_truthy (_crear_texto_desde_campos d) = true.
Proof.
  unfold str_truthy, _crear_texto_desde_campos.
  pose proof (join_contiene " | " _ _ (estado_en_campos_texto d)) as H.
  destruct (join " | " (campos_texto d)) as [| a s] eqn:E; [| reflexivity].
  exfalso. destruct (objeto_procesado d); vm_compute in H; lia.
Qed.

Lemma campos_texto_con_embedding d t emb :
  opt_truthy (descripcion_semantica d) = false ->
  str_truthy t = true ->
  campos_texto (con_embedding d t emb)
  = (campos_texto d ++ [("descripción_semántica: " ++ t)%string])%list.
Proof.
  intros Hd Ht. unfold campos_texto at 2. rewrite Hd.
  cbn [si]. rewrite <- !app_assoc. rewrite app_nil_l.
  unfold campos_texto.
  change (descripcion_semantica (con_embedding d t emb)) with (Some t).
  cbn [opt_truthy str_de]. rewrite Ht. reflexivity.
Qed.

Lemma procesar_documento_devuelve env d cb w d' w' :
  procesar_documento env d cb w = (Ok d', w') ->
  exists emb, d' = con_embedding d (crear_texto env d) emb.
Proof.
  unfold procesar_documento, con_registro, try_except.
  match goal with
  | |- match ?m w with _ => _ end = _ -> _ =>
      destruct (m w) as [[a | e] w1] eqn:E
  end.
  2:{ unfold bind, registrar, raise. discriminate. }
  intros H. injection H as <- <-.
  unfold bind at 1 in E.
  destruct (comprobar_cancelacion cb w) as [[[] | e1] w2]; [| discriminate E].
  unfold bind at 1 in E.
  destruct (generar_embedding env (crear_texto env d) w2)
    as [[emb | e2] w3]; [| discriminate E].
  exists emb.
  unfold bind at 1 in E.
  destruct (comprobar_cancelacion cb w3) as [[[] | e3] w4]; [| discriminate E].
  unfold bind at 1 in E.
  destruct (actualizar_embedding env (id_hash d) emb (crear_texto env d) w4)
    as [[[] | e4] w5]; [| discriminate E].
  unfold bind at 1 in E.
  destruct (comprobar_cancelacion cb w5) as [[[] | e5] w6]; [| discriminate E].
  unfold bind at 1 in E.
  destruct (guardar_en_qdrant env d emb (crear_texto env d) w6)
    as [[[] | e6] w7]; [| discriminate E].
  unfold ret in E. injection E as <- _. reflexivity.
Qed.

(** X9: [procesar_documento] stores the text it embedded as the record's
    description, and [_crear_texto_desde_campos] ends its text with the
    description, so the text of a record that is processed again is the
    text of the first pass followed by that same text as its
    description. *)
Theorem reprocesar_anida_la_descripcion :
  forall env cb d d' w w',
    (forall x, crear_texto env x = _crear_texto_desde_campos x) ->
    opt_truthy (descripcion_semantica d) = false ->
    procesar_documento env d cb w = (Ok d', w') ->
    descripcion_semantica d' = Some (_crear_texto_desde_campos d)
    /\ _crear_texto_desde_campos d'
       = (_crear_texto_desde_campos d ++ " | descripción_semántica: "
            ++ _crear_texto_desde_campos d)%string.
Proof.
  intros env cb d d' w w' Henv Hd Hp.
  destruct (procesar_documento_devuelve _ _ _ _ _ _ Hp) as [emb ->].
  rewrite Henv. split; [reflexivity |].
  unfold _crear_texto_desde_campos at 1.
  rewrite campos_texto_con_embedding by (exact Hd || apply texto_no_vacio).
  rewrite join_snoc.
  - reflexivity.
  - intros Hnil. pose proof (estado_en_campos_texto d) as Hin.
    rewrite Hnil in Hin. destruct Hin.
Qed.

Lemma reprocesar_anida_la_descripcion_witness :
  exists d' w',
    procesar_documento entorno_textual documento_ejemplo None mundo_ejemplo
      = (Ok d', w')
    /\ _crear_texto_desde_campos d'
       = (_crear_texto_desde_campos documento_ejemplo
            ++ " | descripción_semántica: "
            ++ _crear_texto_desde_campos documento_ejemplo)%string.
Proof.
  eexists. eexists. split; [vm_compute; reflexivity |].
  refine (proj2 (reprocesar_anida_la_descripcion entorno_textual None
                   documento_ejemplo _ mundo_ejemplo _
                   (fun x => eq_refl) eq_refl _)).
  vm_compute; reflexivity.
Defined.

(** ** Inserting a document with a new path *)

Lemma assoc_get_filter {A} k (v : A) (p : string * A -> bool) l :
  assoc_get k l = Some v -> p (k, v) = true ->
  assoc_get k (List.filter p l) = Some v.
Proof.
  intros Hl Hp. induction l as [| [k' v'] l IH]; [discriminate Hl |].
  cbn [assoc_get] in Hl. cbn [List.filter].
  destruct (String.eqb k k') eqn:E.
  - apply String.eqb_eq in E. subst k'. injection Hl as ->.
    rewrite Hp. cbn [assoc_get]. rewrite String.eqb_refl. reflexivity.
  - destruct (p (k', v')); [cbn [assoc_get]; rewrite E |]; apply IH, Hl.
Qed.

Lemma assoc_get_alias k (l : list (string * pyval)) :
  String.eqb k "id" = false -> String.eqb k "_id" = false ->
  assoc_get k (map (fun kv => (alias (fst kv), snd kv)) l) = assoc_get k l.
Proof.
  intros H1 H2. induction l as [| [k' v'] l IH]; [reflexivity |].
  cbn [map assoc_get fst snd]. rewrite IH. unfold alias.
  destruct (String.eqb k' "id") eqn:E.
  - apply String.eqb_eq in E. subst k'. rewrite H1, H2. reflexivity.
  - reflexivity.
Qed.

Lemma assoc_get_cons_ne {A} k k' (v : A) l :
  String.eqb k k' = false -> assoc_get k ((k', v) :: l) = assoc_get k l.
Proof. intros H. cbn [assoc_get]. rewrite H. reflexivity. Qed.

Lemma to_dict_ruta d :
  In "ruta" (model_fields_set d) ->
  assoc_get "ruta" (to_dict d) = Some (PStr (ruta d)).
Proof.
  intros Hin. unfold to_dict.
  rewrite assoc_get_alias by reflexivity.
  apply assoc_get_filter; [reflexivity |].
  cbn [fst snd is_none negb]. rewrite andb_true_r.
  apply existsb_exists. exists "ruta". split; [exact Hin |].
  apply String.eqb_refl.
Qed.

Lemma misma_ruta_almacenado env c d :
  In "ruta" (model_fields_set d) ->
  misma_ruta (ruta d) (almacenado env c (to_dict d)) = true.
Proof.
  intros Hin. unfold misma_ruta, almacenado.
  destruct (assoc_get "_id" (to_dict d)).
  - rewrite (to_dict_ruta d Hin). cbn [coincide]. apply String.eqb_refl.
  - rewrite assoc_get_cons_ne by reflexivity.
    rewrite (to_dict_ruta d Hin). cbn [coincide]. apply String.eqb_refl.
Qed.

Lemma insert_one_ok env data w :
  mongo_insert_falla env data = false ->
  sin_choque (mongo w) data = true ->
  insert_one env data w
  = (Ok (id_de (almacenado env (mongo w) data)),
     {| mongo := mongo w ++ [almacenado env (mongo w) data];
        vectores := vectores w;
        traza := traza w ++ [EvMongoInsert] |}).
Proof.
  intros Hf Hs. unfold insert_one, sin_choque, almacenado, id_de in *.
  unfold bind at 1. unfold registrar at 1. rewrite Hf.
  unfold bind at 1. unfold leer_mundo at 1. cbn [mongo].
  destruct (assoc_get "_id" data) as [v |] eqn:E.
  - apply negb_true_iff in Hs. rewrite Hs. rewrite E. reflexivity.
  - reflexivity.
Qed.

Lemma insertar_documento_existente env documento w e :
  mongo_find_falla env (ruta documento) = false ->
  List.find (misma_ruta (ruta documento)) (mongo w) = Some e ->
  insertar_documento env documento w
  = (Ok (py_str (id_de e)),
     {| mongo := mongo w;
        vectores := vectores w;
        traza := traza w
          ++ [EvMongoFind (ruta documento);
              LogAvisoRutaExiste (ruta documento);
              EvMongoFind (ruta documento)] |}).
Proof.
  intros Hf He.
  unfold insertar_documento, con_registro. unfold try_except at 1.
  unfold bind at 1. rewrite verificar_ruta_existente_ok by exact Hf.
  rewrite He. cbn [is_Some_bool].
  unfold bind at 1. unfold registrar at 1.
  unfold bind at 1. rewrite find_one_ruta_ok by exact Hf.
  unfold anotar at 1 2. cbn [mongo]. rewrite He.
  apply find_some in He. destruct He as [_ Hm].
  destruct e as [|campo campos]; [discriminate |].
  unfold ret, anotar. cbn [mongo vectores traza].
  rewrite <- !app_assoc. reflexivity.
Qed.

Lemma insertar_documento_nueva env documento w :
  mongo_find_falla env (ruta documento) = false ->
  List.find (misma_ruta (ruta documento)) (mongo w) = None ->
  mongo_insert_falla env (to_dict documento) = false ->
  sin_choque (mongo w) (to_dict documento) = true ->
  insertar_documento env documento w
  = (Ok (py_str (id_de (almacenado env (mongo w) (to_dict documento)))),
     {| mongo := mongo w ++ [almacenado env (mongo w) (to_dict documento)];
        vectores := vectores w;
        traza := traza w ++ [EvMongoFind (ruta documento); EvMongoInsert] |}).
Proof.
  intros Hf Hn Hi Hs.
  unfold insertar_documento, con_registro. unfold try_except at 1.
  unfold bind at 1. rewrite verificar_ruta_existente_ok by exact Hf.
  rewrite Hn. cbn [is_Some_bool].
  unfold bind at 1. rewrite insert_one_ok by assumption.
  unfold ret, anotar. cbn [mongo vectores traza].
  rewrite <- !app_assoc. reflexivity.
Qed.

Lemma find_app_nuevo {A} (p : A -> bool) l x :
  List.find p l = None -> p x = true -> List.find p (l ++ [x]) = Some x.
Proof.
  intros Hn Hx. induction l as [| a l IH]; cbn [app List.find].
  - rewrite Hx. reflexivity.
  - cbn [List.find] in Hn. destruct (p a); [discriminate Hn |].
    apply IH, Hn.
Qed.

(** X10: inserting a document whose path is new stores exactly one more
    record, the document's own fields under its [_id] or a fresh one, and
    returns that [_id]; inserting the same document again returns the
    same [_id] and stores nothing. *)
Theorem insertar_documento_es_idempotente :
  forall env documento w,
    mongo_find_falla env (ruta documento) = false ->
    mongo_insert_falla env (to_dict documento) = false ->
    In "ruta" (model_fields_set documento) ->
    List.find (misma_ruta (ruta documento)) (mongo w) = None ->
    sin_choque (mongo w) (to_dict documento) = true ->
    let guardado := almacenado env (mongo w) (to_dict documento) in
    let primera := insertar_documento env documento w in
    let segunda := insertar_documento env documento (snd primera) in
    fst primera = Ok (py_str (id_de guardado))
    /\ mongo (snd primera) = (mongo w ++ [guardado])%list
    /\ fst segunda = fst primera
    /\ mongo (snd segunda) = mongo (snd primera).
Proof.
  intros env documento w Hf Hi Hr Hn Hs guardado primera segunda.
  subst primera segunda.
  rewrite (insertar_documento_nueva env documento w Hf Hn Hi Hs).
  cbn [fst snd mongo].
  split; [reflexivity |]. split; [reflexivity |].
  erewrite insertar_documento_existente; [split; reflexivity | exact Hf |].
  cbn [mongo]. apply find_app_nuevo; [exact Hn |].
  apply misma_ruta_almacenado. exact Hr.
Qed.

Lemma insertar_documento_es_idempotente_witness :
  let d := otro_documento "c3" "lago.jpg" "/fotos/lago.jpg" in
  let primera := insertar_documento entorno_ejemplo d mundo_ejemplo in
  fst primera = Ok "c3"
  /\ fst (insertar_documento entorno_ejemplo d (snd primera)) = Ok "c3"
  /\ mongo (snd (insertar_documento entorno_ejemplo d (snd primera)))
     = (coleccion_ejemplo ++ [to_dict d])%list.
Proof.
  intros d primera.
  assert (Hr : In "ruta" (model_fields_set d)).
  { vm_compute. tauto. }
  destruct (insertar_documento_es_idempotente entorno_ejemplo d
              mundo_ejemplo eq_refl eq_refl Hr)
    as (H1 & H2 & H3 & H4); [vm_compute; reflexivity .. |].
  fold primera in H1, H2, H3, H4.
  split; [rewrite H1; vm_compute; reflexivity |].
  split; [rewrite H3, H1; vm_compute; reflexivity |].
  rewrite H4, H2. vm_compute. reflexivity.
Defined.

Lemma length_filter_app_uno {A} (p : A -> bool) l x :
  p x = true ->
  length (List.filter p (l ++ [x])) = S (length (List.filter p l)).
Proof.
  intros Hx. rewrite List.filter_app, length_app. cbn [List.filter].
  rewrite Hx. cbn [length]. lia.
Qed.

(** X11: when the lookup by path raises, [verificar_ruta_existente]
    answers that the path is not there, so [insertar_documento] inserts:
    the collection gains one more record with that path, however many it
    already held. *)
Theorem consulta_fallida_duplica_la_ruta :
  forall env documento w,
    mongo_find_falla env (ruta documento) = true ->
    mongo_insert_falla env (to_dict documento) = false ->
    In "ruta" (model_fields_set documento) ->
    sin_choque (mongo w) (to_dict documento) = true ->
    let guardado := almacenado env (mongo w) (to_dict documento) in
    let r := insertar_documento env documento w in
    fst r = Ok (py_str (id_de guardado))
    /\ mongo (snd r) = (mongo w ++ [guardado])%list
    /\ length (List.filter (misma_ruta (ruta documento)) (mongo (snd r)))
       = S (length (List.filter (misma_ruta (ruta documento)) (mongo w))).
Proof.
  intros env documento w Hf Hi Hr Hs guardado r. subst r guardado.
  assert (H : insertar_documento env documento w
              = (Ok (py_str (id_de (almacenado env (mongo w)
                                      (to_dict documento)))),
                 {| mongo := mongo w
                      ++ [almacenado env (mongo w) (to_dict documento)];
                    vectores := vectores w;
                    traza := traza w
                      ++ [EvMongoFind (ruta documento);
                          LogError "verificar_ruta_existente"
                            "ServerSelectionTimeoutError: find_one";
                          EvMongoInsert] |})).
  { unfold insertar_documento, con_registro. unfold try_except at 1.
    unfold bind at 1.
    assert (Hv : forall w0, verificar_ruta_existente env (ruta documento) w0
                 = (Ok false,
                    anotar [EvMongoFind (ruta documento);
                            LogError "verificar_ruta_existente"
                              "ServerSelectionTimeoutError: find_one"] w0)).
    { intros w0. unfold verificar_ruta_existente, try_except, find_one_ruta.
      unfold bind at 1. unfold registrar at 1. rewrite Hf.
      unfold raise, bind, registrar, ret, anotar.
      cbn [mongo vectores traza]. rewrite <- !app_assoc. reflexivity. }
    rewrite Hv. unfold bind at 1.
    rewrite insert_one_ok by assumption.
    unfold ret, anotar. cbn [mongo vectores traza].
    rewrite <- !app_assoc. reflexivity. }
  rewrite H. cbn [fst snd mongo].
  split; [reflexivity |]. split; [reflexivity |].
  apply length_filter_app_uno, misma_ruta_almacenado. exact Hr.
Qed.

Lemma consulta_fallida_duplica_la_ruta_witness :
  let d := otro_documento "c3" "playa.jpg" "/fotos/playa.jpg" in
  let r := insertar_documento entorno_sin_consulta d mundo_ejemplo in
  fst r = Ok "c3"
  /\ length (List.filter (misma_ruta "/fotos/playa.jpg") (mongo (snd r)))
     = 2%nat.
Proof.
  intros d r.
  assert (Hr : In "ruta" (model_fields_set d)).
  { vm_compute. tauto. }
  destruct (consulta_fallida_duplica_la_ruta entorno_sin_consulta d
              mundo_ejemplo eq_refl eq_refl Hr)
    as (H1 & H2 & H3); [vm_compute; reflexivity |].
  fold r in H1, H2, H3.
  split; [rewrite H1; vm_compute; reflexivity |].
  change (ruta d) with "/fotos/playa.jpg" in H3.
  rewrite H3. vm_compute. reflexivity.
Defined.

(** ** Backup and restore of the collection *)

Lemma json_leido_es_json :
  forall v, es_json v = true -> Respaldo.json_leido v = v.
Proof.
  fix IH 1. intros v. destruct v as [| b | n | f | s | h | l | d];
    cbn [es_json Respaldo.json_leido]; intros H;
    try reflexivity; try discriminate H.
  - f_equal. induction l as [| x l IHl]; [reflexivity |].
    cbn [forallb] in H. apply andb_true_iff in H as [Hx Hl].
    cbn [map]. rewrite (IH x Hx), (IHl Hl). reflexivity.
  - f_equal. induction d as [| [k x] d IHd]; [reflexivity |].
    cbn [forallb snd] in H. apply andb_true_iff in H as [Hx Hd].
    cbn [map fst snd]. rewrite (IH x Hx), (IHd Hd). reflexivity.
Qed.

Lemma assoc_get_map_valores {A B} (f : A -> B) k (d : list (string * A)) :
  assoc_get k (map (fun kv => (fst kv, f (snd kv))) d)
  = option_map f (assoc_get k d).
Proof.
  induction d as [| [k' v] d IH]; [reflexivity |].
  cbn [map assoc_get fst snd]. destruct (String.eqb k k'); [reflexivity |].
  exact IH.
Qed.

Lemma id_como_texto_tiene_id d :
  is_Some_bool (assoc_get "_id" d) = true ->
  is_Some_bool (assoc_get "_id" (Respaldo.id_como_texto d)) = true.
Proof.
  unfold Respaldo.id_como_texto.
  destruct (assoc_get "_id" d) as [v |] eqn:E; [| discriminate].
  intros _. rewrite assoc_get_set_campo_mismo. reflexivity.
Qed.

Lemma crear_backup_coleccion_ok er w :
  Respaldo.count_documents_falla er = false ->
  Respaldo.find_falla er = false ->
  Respaldo.open_falla er = false ->
  Respaldo.crear_backup_coleccion er w
  = (Ok ({| json_load := JsonOk (Respaldo.json_leido (volcado er (mongo w)));
            sha256_hexdigest :=
              Respaldo.sha256_del_volcado er (volcado er (mongo w));
            getsize :=
              Respaldo.tamano_del_volcado er (volcado er (mongo w)) |},
         {| Respaldo.total_documentos := Z.of_nat (length (mongo w));
            Respaldo.tamano_archivo :=
              Respaldo.tamano_del_volcado er (volcado er (mongo w));
            Respaldo.hash_sha256 :=
              Respaldo.sha256_del_volcado er (volcado er (mongo w));
            Respaldo.fecha_backup := Respaldo.isoformat_now er |}),
     w).
Proof.
  intros H1 H2 H3.
  unfold Respaldo.crear_backup_coleccion, con_registro, try_except, bind,
    Respaldo.si_falla, leer_mundo, ret.
  rewrite H1, H2, H3. unfold volcado. rewrite length_map. reflexivity.
Qed.

Lemma json_leido_volcado er c :
  Respaldo.json_leido (volcado er c)
  = PDict [ ("metadata", Respaldo.metadata_de er (Z.of_nat (length c)));
            ("documents",
              PList (map Respaldo.json_leido
                       (map (fun d => PDict (Respaldo.id_como_texto d)) c))) ].
Proof. reflexivity. Qed.

(** X12: the file [crear_backup_coleccion] writes for a collection (every
    record with its [_id], no call failing) is one [validar_backup]
    accepts, and the validation reports the number of records, the digest
    and the size that the backup reported. *)
Theorem el_backup_creado_es_valido :
  forall er w,
    Respaldo.count_documents_falla er = false ->
    Respaldo.find_falla er = false ->
    Respaldo.open_falla er = false ->
    Forall (fun d => is_Some_bool (assoc_get "_id" d) = true) (mongo w) ->
    exists a info iv,
      Respaldo.crear_backup_coleccion er w = (Ok (a, info), w)
      /\ validar_backup_mongo (Some a) = Valida iv
      /\ total iv = Z.of_nat (length (mongo w))
      /\ Respaldo.total_documentos info = total iv
      /\ hash_sha256 iv = Respaldo.hash_sha256 info
      /\ tamano_archivo iv = Respaldo.tamano_archivo info
      /\ fecha_backup iv = PStr (Respaldo.fecha_backup info).
Proof.
  intros er w H1 H2 H3 Hid.
  eexists. eexists. eexists.
  split; [apply crear_backup_coleccion_ok; assumption |].
  unfold validar_backup_mongo, validar_con. cbn [json_load].
  rewrite json_leido_volcado.
  set (docs := map Respaldo.json_leido
                 (map (fun d => PDict (Respaldo.id_como_texto d)) (mongo w))).
  set (md := Respaldo.metadata_de er (Z.of_nat (length (mongo w)))).
  assert (He : estructura "documents" "total_documents"
                 ["collection_name"; "database_name"; "backup_date";
                  "total_documents"]
                 (PDict [("metadata", md); ("documents", PList docs)])
               = Ok (inl (md, PList docs))).
  { apply estructura_ok. split; [reflexivity |]. split; [reflexivity |].
    split; [repeat constructor |].
    exists (Z.of_nat (length docs)), (PInt (Z.of_nat (length (mongo w)))).
    split; [reflexivity |]. split; [reflexivity |].
    cbn [py_eq_int]. subst docs. rewrite !length_map. apply Z.eqb_refl. }
  rewrite He. unfold pbind at 1.
  cbn [py_iter de_res sigue]. unfold pbind at 1.
  assert (Hd : documentos_validos 0 docs = Ok (inl tt)).
  { apply documentos_validos_ok. subst docs. rewrite map_map.
    apply forallb_forall. intros x Hx. apply in_map_iff in Hx.
    destruct Hx as (d & <- & Hin).
    cbn [Respaldo.json_leido es_documento].
    rewrite assoc_get_map_valores.
    rewrite List.Forall_forall in Hid. specialize (Hid d Hin).
    apply id_como_texto_tiene_id in Hid.
    destruct (assoc_get "_id" (Respaldo.id_como_texto d));
      [reflexivity | discriminate Hid]. }
  unfold sigue at 1. rewrite Hd. unfold pbind, sigue, veredicto. cbn [py_len].
  split; [reflexivity |]. cbn [total hash_sha256 tamano_archivo fecha_backup
    Respaldo.total_documentos Respaldo.hash_sha256 Respaldo.tamano_archivo
    Respaldo.fecha_backup sha256_hexdigest getsize].
  subst docs. rewrite !length_map.
  repeat split; reflexivity.
Qed.

Lemma el_backup_creado_es_valido_witness :
  exists a info,
    Respaldo.crear_backup_coleccion respaldo_ejemplo mundo_ejemplo
      = (Ok (a, info), mundo_ejemplo)
    /\ valido (validar_backup_mongo (Some a)) = true
    /\ Respaldo.total_documentos info = 2.
Proof.
  assert (Hid : Forall (fun d => is_Some_bool (assoc_get "_id" d) = true)
                  (mongo mundo_ejemplo)).
  { repeat constructor. }
  destruct (el_backup_creado_es_valido respaldo_ejemplo mundo_ejemplo
              eq_refl eq_refl eq_refl Hid)
    as (a & info & iv & Hc & Hv & Ht & Hi & _).
  exists a, info. split; [exact Hc |].
  rewrite Hv. split; [reflexivity |]. rewrite Hi, Ht. reflexivity.
Defined.

Lemma set_campo_set_campo k v v' (d : doc) :
  set_campo k v (set_campo k v' d) = set_campo k v d.
Proof.
  induction d as [| [k0 v0] d IH]; cbn [set_campo].
  - rewrite String.eqb_refl. reflexivity.
  - destruct (String.eqb k k0) eqn:E; cbn [set_campo].
    + rewrite String.eqb_refl. reflexivity.
    + rewrite E, IH. reflexivity.
Qed.

Lemma set_campo_mismo k v (d : doc) :
  assoc_get k d = Some v -> set_campo k v d = d.
Proof.
  induction d as [| [k0 v0] d IH]; cbn [set_campo assoc_get];
    [discriminate |].
  destruct (String.eqb k k0) eqn:E.
  - intros H. injection H as ->. apply String.eqb_eq in E. subst k0.
    reflexivity.
  - intros H. rewrite (IH H). reflexivity.
Qed.

Lemma preparar_recuperable er d :
  recuperable er d = true ->
  Respaldo.preparar er (Respaldo.json_leido (PDict (Respaldo.id_como_texto d)))
  = Ok (PDict d).
Proof.
  unfold recuperable. intros H. apply andb_true_iff in H as [Hid Hj].
  rewrite (json_leido_es_json _ Hj). clear Hj.
  unfold Respaldo.preparar, id_recuperable, Respaldo.id_como_texto in *.
  destruct (assoc_get "_id" d) as [v |] eqn:E; [| discriminate Hid].
  cbn [py_contains py_getitem]. rewrite assoc_get_set_campo_mismo.
  cbn [is_Some_bool rbind].
  destruct v as [| b | n | f | s | h | l | d'];
    try discriminate Hid; cbn [py_str].
  - destruct (Respaldo.ObjectId er s); [discriminate Hid |].
    rewrite (set_campo_mismo _ _ _ E). reflexivity.
  - destruct (Respaldo.ObjectId er h) as [h' |]; [| discriminate Hid].
    apply String.eqb_eq in Hid. subst h'.
    cbn [Respaldo.py_setitem_id]. rewrite set_campo_set_campo.
    rewrite (set_campo_mismo _ _ _ E). reflexivity.
Qed.

Lemma preparar_todos_recuperables er c :
  Forall (fun d => recuperable er d = true) c ->
  Respaldo.preparar_todos er
    (map Respaldo.json_leido
       (map (fun d => PDict (Respaldo.id_como_texto d)) c))
  = Ok (map PDict c).
Proof.
  induction 1 as [| d c Hd _ IH]; [reflexivity |].
  cbn [map Respaldo.preparar_todos].
  rewrite (preparar_recuperable er d Hd). cbn [rbind].
  rewrite IH. reflexivity.
Qed.

Lemma recuperable_tiene_id er d :
  recuperable er d = true -> is_Some_bool (assoc_get "_id" d) = true.
Proof.
  unfold recuperable, id_recuperable. intros H.
  apply andb_true_iff in H as [H _].
  destruct (assoc_get "_id" d); [reflexivity | discriminate H].
Qed.

Lemma como_documentos_map c :
  Respaldo.como_documentos (map PDict c) = Ok c.
Proof.
  induction c as [| d c IH]; [reflexivity |].
  cbn [map Respaldo.como_documentos]. rewrite IH. reflexivity.
Qed.

Lemma sin_repetir_app previos l1 l2 :
  sin_repetir previos (l1 ++ l2)
  = sin_repetir previos l1 && sin_repetir (previos ++ l1) l2.
Proof.
  revert previos. induction l1 as [| d l1 IH]; intros previos.
  - cbn [app sin_repetir andb]. rewrite app_nil_r. reflexivity.
  - cbn [app sin_repetir]. rewrite IH, <- app_assoc, andb_assoc.
    reflexivity.
Qed.

Lemma insertar_en_orden_ok env docs :
  (forall d, mongo_insert_falla env d = false) ->
  Forall (fun d => is_Some_bool (assoc_get "_id" d) = true) docs ->
  forall w,
    sin_repetir (mongo w) docs = true ->
    exists t,
      Respaldo.insertar_en_orden env docs w
      = (Ok tt, {| mongo := mongo w ++ docs;
                   vectores := vectores w;
                   traza := traza w ++ t |}).
Proof.
  intros Hf Hid. induction Hid as [| d docs Hd _ IH]; intros w Hs.
  - exists []. cbn [Respaldo.insertar_en_orden]. unfold ret.
    rewrite !app_nil_r. destruct w; reflexivity.
  - cbn [sin_repetir] in Hs. apply andb_true_iff in Hs as [Hc Hs].
    cbn [Respaldo.insertar_en_orden]. unfold bind at 1.
    rewrite insert_one_ok by (apply Hf || exact Hc).
    assert (Ha : almacenado env (mongo w) d = d).
    { unfold almacenado. destruct (assoc_get "_id" d);
        [reflexivity | discriminate Hd]. }
    rewrite Ha.
    match goal with
    | |- context [Respaldo.insertar_en_orden env docs ?w1] =>
        destruct (IH w1 Hs) as [t Ht]; rewrite Ht
    end.
    exists (EvMongoInsert :: t). cbn [mongo vectores traza].
    rewrite <- !app_assoc. reflexivity.
Qed.

Lemma Forall_skipn_lista {A} (P : A -> Prop) b (l : list A) :
  Forall P l -> Forall P (skipn b l).
Proof.
  revert l. induction b as [| b IH]; intros l H; [exact H |].
  destruct l as [| x l]; [exact H |].
  cbn [skipn]. apply IH. inversion H; assumption.
Qed.

Lemma Forall_firstn_lista {A} (P : A -> Prop) a (l : list A) :
  Forall P l -> Forall P (firstn a l).
Proof.
  revert l. induction a as [| a IH]; intros l H; [constructor |].
  destruct l as [| x l]; [constructor |].
  cbn [firstn]. inversion H; subst. constructor; [assumption |].
  apply IH. assumption.
Qed.

Lemma Forall_firstn_skipn {A} (P : A -> Prop) a b (l : list A) :
  Forall P l -> Forall P (firstn a (skipn b l)).
Proof.
  intros H. apply Forall_firstn_lista, Forall_skipn_lista, H.
Qed.

Lemma insertar_lotes_ok env c :
  (forall d, mongo_insert_falla env d = false) ->
  Forall (fun d => is_Some_bool (assoc_get "_id" d) = true) c ->
  forall n s w,
    sin_repetir (mongo w) (skipn (s * 100) c) = true ->
    exists t,
      Respaldo.insertar_lotes env (map PDict c) 100 (inicios 100 s n) w
      = (Ok tt, {| mongo := mongo w ++ firstn (n * 100) (skipn (s * 100) c);
                   vectores := vectores w;
                   traza := traza w ++ t |}).
Proof.
  intros Hf Hid. induction n as [| n IH]; intros s w Hs.
  - exists []. cbn [inicios seq map Respaldo.insertar_lotes firstn Nat.mul].
    unfold ret. rewrite !app_nil_r. destruct w; reflexivity.
  - unfold inicios. cbn [seq map]. fold (inicios 100 (S s) n).
    cbn [Respaldo.insertar_lotes]. unfold bind at 1.
    unfold Respaldo.insert_many. unfold bind at 1.
    rewrite entre_lote by lia.
    change (Z.to_nat 100) with 100%nat.
    rewrite List.skipn_map, List.firstn_map, como_documentos_map.
    unfold lift.
    set (X := skipn (s * 100) c) in *.
    rewrite <- (firstn_skipn 100 X) in Hs.
    rewrite sin_repetir_app in Hs. apply andb_true_iff in Hs as [Hs1 Hs2].
    destruct (insertar_en_orden_ok env (firstn 100 X) Hf
                (Forall_firstn_skipn _ 100 (s * 100) c Hid) w Hs1)
      as [t1 Ht1].
    rewrite Ht1.
    match goal with
    | |- context [Respaldo.insertar_lotes env _ 100 _ ?w1] =>
        destruct (IH (S s) w1) as [t2 Ht2]
    end.
    { cbn [mongo]. subst X.
      replace (S s * 100)%nat with (100 + s * 100)%nat by lia.
      rewrite <- skipn_skipn. exact Hs2. }
    rewrite Ht2. exists (t1 ++ t2)%list. cbn [mongo vectores traza].
    f_equal. f_equal.
    + rewrite <- app_assoc. f_equal.
      replace (S n * 100)%nat with (100 + n * 100)%nat by lia.
      rewrite firstn_suma. f_equal. subst X.
      replace (S s * 100)%nat with (100 + s * 100)%nat by lia.
      rewrite <- skipn_skipn. reflexivity.
    + rewrite <- app_assoc. reflexivity.
Qed.

Lemma restaurar_coleccion_pasos env er a backup_data metadata elementos w :
  json_load a = JsonOk backup_data ->
  py_getitem backup_data "metadata" = Ok metadata ->
  py_getitem backup_data "documents" = Ok (PList elementos) ->
  Respaldo.drop_collection_falla er = false ->
  let w0 := {| mongo := []; vectores := vectores w; traza := traza w |} in
  Respaldo.restaurar_coleccion env er (Some a) true w
  = con_registro "restaurar_coleccion"
      (documents_to_insert <-
         lift (Respaldo.preparar_todos er elementos) ;;
       let n := Z.of_nat (length documents_to_insert) in
       inicios <- lift (py_range n 100) ;;
       Respaldo.insertar_lotes env documents_to_insert 100 inicios ;;;
       Respaldo.si_falla (Respaldo.count_documents_falla er)
         "ServerSelectionTimeoutError: count_documents" ;;;
       w' <- leer_mundo ;;
       ret {| Respaldo.total_documentos_restaurados := n;
              Respaldo.total_documentos_en_coleccion :=
                Z.of_nat (length (mongo w'));
              Respaldo.metadata_backup := metadata |}) w0.
Proof.
  intros Hj Hm Hd Hf w0.
  unfold Respaldo.restaurar_coleccion. rewrite Hj.
  unfold con_registro, try_except.
  match goal with
  | |- match ?m1 w with _ => _ end = match ?m2 w0 with _ => _ end =>
      assert (H : m1 w = m2 w0); [| rewrite H; reflexivity]
  end.
  unfold bind at 1. unfold lift at 1.
  rewrite (py_getitem_contains _ _ _ Hm).
  unfold bind at 1. unfold lift at 1.
  rewrite (py_getitem_contains _ _ _ Hd). cbn [negb].
  unfold bind at 1. unfold lift at 1. rewrite Hm.
  unfold bind at 1. unfold lift at 1. rewrite Hd.
  unfold bind at 1. unfold lift at 1. cbn [py_len].
  unfold bind at 1. unfold Respaldo.drop_collection at 1.
  unfold bind at 1. unfold Respaldo.si_falla at 1. rewrite Hf.
  unfold ret at 1. unfold poner_mongo at 1. fold w0.
  unfold bind at 1. unfold lift at 1. cbn [py_iter].
  reflexivity.
Qed.

(** X13: a collection whose records have pairwise distinct [_id]s that
    come back from their text as they were, and otherwise hold plain
    JSON, is restored exactly by [restaurar_coleccion] from the file
    [crear_backup_coleccion] wrote, whatever the collection held at the
    time of the restore; the vector store is not touched. *)
Theorem restaurar_devuelve_lo_respaldado :
  forall env er w w0,
    Respaldo.count_documents_falla er = false ->
    Respaldo.find_falla er = false ->
    Respaldo.open_falla er = false ->
    Respaldo.drop_collection_falla er = false ->
    (forall d, mongo_insert_falla env d = false) ->
    Forall (fun d => recuperable er d = true) (mongo w) ->
    sin_repetir [] (mongo w) = true ->
    exists a info r w1,
      Respaldo.crear_backup_coleccion er w = (Ok (a, info), w)
      /\ Respaldo.restaurar_coleccion env er (Some a) true w0 = (Ok r, w1)
      /\ mongo w1 = mongo w
      /\ vectores w1 = vectores w0
      /\ Respaldo.total_documentos_restaurados r
         = Z.of_nat (length (mongo w))
      /\ Respaldo.total_documentos_en_coleccion r
         = Z.of_nat (length (mongo w)).
Proof.
  intros env er w w0 H1 H2 H3 H4 Hf Hr Hs.
  eexists. eexists.
  assert (Hid : Forall (fun d => is_Some_bool (assoc_get "_id" d) = true)
                  (mongo w)).
  { eapply List.Forall_impl; [| exact Hr]. intros d. apply recuperable_tiene_id. }
  set (c := mongo w) in *.
  pose proof (py_range_positivo (Z.of_nat (length c)) 100
                ltac:(lia) ltac:(lia)) as [Hrange Hcota].
  set (n := Z.to_nat ((Z.of_nat (length c) + 100 - 1) / 100)) in *.
  destruct (insertar_lotes_ok env c Hf Hid n 0
              {| mongo := []; vectores := vectores w0; traza := traza w0 |})
    as [t Ht].
  { cbn [mongo Nat.mul skipn]. exact Hs. }
  cbn [mongo vectores traza Nat.mul skipn app] in Ht.
  assert (Hn : (length c <= n * 100)%nat) by (clearbody n; lia).
  change (skipn 0 c) with c in Ht.
  rewrite firstn_all2 in Ht by exact Hn.
  eexists. eexists.
  split; [apply crear_backup_coleccion_ok; assumption |].
  erewrite restaurar_coleccion_pasos;
    [| reflexivity | rewrite json_leido_volcado; reflexivity
     | rewrite json_leido_volcado; reflexivity | exact H4].
  fold c.
  unfold con_registro, try_except.
  unfold bind at 1. unfold lift at 1.
  rewrite (preparar_todos_recuperables er c Hr).
  rewrite length_map.
  unfold bind at 1. unfold lift at 1.
  change (@length (list (string * pyval)) c) with (@length doc c).
  rewrite Hrange.
  unfold bind at 1. rewrite Ht.
  unfold bind at 1. unfold Respaldo.si_falla. rewrite H1.
  unfold ret at 1. unfold bind, leer_mundo, ret. cbn [mongo].
  split; [reflexivity |]. cbn [mongo vectores].
  repeat split; reflexivity.
Qed.

Lemma restaurar_devuelve_lo_respaldado_witness :
  exists a info r w1,
    Respaldo.crear_backup_coleccion respaldo_ejemplo mundo_ejemplo
      = (Ok (a, info), mundo_ejemplo)
    /\ Respaldo.restaurar_coleccion entorno_ejemplo respaldo_ejemplo
         (Some a) true mundo_con_vector = (Ok r, w1)
    /\ mongo w1 = coleccion_ejemplo
    /\ vectores w1 = vectores mundo_con_vector.
Proof.
  assert (Hr : Forall (fun d => recuperable respaldo_ejemplo d = true)
                 (mongo mundo_ejemplo)).
  { repeat constructor; vm_compute; reflexivity. }
  assert (Hs : sin_repetir [] (mongo mundo_ejemplo) = true).
  { vm_compute. reflexivity. }
  destruct (restaurar_devuelve_lo_respaldado entorno_ejemplo
              respaldo_ejemplo mundo_ejemplo mundo_con_vector
              eq_refl eq_refl eq_refl eq_refl (fun d => eq_refl) Hr Hs)
    as (a & info & r & w1 & Hc & Hres & Hm & Hv & _).
  exists a, info, r, w1. repeat split; assumption.
Defined.

Lemma preparar_todos_escalar er v elementos :
  In v elementos -> es_escalar v = true ->
  exists e, Respaldo.preparar_todos er elementos = Error e.
Proof.
  intros Hin Hv. induction elementos as [| x l IH]; [destruct Hin |].
  cbn [Respaldo.preparar_todos].
  destruct Hin as [-> | Hin].
  - exists no_iterable. destruct v; try discriminate Hv; reflexivity.
  - destruct (Respaldo.preparar er x) as [d | e]; cbn [rbind]; [| eauto].
    destruct (IH Hin) as [e He]. rewrite He. cbn [rbind]. eauto.
Qed.

(** X14: [restaurar_coleccion] drops the collection before it looks at
    the records of the file and never calls [validar_backup]: for a file
    whose list of records holds a number, a boolean or [null], which
    [validar_backup] rejects, it raises and leaves the collection empty,
    whatever it held. *)
Theorem restaurar_vacia_la_coleccion_antes_de_mirar :
  forall env er a backup_data metadata elementos v w,
    json_load a = JsonOk backup_data ->
    py_getitem backup_data "metadata" = Ok metadata ->
    py_getitem backup_data "documents" = Ok (PList elementos) ->
    In v elementos -> es_escalar v = true ->
    Respaldo.drop_collection_falla er = false ->
    valido (validar_backup_mongo (Some a)) = false
    /\ exists e w',
         Respaldo.restaurar_coleccion env er (Some a) true w = (Error e, w')
         /\ mongo w' = []
         /\ vectores w' = vectores w.
Proof.
  intros env er a bd md elementos v w Hj Hm Hd Hin Hv Hf. split.
  - destruct (valido (validar_backup_mongo (Some a))) eqn:E; [| reflexivity].
    exfalso. apply validar_backup_mongo_valido in E.
    destruct E as (a' & bd' & md' & ds & docs & Ha & Hj' & He & Hi & Hall).
    injection Ha as <-. rewrite Hj in Hj'. injection Hj' as <-.
    destruct He as (_ & Hd' & _). rewrite Hd in Hd'. injection Hd' as <-.
    cbn [py_iter] in Hi. injection Hi as <-.
    rewrite forallb_forall in Hall. specialize (Hall v Hin).
    destruct v; discriminate.
  - rewrite (restaurar_coleccion_pasos env er a bd md elementos w Hj Hm Hd Hf).
    destruct (preparar_todos_escalar er v elementos Hin Hv) as [e He].
    exists e. eexists.
    unfold con_registro, try_except. unfold bind at 1. unfold lift at 1.
    rewrite He. unfold bind, registrar, raise. cbn [mongo vectores traza].
    split; [reflexivity |]. split; reflexivity.
Qed.

Lemma restaurar_vacia_la_coleccion_antes_de_mirar_witness :
  valido (validar_backup_mongo (Some archivo_con_un_numero)) = false
  /\ exists e w',
       Respaldo.restaurar_coleccion entorno_ejemplo respaldo_ejemplo
         (Some archivo_con_un_numero) true mundo_ejemplo = (Error e, w')
       /\ mongo w' = []
       /\ vectores w' = vectores mundo_ejemplo.
Proof.
  apply (restaurar_vacia_la_coleccion_antes_de_mirar entorno_ejemplo
           respaldo_ejemplo archivo_con_un_numero _ _ _ (PInt 7)
           mundo_ejemplo eq_refl eq_refl eq_refl).
  - right. left. reflexivity.
  - reflexivity.
  - reflexivity.
Defined.

(** ** The dates of a search result *)

Lemma app_cons c (a b : string) :
  String.append (String c a) b = String c (String.append a b).
Proof. reflexivity. Qed.

Lemma todos_app p (a b : string) :
  todos p (String.append a b) = todos p a && todos p b.
Proof.
  induction a as [| c a IH]; [reflexivity |].
  rewrite app_cons. cbn [todos]. rewrite IH, andb_assoc. reflexivity.
Qed.

Lemma todos_impl (p q : ascii -> bool) s :
  (forall c, p c = true -> q c = true) ->
  todos p s = true -> todos q s = true.
Proof.
  intros Hpq. induction s as [| c s IH]; [reflexivity |].
  cbn [todos]. intros H. apply andb_true_iff in H as [H1 H2].
  rewrite (Hpq c H1), (IH H2). reflexivity.
Qed.

Lemma py_split_sin sep a :
  todos (fun c => negb (Ascii.eqb c sep)) a = true ->
  py_split sep a = [a].
Proof.
  induction a as [| c a IH]; [reflexivity |].
  cbn [todos py_split]. intros H. apply andb_true_iff in H as [H1 H2].
  apply negb_true_iff in H1. rewrite H1, (IH H2). reflexivity.
Qed.

Lemma py_split_app sep a b :
  todos (fun c => negb (Ascii.eqb c sep)) a = true ->
  py_split sep (String.append a (String sep b)) = a :: py_split sep b.
Proof.
  induction a as [| c a IH].
  - intros _. change (String.append "" (String sep b)) with (String sep b).
    cbn [py_split]. rewrite Ascii.eqb_refl. reflexivity.
  - cbn [todos]. intros H. apply andb_true_iff in H as [H1 H2].
    apply negb_true_iff in H1. rewrite app_cons. cbn [py_split].
    rewrite H1, (IH H2). reflexivity.
Qed.

Lemma py_split_espacios_espacio c r :
  es_espacio c = true ->
  py_split_espacios (String c r) = py_split_espacios r.
Proof. intros H. cbn [py_split_espacios]. rewrite H. reflexivity. Qed.

Lemma py_split_espacios_palabra t :
  todos (fun c => negb (es_espacio c)) t = true -> t <> "" ->
  py_split_espacios t = [t].
Proof.
  induction t as [| x t IH]; [congruence |].
  cbn [todos]. intros H _. apply andb_true_iff in H as [H1 H2].
  apply negb_true_iff in H1. cbn [py_split_espacios]. rewrite H1.
  destruct t as [| y t]; [reflexivity |].
  assert (Hy : es_espacio y = false).
  { cbn [todos] in H2. apply andb_true_iff in H2 as [H2 _].
    apply negb_true_iff in H2. exact H2. }
  rewrite Hy. rewrite (IH H2) by discriminate. reflexivity.
Qed.

Lemma py_split_espacios_app t c r :
  todos (fun c => negb (es_espacio c)) t = true -> t <> "" ->
  es_espacio c = true ->
  py_split_espacios (String.append t (String c r))
  = t :: py_split_espacios r.
Proof.
  intros Ht Hne Hc. induction t as [| x t IH]; [congruence |].
  cbn [todos] in Ht. apply andb_true_iff in Ht as [H1 H2].
  apply negb_true_iff in H1. rewrite app_cons.
  cbn [py_split_espacios]. rewrite H1.
  destruct t as [| y t].
  - change (String.append "" (String c r)) with (String c r).
    cbv beta iota. rewrite Hc.
    rewrite py_split_espacios_espacio by exact Hc. reflexivity.
  - rewrite app_cons. cbv beta iota.
    assert (Hy : es_espacio y = false).
    { cbn [todos] in H2. apply andb_true_iff in H2 as [H2' _].
      apply negb_true_iff in H2'. exact H2'. }
    rewrite Hy. rewrite <- app_cons. rewrite (IH H2) by discriminate.
    reflexivity.
Qed.

Lemma str_in_caracter c (a b : string) :
  str_in (String c "") (String.append a (String c b)) = true.
Proof.
  unfold str_in. cbn [list_ascii_of_string].
  induction a as [| x a IH].
  - change (String.append "" (String c b)) with (String c b).
    cbn [list_ascii_of_string is_infix is_prefix].
    rewrite Ascii.eqb_refl. reflexivity.
  - rewrite app_cons. cbn [list_ascii_of_string is_infix].
    rewrite IH. apply orb_true_r.
Qed.

Lemma app_no_vacia (a b : string) c :
  String.eqb (String.append a (String c b)) "" = false.
Proof. destruct a; reflexivity. Qed.

Lemma simple_sin_barra s :
  campo_simple s = true ->
  todos (fun c => negb (Ascii.eqb c barra)) s = true.
Proof.
  apply todos_impl. intros c H. unfold caracter_simple in H.
  repeat (apply andb_true_iff in H as [H ?]). assumption.
Qed.

Lemma simple_sin_dos_puntos s :
  campo_simple s = true ->
  todos (fun c => negb (Ascii.eqb c dos_puntos)) s = true.
Proof.
  apply todos_impl. intros c H. unfold caracter_simple in H.
  repeat (apply andb_true_iff in H as [H ?]). assumption.
Qed.

Lemma simple_sin_espacio s :
  campo_simple s = true ->
  todos (fun c => negb (es_espacio c)) s = true.
Proof.
  apply todos_impl. intros c H. unfold caracter_simple in H.
  repeat (apply andb_true_iff in H as [H ?]). assumption.
Qed.

Lemma fecha_ida_y_vuelta clave payload dia mes anio hora minuto :
  assoc_get clave payload
  = Some (PStr (dia ++ "/" ++ mes ++ "/" ++ anio ++ " " ++ hora ++ ":"
                  ++ minuto)%string) ->
  campo_simple dia = true -> campo_simple mes = true ->
  campo_simple anio = true -> campo_simple hora = true ->
  campo_simple minuto = true -> anio <> "" ->
  fechas_de_payload clave payload = Ok (dia, mes, anio, hora, minuto).
Proof.
  intros Hp Hd Hm Ha Hh Hmi Hne.
  unfold fechas_de_payload. rewrite Hp. cbn [py_truthy].
  change (dia ++ "/" ++ mes ++ "/" ++ anio ++ " " ++ hora ++ ":" ++ minuto)%string
    with (String.append dia (String barra
            (String.append mes (String barra
               (String.append anio (String " "
                  (String.append hora (String dos_puntos minuto)))))))).
  rewrite app_no_vacia. cbn [negb].
  set (hm := String.append hora (String dos_puntos minuto)).
  set (resto := String.append anio (String " " hm)).
  assert (Hhm_b : todos (fun c => negb (Ascii.eqb c barra)) hm = true).
  { subst hm. rewrite todos_app. cbn [todos].
    rewrite (simple_sin_barra _ Hh), (simple_sin_barra _ Hmi). reflexivity. }
  assert (Hhm_e : todos (fun c => negb (es_espacio c)) hm = true).
  { subst hm. rewrite todos_app. cbn [todos].
    rewrite (simple_sin_espacio _ Hh), (simple_sin_espacio _ Hmi).
    reflexivity. }
  assert (Hhm_ne : hm <> "").
  { subst hm. destruct hora; discriminate. }
  assert (Hresto_b : todos (fun c => negb (Ascii.eqb c barra)) resto = true).
  { subst resto. rewrite todos_app. cbn [todos].
    rewrite (simple_sin_barra _ Ha), Hhm_b. reflexivity. }
  rewrite (py_split_app barra dia _ (simple_sin_barra _ Hd)).
  rewrite (py_split_app barra mes _ (simple_sin_barra _ Hm)).
  rewrite (py_split_sin barra resto Hresto_b).
  change (String "/" "") with (String barra "").
  rewrite str_in_caracter.
  cbn [py_item nth_error rbind].
  subst resto.
  rewrite (py_split_espacios_app anio " " hm (simple_sin_espacio _ Ha) Hne
             eq_refl).
  rewrite (py_split_espacios_palabra hm Hhm_e Hhm_ne).
  cbn [py_item nth_error rbind].
  set (fecha := String.append dia (String barra
                  (String.append mes (String barra anio)))).
  assert (Hs : String.append dia (String barra
                 (String.append mes (String barra
                    (String.append anio (String " " hm)))))
               = String.append fecha (String " " hm)).
  { subst fecha. rewrite !str_app_assoc.
    rewrite !app_cons, !str_app_assoc, !app_cons. reflexivity. }
  rewrite Hs.
  rewrite str_in_caracter.
  assert (Hf_e : todos (fun c => negb (es_espacio c)) fecha = true).
  { subst fecha. rewrite todos_app. cbn [todos]. rewrite todos_app.
    cbn [todos].
    rewrite (simple_sin_espacio _ Hd), (simple_sin_espacio _ Hm),
      (simple_sin_espacio _ Ha). reflexivity. }
  assert (Hf_ne : fecha <> "").
  { subst fecha. destruct dia; discriminate. }
  rewrite (py_split_espacios_app fecha " " hm Hf_e Hf_ne eq_refl).
  rewrite (py_split_espacios_palabra hm Hhm_e Hhm_ne).
  cbn [py_item nth_error rbind].
  subst hm.
  rewrite (py_split_app dos_puntos hora _ (simple_sin_dos_puntos _ Hh)).
  rewrite (py_split_sin dos_puntos minuto (simple_sin_dos_puntos _ Hmi)).
  reflexivity.
Qed.

(** X15: the dates of a stored document come back from its payload:
    when no date field holds a slash, a colon or white space and the
    years are not empty (numbers written in decimal, as the extractor
    writes them), the five creation fields and the five processing fields
    that [buscar_semanticamente] rebuilds from the payload of
    [insertar_vector] are those of the document. *)
Theorem las_fechas_vuelven_del_payload :
  forall d emb t,
    fechas_simples d = true ->
    fechas_de_payload "fecha_creacion" (payload_insertar d emb t)
    = Ok (fecha_creacion_dia d, fecha_creacion_mes d,
          fecha_creacion_anio d, fecha_creacion_hora d,
          fecha_creacion_minuto d)
    /\ fechas_de_payload "fecha_procesamiento" (payload_insertar d emb t)
       = Ok (fecha_procesamiento_dia d, fecha_procesamiento_mes d,
             fecha_procesamiento_anio d, fecha_procesamiento_hora d,
             fecha_procesamiento_minuto d).
Proof.
  intros d emb t H. unfold fechas_simples in H.
  repeat (apply andb_true_iff in H as [H ?]).
  assert (Hne : forall s, str_truthy s = true -> s <> "").
  { intros s Hs ->. discriminate Hs. }
  split; apply fecha_ida_y_vuelta; try assumption;
    try (apply Hne; assumption); reflexivity.
Qed.

Lemma las_fechas_vuelven_del_payload_witness :
  fechas_de_payload "fecha_creacion"
    (payload_insertar documento_ejemplo embedding_ejemplo "playa")
  = Ok ("01", "02", "2024", "10", "30").
Proof.
  exact (proj1 (las_fechas_vuelven_del_payload documento_ejemplo
                  embedding_ejemplo "playa" eq_refl)).
Defined.

(** ** The filter of [buscar_similares] *)

Lemma condiciones_sin_condicion filtros :
  Filtros.condiciones filtros = Ok []
  <-> Forall (fun kv => sin_condicion (snd kv) = true) filtros.
Proof.
  induction filtros as [| [campo valor] resto IH].
  - split; [constructor | reflexivity].
  - cbn [Filtros.condiciones]. split.
    + intros H.
      destruct valor as [| b | n | f | s | h | l | d];
        cbn [rbind Filtros.MatchValue] in H;
        try (destruct (Filtros.condiciones resto) as [cs' |] eqn:E;
             cbn [rbind app] in H; try discriminate H;
             injection H as ->;
             constructor; [reflexivity | apply IH; reflexivity]).
      * destruct (Filtros.condiciones resto); cbn [rbind app] in H;
          discriminate H.
      * destruct l as [| x l].
        -- cbn [Filtros.condiciones_de_lista rbind] in H.
           destruct (Filtros.condiciones resto) as [cs' |] eqn:E;
             cbn [rbind app] in H; try discriminate H.
           injection H as ->.
           constructor; [reflexivity | apply IH; reflexivity].
        -- exfalso. cbn [Filtros.condiciones_de_lista] in H.
           destruct (Filtros.MatchValue x); cbn [rbind] in H;
             [| discriminate H].
           destruct (Filtros.condiciones_de_lista campo l);
             cbn [rbind] in H; [| discriminate H].
           destruct (Filtros.condiciones resto); cbn [rbind app] in H;
             discriminate H.
    + intros H. inversion H as [| kv r Hv Hr]; subst.
      apply IH in Hr. rewrite Hr. cbn [snd] in Hv.
      destruct valor as [| b | n | f | s | h | [| x l] | d];
        try discriminate Hv; reflexivity.
Qed.

(** X16: [buscar_similares] searches without a filter exactly when no
    value of [filtros] is a string or a list with an item (and building
    the conditions did not raise): values such as a boolean or a number
    give no condition, so a filter made only of them is ignored. *)
Theorem filtro_sin_texto_se_ignora :
  forall filtros,
    Filtros.qdrant_filter (Some filtros) = Ok None
    <-> Forall (fun kv => sin_condicion (snd kv) = true) filtros.
Proof.
  intros filtros. destruct filtros as [| f fs].
  - split; [constructor | reflexivity].
  - unfold Filtros.qdrant_filter.
    rewrite <- condiciones_sin_condicion.
    destruct (Filtros.condiciones (f :: fs)) as [[| c cs] | e];
      cbn [rbind]; split; intros H; try reflexivity; discriminate H.
Qed.

(** ** A run in which nothing fails *)

Lemma corrida_sin_callback env bs docs w :
  0 < bs -> docs <> [] ->
  procesar_coleccion_completa env bs (Ok docs) None w
  = (Ok (resultado_completado
           {| documentos_procesados := Z.of_nat (length docs);
              documentos_exitosos := exitos env docs;
              documentos_errores := fallos env docs |}),
     procesar_registros env docs w).
Proof.
  intros Hpos Hne.
  unfold procesar_coleccion_completa, con_registro, try_except.
  unfold bind at 1. unfold lift at 1.
  destruct (Z.of_nat (length docs) =? 0) eqn:E0.
  { apply Z.eqb_eq in E0. destruct docs; [congruence |].
    cbn [length] in E0. lia. }
  destruct (py_range_positivo (Z.of_nat (length docs)) bs Hpos ltac:(lia))
    as [Hr Hn].
  set (n := Z.to_nat ((Z.of_nat (length docs) + bs - 1) / bs)) in *.
  unfold bind at 1. rewrite Hr. unfold lift.
  pose proof (bucle_lotes_sin_senal env (fun _ => false) docs bs Hpos
                ltac:(reflexivity) n 0%nat
                {| documentos_procesados := 0; documentos_exitosos := 0;
                   documentos_errores := 0 |} w) as HL.
  cbn zeta in HL. rewrite Nat.mul_0_l in HL.
  change (skipn 0 docs) with docs in HL.
  rewrite firstn_all2 in HL.
  2:{ apply Nat2Z.inj_le. rewrite Nat2Z.inj_mul, (Z2Nat.id bs) by lia. lia. }
  rewrite HL. reflexivity.
Qed.

Lemma procesar_registros_cons env d l w :
  procesar_registros env (d :: l) w
  = procesar_registros env l (paso_registro env d w).
Proof. reflexivity. Qed.

Lemma procesar_registros_inv (Q : Mundo -> Prop) env docs :
  (forall d w, In d docs -> Q w -> Q (paso_registro env d w)) ->
  forall w, Q w -> Q (procesar_registros env docs w).
Proof.
  induction docs as [| d docs IH]; intros Hpaso w Hw; [exact Hw |].
  rewrite procesar_registros_cons. apply IH.
  - intros d' w' Hin. apply Hpaso. right. exact Hin.
  - apply Hpaso; [left; reflexivity | exact Hw].
Qed.

Lemma paso_fiable env d k n w :
  entorno_fiable env ->
  id_hash d = Some k ->
  id_numerico_insertar k = Ok n ->
  exists emb p,
    mongo (paso_registro env d w)
    = update_first (id d) [("qdrant", PBool true)]
        (update_first (Some k) (campos_embedding emb (crear_texto env d))
           (mongo w))
    /\ vectores (paso_registro env d w) = <[n := p]> (vectores w).
Proof.
  intros (He & Hm & Hr & Hu) Hk Hn.
  unfold paso_registro. rewrite procesar_uno_forma. cbn [snd].
  specialize (He (crear_texto env d)).
  destruct (embed_query env (crear_texto env d)) as [emb |] eqn:Ee;
    [| discriminate He].
  rewrite (procesar_documento_hasta_qdrant env d None emb w
             no_cancela_None Ee (Hm _ _)).
  set (w1 := tras_mongo (id_hash d) emb (crear_texto env d) w).
  exists emb.
  destruct (vectores w1 !! n) as [p0 |] eqn:Ev.
  - rewrite (guardar_en_qdrant_actualiza env d k n p0 emb _ w1 Hk Hn Ev
               (Hr n) (Hu n)).
    cbn [snd cerrar_turno]. rewrite update_one_ok by apply Hm.
    eexists. unfold anotar, w1, tras_mongo. cbn [mongo vectores].
    rewrite Hk. split; reflexivity.
  - rewrite (guardar_en_qdrant_inserta env d k n emb _ w1 Hk Hn Ev
               (Hr n) (Hu n)).
    cbn [snd cerrar_turno]. rewrite update_one_ok by apply Hm.
    eexists. unfold anotar, w1, tras_mongo. cbn [mongo vectores].
    rewrite Hk. split; reflexivity.
Qed.

Lemma marcado_update_first f f' campos c :
  existsb (String.eqb "_id") (map fst campos) = false ->
  (forall x, assoc_get "qdrant" x = Some (PBool true) ->
             assoc_get "qdrant" (set_campos campos x) = Some (PBool true)) ->
  marcado f c -> marcado f (update_first f' campos c).
Proof.
  intros Hid Hq. unfold marcado.
  induction c as [| d0 c IH]; intros Hc x; [discriminate |].
  pose proof (Hc d0) as H0. cbn [List.find] in H0.
  assert (Hcola : coincide_id f d0 = false ->
                  forall y, List.find (coincide_id f) c = Some y ->
                            assoc_get "qdrant" y = Some (PBool true)).
  { intros E y Hy. apply Hc. cbn [List.find]. rewrite E. exact Hy. }
  cbn [update_first].
  destruct (coincide_id f' d0) eqn:E'; cbn [List.find].
  - rewrite coincide_id_set_campos by exact Hid.
    destruct (coincide_id f d0) eqn:E.
    + intros H. injection H as <-. apply Hq, H0. reflexivity.
    + apply Hcola. reflexivity.
  - destruct (coincide_id f d0) eqn:E.
    + intros H. injection H as <-. apply H0. reflexivity.
    + apply IH, Hcola. reflexivity.
Qed.

Lemma marcado_tras_marcar f c :
  marcado f (update_first f [("qdrant", PBool true)] c).
Proof.
  intros x Hx. rewrite find_update_first in Hx by reflexivity.
  destruct (List.find (coincide_id f) c) as [x0 |]; [| discriminate Hx].
  cbn [option_map] in Hx. injection Hx as <-.
  unfold set_campos. cbn [fold_left fst snd].
  apply assoc_get_set_campo_mismo.
Qed.

Lemma marcado_paso env d d' k n w :
  entorno_fiable env ->
  id_hash d' = Some k -> id_numerico_insertar k = Ok n ->
  marcado (id d) (mongo w) ->
  marcado (id d) (mongo (paso_registro env d' w)).
Proof.
  intros He Hk Hn Hm.
  destruct (paso_fiable env d' k n w He Hk Hn) as (emb & p & -> & _).
  apply marcado_update_first; [reflexivity | |].
  - intros x _. unfold set_campos. cbn [fold_left fst snd].
    apply assoc_get_set_campo_mismo.
  - apply marcado_update_first; [reflexivity | | exact Hm].
    intros x Hx. rewrite assoc_get_set_campos by reflexivity. exact Hx.
Qed.

Lemma marcado_no_candidato f c x :
  marcado f c -> List.find (coincide_id f) c = Some x ->
  sin_procesar x = false.
Proof.
  intros Hm Hx. specialize (Hm x Hx).
  unfold sin_procesar, no_existe, campo_es. rewrite Hm.
  cbn [is_Some_bool negb es_bool Bool.eqb orb]. apply andb_false_r.
Qed.

(** X17: in a run without callback in which nothing fails and every
    candidate has its [id_hash], all the candidates are counted as
    succeeded, and afterwards each of them has a point in Qdrant under
    its numeric id and the record the batch addressed by its [_id]
    carries [qdrant: True], so that the query for candidates no longer
    selects it. *)
Theorem una_corrida_fiable_deja_todo_indexado :
  forall env batch_size docs w,
    entorno_fiable env -> 0 < batch_size -> docs <> [] ->
    Forall (fun d => is_Some_bool (id_hash d) = true) docs ->
    let r := procesar_coleccion_completa env batch_size (Ok docs) None w in
    fst r
    = Ok (resultado_completado
            {| documentos_procesados := Z.of_nat (length docs);
               documentos_exitosos := Z.of_nat (length docs);
               documentos_errores := 0 |})
    /\ forall d, In d docs ->
         (forall k n, id_hash d = Some k -> id_numerico_insertar k = Ok n ->
                      is_Some (vectores (snd r) !! n))
         /\ (forall x,
               List.find (coincide_id (id d)) (mongo (snd r)) = Some x ->
               assoc_get "qdrant" x = Some (PBool true)
               /\ sin_procesar x = false).
Proof.
  intros env bs docs w He Hpos Hne Hid r. subst r.
  rewrite (corrida_sin_callback env bs docs w Hpos Hne). cbn [fst snd].
  assert (Hclave : forall d, In d docs ->
            exists k n, id_hash d = Some k /\ id_numerico_insertar k = Ok n).
  { intros d Hin. rewrite List.Forall_forall in Hid. specialize (Hid d Hin).
    destruct (id_hash d) as [k |]; [| discriminate Hid].
    destruct (ids_de_una_clave k) as (a & r & Ha & _).
    exists k, a. split; [reflexivity | exact Ha]. }
  split.
  - assert (Hp : forallb (procesable env) docs = true).
    { apply forallb_forall. intros d _. unfold procesable.
      destruct He as (He1 & He2 & _). rewrite He1, He2. reflexivity. }
    destruct (exitos_todos env docs Hp) as [-> ->]. reflexivity.
  - intros d Hin.
    destruct (in_split d docs Hin) as (l1 & l2 & Hd).
    assert (Hl2 : forall d', In d' l2 -> In d' docs).
    { intros d' H'. rewrite Hd. apply in_or_app. right. right. exact H'. }
    rewrite Hd, procesar_registros_app, procesar_registros_cons.
    set (w1 := procesar_registros env l1 w).
    destruct (Hclave d Hin) as (k & n & Hk & Hn).
    destruct (paso_fiable env d k n w1 He Hk Hn) as (emb & p & Hmo & Hve).
    split.
    + intros k' n' Hk' Hn'. rewrite Hk in Hk'. injection Hk' as <-.
      rewrite Hn in Hn'. injection Hn' as <-.
      apply (procesar_registros_inv
               (fun w' => is_Some (vectores w' !! n)) env l2).
      * intros d' w' Hin' Hw'.
        destruct (Hclave d' (Hl2 d' Hin')) as (k' & n' & Hk' & Hn').
        destruct (paso_fiable env d' k' n' w' He Hk' Hn')
          as (emb' & p' & _ & ->).
        destruct (decide (n' = n)) as [-> | Hdif].
        -- rewrite lookup_insert_eq. eauto.
        -- rewrite lookup_insert_ne by exact Hdif. exact Hw'.
      * rewrite Hve, lookup_insert_eq. eauto.
    + assert (Hm : marcado (id d)
                     (mongo (procesar_registros env l2
                               (paso_registro env d w1)))).
      { apply (procesar_registros_inv
                 (fun w' => marcado (id d) (mongo w')) env l2).
        - intros d' w' Hin' Hw'.
          destruct (Hclave d' (Hl2 d' Hin')) as (k' & n' & Hk' & Hn').
          apply (marcado_paso env d d' k' n' w' He Hk' Hn' Hw').
        - rewrite Hmo. apply marcado_tras_marcar. }
      intros x Hx. split; [apply Hm, Hx |].
      apply (marcado_no_candidato _ _ _ Hm Hx).
Qed.

Lemma una_corrida_fiable_deja_todo_indexado_witness :
  let r := procesar_coleccion_completa entorno_ejemplo 2
             (Ok candidatos_ejemplo) None mundo_ejemplo in
  fst r
  = Ok {| total_procesados := 3; total_exitosos := 3; total_errores := 0;
          cancelado := None; mensaje := ProcesamientoCompletado 3 0 |}
  /\ is_Some (vectores (snd r) !! 4195510762).
Proof.
  intros r.
  assert (He : entorno_fiable entorno_ejemplo).
  { repeat split. }
  assert (Hid : Forall (fun d => is_Some_bool (id_hash d) = true)
                  candidatos_ejemplo).
  { repeat constructor. }
  destruct (una_corrida_fiable_deja_todo_indexado entorno_ejemplo 2
              candidatos_ejemplo mundo_ejemplo He ltac:(lia)
              ltac:(discriminate) Hid) as [H1 H2].
  fold r in H1, H2. split; [exact H1 |].
  apply (proj1 (H2 documento_ejemplo (or_introl eq_refl)) clave_ejemplo).
  - reflexivity.
  - vm_compute. reflexivity.
Defined.

(** ** Backup of the Qdrant collection *)

Lemma insertar_punto_perm x l :
  Permutation (RespaldoQdrant.insertar_punto x l) (x :: l).
Proof.
  induction l as [| y l IH]; cbn [RespaldoQdrant.insertar_punto];
    [reflexivity |].
  destruct (fst x <? fst y); [reflexivity |].
  rewrite IH. apply perm_swap.
Qed.

Lemma puntos_ordenados_perm q :
  Permutation (RespaldoQdrant.puntos_ordenados q) (map_to_list q).
Proof.
  unfold RespaldoQdrant.puntos_ordenados.
  induction (map_to_list q) as [| x l IH]; [reflexivity |].
  cbn [fold_right]. rewrite insertar_punto_perm, IH. reflexivity.
Qed.

Lemma insertar_punto_ordenado x l :
  StronglySorted (fun a b : Z * Punto => fst a < fst b) l ->
  ~ In (fst x) (map fst l) ->
  StronglySorted (fun a b : Z * Punto => fst a < fst b)
    (RespaldoQdrant.insertar_punto x l).
Proof.
  intros Hs Hn. induction Hs as [| y l Hs IH Hy];
    cbn [RespaldoQdrant.insertar_punto].
  - constructor; constructor.
  - destruct (fst x <? fst y) eqn:E.
    + apply Z.ltb_lt in E. constructor; [constructor; assumption |].
      constructor; [exact E |].
      eapply List.Forall_impl; [| exact Hy]. cbn beta. intros a Ha. lia.
    + apply Z.ltb_ge in E.
      assert (Hne : fst x <> fst y).
      { intros Heq. apply Hn. left. symmetry. exact Heq. }
      constructor.
      * apply IH. intros Hin. apply Hn. right. exact Hin.
      * apply List.Forall_forall. intros a Ha.
        apply (Permutation_in _ (insertar_punto_perm x l)) in Ha.
        destruct Ha as [<- | Ha]; [lia |].
        rewrite List.Forall_forall in Hy. apply Hy, Ha.
Qed.

Lemma puntos_ordenados_ordenado q :
  StronglySorted (fun a b : Z * Punto => fst a < fst b)
    (RespaldoQdrant.puntos_ordenados q).
Proof.
  unfold RespaldoQdrant.puntos_ordenados.
  pose proof (NoDup_fst_map_to_list q) as Hnd.
  apply NoDup_ListNoDup in Hnd.
  induction (map_to_list q) as [| x l IH]; [constructor |].
  cbn [fold_right]. cbn [map] in Hnd. inversion Hnd as [| k ks Hk Hks]; subst.
  apply insertar_punto_ordenado; [apply IH, Hks |].
  intros Hin. apply Hk.
  apply in_map_iff in Hin. destruct Hin as (a & Ha & Hin).
  apply in_map_iff. exists a. split; [exact Ha |].
  clear -Hin. induction l as [| y l IHl]; [destruct Hin |].
  cbn [fold_right] in Hin.
  apply (Permutation_in _ (insertar_punto_perm y _)) in Hin.
  destruct Hin as [<- | Hin]; [left; reflexivity | right; apply IHl, Hin].
Qed.

Lemma desde_el_siguiente o p (A B : list (Z * Punto)) :
  StronglySorted (fun a b : Z * Punto => fst a < fst b) (A ++ (o, p) :: B) ->
  RespaldoQdrant.desde (Some o) (A ++ (o, p) :: B) = (o, p) :: B.
Proof.
  unfold RespaldoQdrant.desde.
  induction A as [| a A IH]; intros Hs.
  - cbn [app] in *. inversion Hs as [| x l Hl Hx]; subst.
    cbn [List.filter fst]. rewrite Z.leb_refl. f_equal.
    clear -Hx. induction Hx as [| b B Hb _ IH]; [reflexivity |].
    cbn [List.filter]. cbn [fst] in Hb.
    destruct (o <=? fst b) eqn:E; [rewrite IH; reflexivity |].
    apply Z.leb_gt in E. lia.
  - cbn [app] in *. inversion Hs as [| x l Hl Hx]; subst.
    cbn [List.filter].
    assert (Ha : fst a < o).
    { rewrite List.Forall_forall in Hx.
      apply (Hx (o, p)). apply in_or_app. right. left. reflexivity. }
    destruct (o <=? fst a) eqn:E; [apply Z.leb_le in E; lia |].
    apply IH, Hl.
Qed.

Lemma nth_error_skipn_cabeza {A} (l : list A) n x :
  nth_error l n = Some x -> exists r, skipn n l = x :: r.
Proof.
  revert l. induction n as [| n IH]; intros [| y l] H; try discriminate H.
  - injection H as ->. exists l. reflexivity.
  - cbn [skipn]. apply IH, H.
Qed.

Lemma bucle_scroll_completo er w turnos :
  RespaldoQdrant.scroll_falla er = false ->
  forall offset acc,
    let L := RespaldoQdrant.puntos_ordenados (vectores w) in
    (acc ++ RespaldoQdrant.desde offset L)%list = L ->
    (length (RespaldoQdrant.desde offset L) < turnos)%nat ->
    RespaldoQdrant.bucle_scroll er turnos offset acc w = (Ok (Some L), w).
Proof.
  intros Hf. induction turnos as [| turnos IH]; intros offset acc L Hinv Hlen;
    [lia |].
  cbn [RespaldoQdrant.bucle_scroll]. unfold bind at 1.
  unfold RespaldoQdrant.scroll, Respaldo.si_falla, bind, leer_mundo, ret.
  rewrite Hf. cbn [fst snd]. fold L.
  set (D := RespaldoQdrant.desde offset L) in *.
  destruct D as [| d0 D0] eqn:ED.
  - cbn [firstn]. rewrite app_nil_r in Hinv. rewrite Hinv. reflexivity.
  - change (firstn 1000 (d0 :: D0)) with (d0 :: firstn 999 D0).
    cbv beta iota.
    destruct (nth_error (d0 :: D0) 1000) as [[o p] |] eqn:En;
      cbn [option_map fst].
    + destruct (nth_error_skipn_cabeza _ _ _ En) as [r Hr].
      assert (HL : L = ((acc ++ firstn 1000 (d0 :: D0)) ++ (o, p) :: r)%list).
      { rewrite <- Hr, <- app_assoc, firstn_skipn. symmetry. exact Hinv. }
      assert (Hd : RespaldoQdrant.desde (Some o) L = (o, p) :: r).
      { rewrite HL. apply desde_el_siguiente. rewrite <- HL.
        apply puntos_ordenados_ordenado. }
      change (d0 :: firstn 999 D0) with (firstn 1000 (d0 :: D0)).
      apply IH.
      * fold L. rewrite Hd. symmetry. exact HL.
      * fold L. rewrite Hd, <- Hr, length_skipn.
        assert (length (d0 :: D0) > 1000)%nat.
        { apply nth_error_Some. rewrite En. discriminate. }
        lia.
    + apply nth_error_None in En.
      change (d0 :: firstn 999 D0) with (firstn 1000 (d0 :: D0)).
      rewrite firstn_all2 by exact En. rewrite Hinv. reflexivity.
Qed.

Lemma es_json_PFloats l : es_json (PFloats l) = true.
Proof.
  unfold PFloats. cbn [es_json].
  induction l as [| x l IH]; [reflexivity |]. cbn [map forallb es_json].
  exact IH.
Qed.

(** X18: given turns enough for its loop (more than there are points),
    [crear_backup_coleccion] of Qdrant ends, and the file it writes lists
    every point of the collection exactly once, in the order of the ids,
    declares their number, and is a file [validar_backup] accepts; no
    call failing and the payloads holding plain JSON. *)
Theorem el_backup_de_qdrant_tiene_cada_punto :
  forall er w turnos,
    RespaldoQdrant.get_collection_falla er = false ->
    RespaldoQdrant.scroll_falla er = false ->
    RespaldoQdrant.open_falla er = false ->
    (size (vectores w) < turnos)%nat ->
    map_Forall (fun _ p => es_json (PDict (payload p)) = true) (vectores w) ->
    exists a info puntos,
      RespaldoQdrant.crear_backup_coleccion er turnos w
      = (Ok (Some (a, info)), w)
      /\ json_load a = JsonOk (RespaldoQdrant.backup_data_de er puntos)
      /\ Permutation puntos (map_to_list (vectores w))
      /\ StronglySorted (fun a b : Z * Punto => fst a < fst b) puntos
      /\ RespaldoQdrant.total_vectores info = Z.of_nat (size (vectores w))
      /\ valido (validar_backup_qdrant (Some a)) = true.
Proof.
  intros er w turnos H1 H2 H3 Hsize Hjson.
  set (L := RespaldoQdrant.puntos_ordenados (vectores w)).
  assert (Hperm : Permutation L (map_to_list (vectores w)))
    by apply puntos_ordenados_perm.
  assert (Hlen : length L = size (vectores w)).
  { rewrite (Permutation_length Hperm). apply length_map_to_list. }
  eexists. eexists. exists L.
  split.
  - unfold RespaldoQdrant.crear_backup_coleccion, con_registro, try_except.
    unfold bind at 1. unfold Respaldo.si_falla at 1. rewrite H1.
    unfold ret at 1. unfold bind at 1.
    rewrite (bucle_scroll_completo er w turnos H2 None []);
      [| reflexivity | cbn [RespaldoQdrant.desde]; fold L; lia].
    fold L. unfold bind at 1. unfold Respaldo.si_falla at 1. rewrite H3.
    unfold ret at 1. unfold bind at 1.
    assert (Hj : es_json (RespaldoQdrant.backup_data_de er L) = true).
    { unfold RespaldoQdrant.backup_data_de, RespaldoQdrant.metadata_de.
      cbn [es_json forallb snd andb].
      rewrite andb_true_r. apply forallb_forall. intros v Hv.
      apply in_map_iff in Hv. destruct Hv as ([i p] & <- & Hin).
      unfold RespaldoQdrant.vector_data. cbn [fst snd].
      change (es_json (PFloats (vector p))
              && (es_json (PDict (payload p)) && true) = true).
      rewrite es_json_PFloats, andb_true_r. cbn [andb].
      apply (Hjson i p). apply elem_of_map_to_list.
      apply list_elem_of_In. apply (Permutation_in _ Hperm). exact Hin. }
    rewrite Hj. cbn [negb Respaldo.si_falla]. unfold ret. reflexivity.
  - cbn [json_load RespaldoQdrant.total_vectores].
    split; [reflexivity |]. split; [exact Hperm |].
    split; [apply puntos_ordenados_ordenado |].
    split; [rewrite Hlen; reflexivity |].
    apply validar_backup_qdrant_valido.
    eexists. eexists. eexists. eexists.
    split; [reflexivity |]. split; [reflexivity |].
    split; [reflexivity |]. split; [reflexivity |].
    split; [repeat constructor |].
    exists (Z.of_nat (length (map (RespaldoQdrant.vector_data) L))),
           (PInt (Z.of_nat (length L))).
    split; [reflexivity |]. split; [reflexivity |].
    cbn [py_eq_int]. rewrite length_map. apply Z.eqb_refl.
Qed.

Lemma el_backup_de_qdrant_tiene_cada_punto_witness :
  exists a info,
    RespaldoQdrant.crear_backup_coleccion respaldo_qdrant_ejemplo 2
      mundo_con_vector = (Ok (Some (a, info)), mundo_con_vector)
    /\ RespaldoQdrant.total_vectores info = 1
    /\ valido (validar_backup_qdrant (Some a)) = true.
Proof.
  assert (Hs : (size (vectores mundo_con_vector) < 2)%nat).
  { vm_compute. lia. }
  assert (Hj : map_Forall
                 (fun _ p => es_json (PDict (payload p)) = true)
                 (vectores mundo_con_vector)).
  { intros i p Hp.
    assert (Hi : vectores mundo_con_vector
                 = {[ 4195510762 :=
                        {| vector := embedding_ejemplo;
                           payload := payload_insertar documento_ejemplo
                                        embedding_ejemplo
                                        "archivo: playa.jpg" |} ]}).
    { vm_compute. reflexivity. }
    rewrite Hi in Hp. apply lookup_singleton_Some in Hp as [_ <-].
    vm_compute. reflexivity. }
  destruct (el_backup_de_qdrant_tiene_cada_punto respaldo_qdrant_ejemplo
              mundo_con_vector 2 eq_refl eq_refl eq_refl Hs Hj)
    as (a & info & puntos & Hc & _ & _ & _ & Ht & Hv).
  exists a, info. split; [exact Hc |]. split; [| exact Hv].
  rewrite Ht. vm_compute. reflexivity.
Defined.

(** ** Restore of the Qdrant collection *)

Lemma puntos_de_incompleto er v elementos :
  In v elementos -> punto_completo v = false ->
  exists e, RestauracionQdrant.puntos_de er elementos = Error e.
Proof.
  intros Hin Hv. induction elementos as [| x l IH]; [destruct Hin |].
  cbn [RestauracionQdrant.puntos_de].
  destruct (py_getitem x "id") as [i | e] eqn:E1; cbn [rbind]; [| eauto].
  destruct (py_getitem x "vector") as [vec | e] eqn:E2; cbn [rbind];
    [| eauto].
  destruct (py_getitem x "payload") as [p | e] eqn:E3; cbn [rbind];
    [| eauto].
  destruct Hin as [-> | Hin].
  - unfold punto_completo in Hv. rewrite E1, E2, E3 in Hv. discriminate Hv.
  - destruct (RestauracionQdrant.PointStruct er i vec p); cbn [rbind];
      [| eauto].
    destruct (IH Hin) as [e He]. rewrite He. cbn [rbind]. eauto.
Qed.

Lemma restaurar_qdrant_pasos er a backup_data metadata elementos w :
  json_load a = JsonOk backup_data ->
  py_getitem backup_data "metadata" = Ok metadata ->
  py_getitem backup_data "vectors" = Ok (PList elementos) ->
  RestauracionQdrant.delete_collection_falla er = false ->
  let w0 := {| mongo := mongo w; vectores := ∅; traza := traza w |} in
  RestauracionQdrant.restaurar_coleccion er (Some a) true w
  = con_registro "restaurar_coleccion"
      (Respaldo.si_falla (RestauracionQdrant.ensure_collection_falla er)
         "UnexpectedResponse: create_collection" ;;;
       points <- lift (RestauracionQdrant.puntos_de er elementos) ;;
       let n := Z.of_nat (length points) in
       inicios <- lift (py_range n 100) ;;
       RestauracionQdrant.upsert_lotes er points 100 inicios ;;;
       Respaldo.si_falla (RestauracionQdrant.get_collection_falla er)
         "UnexpectedResponse: get_collection" ;;;
       w' <- leer_mundo ;;
       ret {| RestauracionQdrant.total_vectores_restaurados := n;
              RestauracionQdrant.total_vectores_en_coleccion :=
                Z.of_nat (size (vectores w'));
              RestauracionQdrant.metadata_backup := metadata |}) w0.
Proof.
  intros Hj Hm Hd Hf w0.
  unfold RestauracionQdrant.restaurar_coleccion. rewrite Hj.
  unfold con_registro, try_except.
  match goal with
  | |- match ?m1 w with _ => _ end = match ?m2 w0 with _ => _ end =>
      assert (H : m1 w = m2 w0); [| rewrite H; reflexivity]
  end.
  unfold bind at 1. unfold lift at 1.
  rewrite (py_getitem_contains _ _ _ Hm).
  unfold bind at 1. unfold lift at 1.
  rewrite (py_getitem_contains _ _ _ Hd). cbn [negb].
  unfold bind at 1. unfold lift at 1. rewrite Hm.
  unfold bind at 1. unfold lift at 1. rewrite Hd.
  unfold bind at 1. unfold lift at 1. cbn [py_len].
  unfold bind at 1. unfold RestauracionQdrant.recrear at 1.
  unfold bind at 1. unfold Respaldo.si_falla at 1. rewrite Hf.
  unfold ret at 1. unfold bind at 1. unfold poner_qdrant at 1.
  cbn [mongo traza]. fold w0.
  unfold Respaldo.si_falla.
  destruct (RestauracionQdrant.ensure_collection_falla er).
  - reflexivity.
  - reflexivity.
Qed.

(** X19: [restaurar_coleccion] of Qdrant deletes the collection before it
    looks at the vectors of the file: when an entry of the file lacks its
    id, its vector or its payload, which [validar_backup] does not check,
    it raises and leaves the collection without points, whatever it
    held. *)
Theorem restaurar_qdrant_borra_antes_de_mirar :
  forall er a backup_data metadata elementos v w,
    json_load a = JsonOk backup_data ->
    py_getitem backup_data "metadata" = Ok metadata ->
    py_getitem backup_data "vectors" = Ok (PList elementos) ->
    In v elementos -> punto_completo v = false ->
    RestauracionQdrant.delete_collection_falla er = false ->
    exists e w',
      RestauracionQdrant.restaurar_coleccion er (Some a) true w
      = (Error e, w')
      /\ vectores w' = ∅
      /\ mongo w' = mongo w.
Proof.
  intros er a bd md elementos v w Hj Hm Hd Hin Hv Hf.
  rewrite (restaurar_qdrant_pasos er a bd md elementos w Hj Hm Hd Hf).
  destruct (puntos_de_incompleto er v elementos Hin Hv) as [e He].
  unfold con_registro, try_except. unfold bind at 1.
  unfold Respaldo.si_falla.
  destruct (RestauracionQdrant.ensure_collection_falla er).
  - unfold raise at 1. unfold bind, registrar, raise.
    cbn [mongo vectores traza]. eauto.
  - unfold ret at 1. unfold bind at 1. unfold lift at 1. rewrite He.
    unfold bind, registrar, raise. cbn [mongo vectores traza]. eauto.
Qed.

Lemma restaurar_qdrant_borra_antes_de_mirar_witness :
  valido (validar_backup_qdrant (Some archivo_sin_payload)) = true
  /\ exists e w',
       RestauracionQdrant.restaurar_coleccion restauracion_ejemplo
         (Some archivo_sin_payload) true mundo_con_vector = (Error e, w')
       /\ vectores w' = ∅
       /\ mongo w' = mongo mundo_con_vector.
Proof.
  split; [vm_compute; reflexivity |].
  apply (restaurar_qdrant_borra_antes_de_mirar restauracion_ejemplo
           archivo_sin_payload _ _ _
           (PDict [ ("id", PInt 7); ("vector", PFloats embedding_ejemplo) ])
           mundo_con_vector eq_refl eq_refl eq_refl).
  - left. reflexivity.
  - reflexivity.
  - reflexivity.
Defined.

Lemma backup_data_es_json eb w :
  map_Forall (fun _ p => es_json (PDict (payload p)) = true) (vectores w) ->
  es_json (RespaldoQdrant.backup_data_de eb
             (RespaldoQdrant.puntos_ordenados (vectores w))) = true.
Proof.
  intros Hjson.
  unfold RespaldoQdrant.backup_data_de, RespaldoQdrant.metadata_de.
  cbn [es_json forallb snd andb].
  rewrite andb_true_r. apply forallb_forall. intros v Hv.
  apply in_map_iff in Hv. destruct Hv as ([i p] & <- & Hin).
  unfold RespaldoQdrant.vector_data. cbn [fst snd].
  change (es_json (PFloats (vector p))
          && (es_json (PDict (payload p)) && true) = true).
  rewrite es_json_PFloats, andb_true_r. cbn [andb].
  apply (Hjson i p). apply elem_of_map_to_list.
  apply list_elem_of_In.
  apply (Permutation_in _ (puntos_ordenados_perm (vectores w))). exact Hin.
Qed.

Lemma crear_backup_qdrant_ok eb w turnos :
  RespaldoQdrant.get_collection_falla eb = false ->
  RespaldoQdrant.scroll_falla eb = false ->
  RespaldoQdrant.open_falla eb = false ->
  (size (vectores w) < turnos)%nat ->
  map_Forall (fun _ p => es_json (PDict (payload p)) = true) (vectores w) ->
  let L := RespaldoQdrant.puntos_ordenados (vectores w) in
  let backup_data := RespaldoQdrant.backup_data_de eb L in
  RespaldoQdrant.crear_backup_coleccion eb turnos w
  = (Ok (Some
           ({| json_load := JsonOk backup_data;
               sha256_hexdigest :=
                 RespaldoQdrant.sha256_del_volcado eb backup_data;
               getsize := RespaldoQdrant.tamano_del_volcado eb backup_data |},
            {| RespaldoQdrant.total_vectores := Z.of_nat (length L);
               RespaldoQdrant.tamano_archivo :=
                 RespaldoQdrant.tamano_del_volcado eb backup_data;
               RespaldoQdrant.hash_sha256 :=
                 RespaldoQdrant.sha256_del_volcado eb backup_data;
               RespaldoQdrant.fecha_backup :=
                 RespaldoQdrant.isoformat_now eb |})),
     w).
Proof.
  intros H1 H2 H3 Hsize Hjson L backup_data.
  assert (Hlen : length L = size (vectores w)).
  { unfold L. rewrite (Permutation_length (puntos_ordenados_perm _)).
    apply length_map_to_list. }
  unfold RespaldoQdrant.crear_backup_coleccion, con_registro, try_except.
  unfold bind at 1. unfold Respaldo.si_falla at 1. rewrite H1.
  unfold ret at 1. unfold bind at 1.
  rewrite (bucle_scroll_completo eb w turnos H2 None []);
    [| reflexivity | cbn [RespaldoQdrant.desde]; fold L; lia].
  fold L. unfold bind at 1. unfold Respaldo.si_falla at 1. rewrite H3.
  unfold ret at 1. unfold bind at 1.
  unfold L. rewrite (backup_data_es_json eb w Hjson).
  cbn [negb Respaldo.si_falla]. unfold ret. reflexivity.
Qed.

Lemma puntos_de_backup er L :
  Forall (fun x =>
            RestauracionQdrant.PointStruct er (PInt (fst x))
              (PFloats (vector (snd x))) (PDict (payload (snd x)))
            = Ok x) L ->
  RestauracionQdrant.puntos_de er (map RespaldoQdrant.vector_data L)
  = Ok L.
Proof.
  induction 1 as [| x L Hx _ IH]; [reflexivity |].
  cbn [map RestauracionQdrant.puntos_de].
  unfold RespaldoQdrant.vector_data at 1 2 3.
  change (py_getitem (PDict [("id", PInt (fst x));
                             ("vector", PFloats (vector (snd x)));
                             ("payload", PDict (payload (snd x)))]) "id")
    with (Ok (PInt (fst x))).
  change (py_getitem (PDict [("id", PInt (fst x));
                             ("vector", PFloats (vector (snd x)));
                             ("payload", PDict (payload (snd x)))]) "vector")
    with (Ok (PFloats (vector (snd x)))).
  change (py_getitem (PDict [("id", PInt (fst x));
                             ("vector", PFloats (vector (snd x)));
                             ("payload", PDict (payload (snd x)))]) "payload")
    with (Ok (PDict (payload (snd x)))).
  cbn [rbind]. rewrite Hx. cbn [rbind]. rewrite IH. reflexivity.
Qed.

Lemma upsert_lotes_ok er L :
  (forall b, RestauracionQdrant.upsert_falla er b = false) ->
  forall n s w,
    RestauracionQdrant.upsert_lotes er L 100 (inicios 100 s n) w
    = (Ok tt,
       {| mongo := mongo w;
          vectores :=
            fold_left (fun q point => <[fst point := snd point]> q)
              (firstn (n * 100) (skipn (s * 100) L)) (vectores w);
          traza := traza w |}).
Proof.
  intros Hf. induction n as [| n IH]; intros s w.
  - cbn [inicios seq map RestauracionQdrant.upsert_lotes firstn Nat.mul
         fold_left].
    unfold ret. destruct w; reflexivity.
  - unfold inicios. cbn [seq map]. fold (inicios 100 (S s) n).
    cbn [RestauracionQdrant.upsert_lotes]. unfold bind at 1.
    unfold RestauracionQdrant.upsert, Respaldo.si_falla.
    rewrite Hf. unfold bind at 1 2. unfold ret at 1.
    unfold leer_mundo, poner_qdrant.
    rewrite entre_lote by lia. change (Z.to_nat 100) with 100%nat.
    rewrite IH. cbn [mongo vectores traza].
    f_equal. f_equal.
    replace (S n * 100)%nat with (100 + n * 100)%nat by lia.
    rewrite firstn_suma, fold_left_app. f_equal. f_equal.
    replace (S s * 100)%nat with (100 + s * 100)%nat by lia.
    rewrite <- skipn_skipn. reflexivity.
Qed.

Lemma upsert_de_todos (q : gmap Z Punto) (L : list (Z * Punto)) :
  Permutation L (map_to_list q) ->
  fold_left (fun m point => <[fst point := snd point]> m) L ∅ = q.
Proof.
  intros Hp.
  rewrite <- fold_left_rev_right.
  change (fold_right (fun (y : Z * Punto) (x : gmap Z Punto) =>
                        <[fst y := snd y]> x) ∅ (rev L))
    with (list_to_map (rev L) : gmap Z Punto).
  assert (Hr : Permutation (rev L) (map_to_list q)).
  { rewrite <- Hp. symmetry. apply Permutation_rev. }
  transitivity (list_to_map (map_to_list q) : gmap Z Punto);
    [| apply list_to_map_to_list].
  apply list_to_map_proper; [| exact Hr].
  rewrite Hr. apply NoDup_fst_map_to_list.
Qed.

(** X20: the points of a collection are restored exactly by
    [restaurar_coleccion] from the file [crear_backup_coleccion] wrote,
    whatever the collection held at the time of the restore, and MongoDB
    is not touched; no call failing, the payloads holding plain JSON and
    [PointStruct] taking each point as the backup wrote it. *)
Theorem restaurar_qdrant_devuelve_lo_respaldado :
  forall eb er w w0 turnos,
    RespaldoQdrant.get_collection_falla eb = false ->
    RespaldoQdrant.scroll_falla eb = false ->
    RespaldoQdrant.open_falla eb = false ->
    (size (vectores w) < turnos)%nat ->
    map_Forall (fun _ p => es_json (PDict (payload p)) = true) (vectores w) ->
    RestauracionQdrant.delete_collection_falla er = false ->
    RestauracionQdrant.ensure_collection_falla er = false ->
    (forall b, RestauracionQdrant.upsert_falla er b = false) ->
    RestauracionQdrant.get_collection_falla er = false ->
    (forall i p,
       vectores w !! i = Some p ->
       RestauracionQdrant.PointStruct er (PInt i) (PFloats (vector p))
         (PDict (payload p)) = Ok (i, p)) ->
    exists a info r w1,
      RespaldoQdrant.crear_backup_coleccion eb turnos w
      = (Ok (Some (a, info)), w)
      /\ RestauracionQdrant.restaurar_coleccion er (Some a) true w0
         = (Ok r, w1)
      /\ vectores w1 = vectores w
      /\ mongo w1 = mongo w0
      /\ RestauracionQdrant.total_vectores_restaurados r
         = Z.of_nat (size (vectores w))
      /\ RestauracionQdrant.total_vectores_en_coleccion r
         = Z.of_nat (size (vectores w)).
Proof.
  intros eb er w w0 turnos B1 B2 B3 Hsize Hjson R1 R2 R3 R4 Hps.
  set (L := RespaldoQdrant.puntos_ordenados (vectores w)).
  assert (Hperm : Permutation L (map_to_list (vectores w)))
    by apply puntos_ordenados_perm.
  assert (Hlen : length L = size (vectores w)).
  { rewrite (Permutation_length Hperm). apply length_map_to_list. }
  assert (Hpuntos : RestauracionQdrant.puntos_de er
                      (map RespaldoQdrant.vector_data L) = Ok L).
  { apply puntos_de_backup. apply List.Forall_forall. intros [i p] Hin.
    cbn [fst snd]. apply Hps. apply elem_of_map_to_list.
    apply list_elem_of_In. apply (Permutation_in _ Hperm). exact Hin. }
  pose proof (py_range_positivo (Z.of_nat (length L)) 100
                ltac:(lia) ltac:(lia)) as [Hrange Hcota].
  set (n := Z.to_nat ((Z.of_nat (length L) + 100 - 1) / 100)) in *.
  assert (Hn : (length L <= n * 100)%nat) by (clearbody n; lia).
  eexists. eexists. eexists. eexists.
  split; [apply crear_backup_qdrant_ok; assumption |].
  fold L.
  erewrite restaurar_qdrant_pasos;
    [| reflexivity | reflexivity | reflexivity | exact R1].
  unfold con_registro, try_except.
  unfold bind at 1. unfold Respaldo.si_falla at 1. rewrite R2.
  unfold ret at 1. unfold bind at 1. unfold lift at 1. rewrite Hpuntos.
  unfold bind at 1. unfold lift at 1. rewrite Hrange.
  unfold bind at 1. rewrite (upsert_lotes_ok er L R3 n 0).
  cbn [mongo vectores traza Nat.mul].
  change (skipn 0 L) with L. rewrite firstn_all2 by exact Hn.
  rewrite (upsert_de_todos (vectores w) L Hperm).
  unfold bind at 1. unfold Respaldo.si_falla. rewrite R4.
  unfold ret at 1. unfold bind, leer_mundo, ret. cbn [vectores].
  split; [reflexivity |]. cbn [mongo vectores].
  rewrite Hlen. repeat split; reflexivity.
Qed.

Lemma restaurar_qdrant_devuelve_lo_respaldado_witness :
  exists a info r w1,
    RespaldoQdrant.crear_backup_coleccion respaldo_qdrant_ejemplo 2
      mundo_con_vector = (Ok (Some (a, info)), mundo_con_vector)
    /\ RestauracionQdrant.restaurar_coleccion restauracion_ejemplo (Some a)
         true mundo_ejemplo = (Ok r, w1)
    /\ vectores w1 = vectores mundo_con_vector
    /\ mongo w1 = coleccion_ejemplo.
Proof.
  assert (Hi : vectores mundo_con_vector
               = {[ 4195510762 :=
                      {| vector := embedding_ejemplo;
                         payload := payload_insertar documento_ejemplo
                                      embedding_ejemplo
                                      "archivo: playa.jpg" |} ]}).
  { vm_compute. reflexivity. }
  assert (Hs : (size (vectores mundo_con_vector) < 2)%nat).
  { vm_compute. lia. }
  assert (Hj : map_Forall
                 (fun _ p => es_json (PDict (payload p)) = true)
                 (vectores mundo_con_vector)).
  { intros i p Hp. rewrite Hi in Hp.
    apply lookup_singleton_Some in Hp as [_ <-]. vm_compute. reflexivity. }
  assert (Hps : forall i p,
            vectores mundo_con_vector !! i = Some p ->
            RestauracionQdrant.PointStruct restauracion_ejemplo (PInt i)
              (PFloats (vector p)) (PDict (payload p)) = Ok (i, p)).
  { intros i p Hp. rewrite Hi in Hp.
    apply lookup_singleton_Some in Hp as [<- <-]. vm_compute. reflexivity. }
  destruct (restaurar_qdrant_devuelve_lo_respaldado respaldo_qdrant_ejemplo
              restauracion_ejemplo mundo_con_vector mundo_ejemplo 2
              eq_refl eq_refl eq_refl Hs Hj eq_refl eq_refl
              (fun _ => eq_refl) eq_refl Hps)
    as (a & info & r & w1 & Hc & Hr & Hv & Hm & _).
  exists a, info, r, w1. repeat split; assumption.
Defined.

(** ** [_ensure_collection] *)

(** X21: [_ensure_collection] keeps the points of a collection whose
    vectors have the size of the model, whatever raises; a collection of
    another size that it can read and delete loses all its points, and
    when creating it anew raises the method still returns normally, with
    no collection left. *)
Theorem ensure_collection_vacia_otra_dimension :
  forall ec c,
    (Coleccion.dimension c = Coleccion.vector_size ->
     snd (Coleccion._ensure_collection ec (Some c)) = Some c)
    /\ (Coleccion.dimension c <> Coleccion.vector_size ->
        Coleccion.get_collections_falla ec = false ->
        Coleccion.get_collection_falla ec = false ->
        Coleccion.delete_collection_falla ec = false ->
        Coleccion._ensure_collection ec (Some c)
        = (Ok tt,
           if Coleccion.create_collection_falla ec then None
           else Some {| Coleccion.dimension := 768;
                        Coleccion.puntos := ∅ |})).
Proof.
  intros ec c. unfold Coleccion._ensure_collection,
    Coleccion.verificar_dimension. split.
  - intros Hd. apply Z.eqb_eq in Hd. rewrite Hd.
    destruct (Coleccion.get_collections_falla ec); [reflexivity |].
    destruct (Coleccion.get_collection_falla ec); reflexivity.
  - intros Hd H1 H2 H3. apply Z.eqb_neq in Hd.
    rewrite H1, H2, Hd, H3. reflexivity.
Qed.

Lemma ensure_collection_vacia_otra_dimension_witness :
  Coleccion._ensure_collection
    {| Coleccion.get_collections_falla := false;
       Coleccion.create_collection_falla := true;
       Coleccion.get_collection_falla := false;
       Coleccion.delete_collection_falla := false |}
    (Some {| Coleccion.dimension := 384;
             Coleccion.puntos := vectores mundo_con_vector |})
  = (Ok tt, None).
Proof.
  rewrite (proj2 (ensure_collection_vacia_otra_dimension _ _));
    [reflexivity | discriminate | reflexivity ..].
Defined.

(** ** Ties in the ranking *)

Lemma con_puntuacion_insertar s x l :
  con_puntuacion s (insertar_ordenado x l)
  = if Qeq_bool (similitud x) s then x :: con_puntuacion s l
    else con_puntuacion s l.
Proof.
  unfold con_puntuacion.
  induction l as [| y l IH]; cbn [insertar_ordenado List.filter].
  - destruct (Qeq_bool (similitud x) s); reflexivity.
  - destruct (Qlt_bool (similitud x) (similitud y)) eqn:E;
      cbn [List.filter].
    + rewrite IH.
      destruct (Qeq_bool (similitud x) s) eqn:Ex; [| reflexivity].
      destruct (Qeq_bool (similitud y) s) eqn:Ey; [| reflexivity].
      exfalso. unfold Qlt_bool in E. apply negb_true_iff in E.
      apply Qeq_bool_iff in Ex. apply Qeq_bool_iff in Ey.
      assert (H : Qle_bool (similitud y) (similitud x) = true).
      { apply Qle_bool_iff. rewrite Ex, Ey. apply Qle_refl. }
      congruence.
    + destruct (Qeq_bool (similitud x) s); reflexivity.
Qed.

Lemma con_puntuacion_ordenar s l :
  con_puntuacion s (ordenar l) = con_puntuacion s l.
Proof.
  induction l as [| x l IH]; [reflexivity |].
  unfold ordenar. cbn [fold_right]. fold (ordenar l).
  rewrite con_puntuacion_insertar, IH. unfold con_puntuacion.
  cbn [List.filter]. reflexivity.
Qed.

(** X22: the ranking of [buscar_hibrida] is stable: in the sorted list
    it cuts to the limit, the results with one and the same score keep the
    order in which their keys first appeared, text results before
    semantic ones; a limit that is not below the number of results cuts
    nothing. *)
Theorem buscar_hibrida_conserva_el_orden_en_empates :
  forall (texto semanticos : list ResultadoBusqueda) (limite : Z) (s : Q),
    let unicos := resultados_unicos texto semanticos in
    exists fusion,
      buscar_hibrida (Ok texto) (Ok semanticos) limite
      = Ok (hasta limite fusion)
      /\ con_puntuacion s fusion = con_puntuacion s unicos
      /\ (Z.of_nat (length unicos) <= limite -> hasta limite fusion = fusion).
Proof.
  intros texto semanticos limite s unicos.
  exists (ordenar unicos). split; [reflexivity |].
  split; [apply con_puntuacion_ordenar |].
  intros Hl. unfold hasta.
  destruct (0 <=? limite) eqn:E; [| apply Z.leb_gt in E; lia].
  apply firstn_all2.
  rewrite (Permutation_length (ordenar_perm _)). lia.
Qed.

(** ** The record of a document whose key is its [_id] *)

(** X23: when the document's [id_hash] is the [_id] of its stored record,
    a turn of the batch in which the embedding is generated and neither
    write to MongoDB raises leaves that record with the embedding, the
    text that was embedded as its description and [qdrant: True], and
    with every other field as it was. *)
Theorem registro_marcado_tiene_su_embedding :
  forall env cb d k emb c w x0,
    no_cancela cb ->
    id d = Some k -> id_hash d = Some k ->
    embed_query env (crear_texto env d) = Ok emb ->
    mongo_update_falla env (Some k)
      ["embedding"; "descripcion_semantica"] = false ->
    mongo_update_falla env (Some k) ["qdrant"] = false ->
    List.find (coincide_id (Some k)) (mongo w) = Some x0 ->
    let w' := snd (procesar_uno env cb d c w) in
    exists x,
      List.find (coincide_id (Some k)) (mongo w') = Some x
      /\ assoc_get "embedding" x = Some (PFloats emb)
      /\ assoc_get "descripcion_semantica" x
         = Some (PStr (crear_texto env d))
      /\ assoc_get "qdrant" x = Some (PBool true)
      /\ (forall campo, campo_del_lote campo = false ->
                        assoc_get campo x = assoc_get campo x0).
Proof.
  intros env cb d k emb c w x0 Hc Hid Hk He Hm Hq Hx0 w'. subst w'.
  rewrite procesar_uno_forma. cbn [snd].
  rewrite <- Hk in Hm.
  rewrite (procesar_documento_hasta_qdrant env d cb emb w Hc He Hm).
  destruct (guardar_en_qdrant_no_lanza env d emb (crear_texto env d)
              (tras_mongo (id_hash d) emb (crear_texto env d) w))
    as (w1 & Hg & Hmongo).
  rewrite Hg. cbn [snd cerrar_turno].
  rewrite Hid. rewrite update_one_ok by exact Hq.
  unfold anotar. cbn [mongo]. rewrite Hmongo.
  unfold tras_mongo. cbn [mongo]. rewrite Hk.
  rewrite !find_update_first by reflexivity. rewrite Hx0.
  cbn [option_map]. eexists. split; [reflexivity |].
  set (t := crear_texto env d).
  unfold set_campos, campos_embedding. cbn [fold_left fst snd].
  split.
  { rewrite assoc_get_set_campo by reflexivity.
    rewrite assoc_get_set_campo by reflexivity.
    apply assoc_get_set_campo_mismo. }
  split.
  { rewrite assoc_get_set_campo by reflexivity.
    apply assoc_get_set_campo_mismo. }
  split; [apply assoc_get_set_campo_mismo |].
  intros campo Hcampo. unfold campo_del_lote in Hcampo.
  cbn [existsb] in Hcampo.
  apply orb_false_iff in Hcampo as [H1 Hcampo].
  apply orb_false_iff in Hcampo as [H2 Hcampo].
  apply orb_false_iff in Hcampo as [H3 _].
  rewrite !assoc_get_set_campo by assumption. reflexivity.
Qed.

Lemma registro_marcado_tiene_su_embedding_witness :
  exists x,
    List.find (coincide_id (Some clave_ejemplo))
      (mongo (snd (procesar_uno entorno_ejemplo None documento_ejemplo
                     contadores_cero mundo_ejemplo))) = Some x
    /\ assoc_get "embedding" x = Some (PFloats embedding_ejemplo)
    /\ assoc_get "qdrant" x = Some (PBool true).
Proof.
  destruct (registro_marcado_tiene_su_embedding entorno_ejemplo None
              documento_ejemplo clave_ejemplo embedding_ejemplo
              contadores_cero mundo_ejemplo (to_dict documento_ejemplo)
              no_cancela_None eq_refl eq_refl eq_refl eq_refl eq_refl)
    as (x & H1 & H2 & _ & H4 & _).
  { vm_compute. reflexivity. }
  exists x. repeat split; assumption.
Defined.

(** ** The alternative path of an image *)

Lemma startswith_partes s p :
  startswith s p = true ->
  s = String.append p (desde_indice (String.length p) s).
Proof.
  revert s. induction p as [| a p IH]; intros s H; [reflexivity |].
  destruct s as [| b s]; [discriminate H |].
  cbn [startswith] in H. apply andb_true_iff in H as [Hab Hp].
  apply Ascii.eqb_eq in Hab. subst b.
  cbn [String.length desde_indice].
  change (String.append (String a p) (desde_indice (String.length p) s))
    with (String a (String.append p (desde_indice (String.length p) s))).
  rewrite <- (IH s Hp). reflexivity.
Qed.

Lemma ruta_bajo_la_base s :
  _generar_ruta_alternativa (String.append ruta_base s)
  = String.append ruta_alternativa_base s.
Proof. vm_compute. reflexivity. Qed.

Lemma ruta_bajo_la_alternativa s :
  _generar_ruta_alternativa (String.append ruta_alternativa_base s)
  = String.append ruta_alternativa_base s.
Proof. vm_compute. reflexivity. Qed.

(** X24: [_generar_ruta_alternativa] moves what follows the remote base
    under the local base and leaves any other path as it is; it compares
    characters, not directories, so a sibling directory whose name begins
    with the name of the base is moved as well; and applied twice it
    gives what it gives once, because a path under the local base is its
    own alternative: the remote and the local copy of a file have the
    same alternative path. *)
Theorem ruta_alternativa_idempotente :
  forall r s : string,
    _generar_ruta_alternativa (_generar_ruta_alternativa r)
    = _generar_ruta_alternativa r
    /\ _generar_ruta_alternativa (ruta_base ++ s)
       = (ruta_alternativa_base ++ s)%string
    /\ _generar_ruta_alternativa (ruta_alternativa_base ++ s)
       = _generar_ruta_alternativa (ruta_base ++ s)
    /\ (startswith r ruta_base = false -> _generar_ruta_alternativa r = r).
Proof.
  intros r s. split; [| split; [| split]].
  - destruct (startswith r ruta_base) eqn:E.
    + rewrite (startswith_partes r ruta_base E) at 1 2.
      rewrite ruta_bajo_la_base. apply ruta_bajo_la_alternativa.
    + unfold _generar_ruta_alternativa at 2. rewrite E.
      unfold _generar_ruta_alternativa. rewrite E. reflexivity.
  - apply ruta_bajo_la_base.
  - rewrite ruta_bajo_la_base. apply ruta_bajo_la_alternativa.
  - intros E. unfold _generar_ruta_alternativa. rewrite E. reflexivity.
Qed.
